(** * Concept library: the embedding-indexed storage engine

    A shallow embedding of [concept_library.py]: the [SQLiteStorage] record
    store with its Annoy index, and the [ConceptLibrary] facade over it.

    The three libraries the program calls ([json], [sqlite3], [annoy]) are
    modelled first, each in a module of its own; the program's classes follow,
    method by method, over a small exception/state monad. *)

From Stdlib Require Import ZArith NArith QArith Ascii String List Decimal DecimalN Lia Bool.
From stdpp Require Import gmap strings list sorting fin_maps.

Import ListNotations.
Local Open Scope Z_scope.

(** ** Python exceptions and results *)

Inductive exn :=
| TypeError          (* json.dumps on a value it cannot serialise, bad item *)
| JSONDecodeError    (* json.loads on malformed text *)
| IndexError         (* annoy: vector of the wrong length *)
| OSError            (* annoy: load of an unusable file *)
| FileNotFoundError
| ProgrammingError   (* sqlite3: operation on a closed connection *)
| OperationalError   (* sqlite3: no such table, database full *)
| AnnoyError.        (* annoy: add_item/build on a built index *)

Inductive result (A : Type) :=
| Ok (a : A)
| Raise (e : exn).
Arguments Ok {A} a.
Arguments Raise {A} e.

Definition is_ok {A} (r : result A) : bool :=
  match r with Ok _ => true | Raise _ => false end.

(** ** The [json] module: values, [dumps], [loads] *)

Module Json.

(** Python values as far as the program passes them to [json]: the JSON
    compatible ones, and [PyOther] for any object [json.dumps] rejects (a set,
    bytes, ...).  A float is kept as the decimal [m * 10^e] that its literal
    denotes, the non-finite ones left out; a dict has string keys and is the
    list of its items in insertion order. *)
#[local] Unset Elimination Schemes.
Inductive pyval :=
| PyNone
| PyBool (b : bool)
| PyInt (z : Z)
| PyFloat (m e : Z)
| PyStr (s : string)
| PyList (l : list pyval)
| PyDict (d : list (string * pyval))
| PyOther (tag : nat).
#[local] Set Elimination Schemes.

Local Open Scope char_scope.

Definition dquote : ascii := "034".
Definition backslash : ascii := "\".

(** *** Numbers *)

Fixpoint print_uint (u : Decimal.uint) : list ascii :=
  match u with
  | Nil => []
  | D0 u => "0" :: print_uint u
  | D1 u => "1" :: print_uint u
  | D2 u => "2" :: print_uint u
  | D3 u => "3" :: print_uint u
  | D4 u => "4" :: print_uint u
  | D5 u => "5" :: print_uint u
  | D6 u => "6" :: print_uint u
  | D7 u => "7" :: print_uint u
  | D8 u => "8" :: print_uint u
  | D9 u => "9" :: print_uint u
  end.

Definition print_Z (z : Z) : list ascii :=
  if (z <? 0)%Z then "-" :: print_uint (N.to_uint (Z.abs_N z))
  else print_uint (N.to_uint (Z.abs_N z)).

Definition is_digit (c : ascii) : bool :=
  let n := nat_of_ascii c in (48 <=? n)%nat && (n <=? 57)%nat.

Definition cons_digit (c : ascii) (u : Decimal.uint) : Decimal.uint :=
  match (nat_of_ascii c - 48)%nat with
  | 0%nat => D0 u | 1%nat => D1 u | 2%nat => D2 u | 3%nat => D3 u
  | 4%nat => D4 u | 5%nat => D5 u | 6%nat => D6 u | 7%nat => D7 u
  | 8%nat => D8 u | _ => D9 u
  end.

(** The longest run of digits at the head of the text. *)
Fixpoint scan_uint (s : list ascii) : Decimal.uint * list ascii :=
  match s with
  | c :: r =>
      if is_digit c then let (u, r') := scan_uint r in (cons_digit c u, r')
      else (Nil, s)
  | [] => (Nil, [])
  end.

Definition uint_eqb (u v : Decimal.uint) : bool :=
  if Decimal.uint_eq_dec u v then true else false.

(** [0|[1-9][0-9]*]: no empty run and no leading zero. *)
Definition canonical (u : Decimal.uint) : bool :=
  uint_eqb (N.to_uint (N.of_uint u)) u.

Definition signed (neg : bool) (n : N) : Z :=
  if neg then (- Z.of_N n)%Z else Z.of_N n.

Definition scan_sign (s : list ascii) : bool * list ascii :=
  match s with
  | c :: r => if Ascii.eqb c "-" then (true, r) else (false, s)
  | [] => (false, s)
  end.

(** The exponent part [[eE][+-]?[0-9]+] when the text starts with one. *)
Definition scan_exponent (s : list ascii) : option (option Z * list ascii) :=
  match s with
  | c :: r =>
      if Ascii.eqb c "e" || Ascii.eqb c "E" then
        let (neg, r1) :=
          match r with
          | c1 :: r1 =>
              if Ascii.eqb c1 "-" then (true, r1)
              else if Ascii.eqb c1 "+" then (false, r1) else (false, r)
          | [] => (false, r)
          end in
        match scan_uint r1 with
        | (Nil, _) => None
        | (u, r2) => Some (Some (signed neg (N.of_uint u)), r2)
        end
      else Some (None, s)
  | [] => Some (None, s)
  end.

(** The fraction part [\.[0-9]+] when the text starts with one. *)
Definition scan_fraction (s : list ascii)
  : option (option Decimal.uint * list ascii) :=
  match s with
  | c :: r =>
      if Ascii.eqb c "." then
        match scan_uint r with
        | (Nil, _) => None
        | (u, r1) => Some (Some u, r1)
        end
      else Some (None, s)
  | [] => Some (None, s)
  end.

(** A number literal: an [int] when it has neither fraction nor exponent, a
    [float] otherwise. *)
Definition parse_number (s : list ascii) : option (pyval * list ascii) :=
  let (neg, s1) := scan_sign s in
  let (u, s2) := scan_uint s1 in
  if canonical u then
    match scan_fraction s2 with
    | None => None
    | Some (fr, s3) =>
        match scan_exponent s3 with
        | None => None
        | Some (ex, s4) =>
            match fr, ex with
            | None, None => Some (PyInt (signed neg (N.of_uint u)), s4)
            | None, Some e => Some (PyFloat (signed neg (N.of_uint u)) e, s4)
            | Some f, None =>
                Some (PyFloat (signed neg (N.of_uint (Decimal.app u f)))
                        (- Z.of_nat (Decimal.nb_digits f)), s4)
            | Some f, Some e =>
                Some (PyFloat (signed neg (N.of_uint (Decimal.app u f)))
                        (e - Z.of_nat (Decimal.nb_digits f)), s4)
            end
        end
    end
  else None.

(** What may follow a value in a text: its end, or one of [,], []] and [}]. *)
Definition ends_value (rest : list ascii) : Prop :=
  match rest with
  | [] => True
  | c :: _ => c = "," \/ c = "]" \/ c = "}"
  end.

Definition no_digit (rest : list ascii) : Prop :=
  match rest with
  | [] => True
  | c :: _ => is_digit c = false
  end.

(** *** Strings *)

Definition hex_char (n : nat) : ascii :=
  if (n <? 10)%nat then ascii_of_nat (48 + n) else ascii_of_nat (87 + n).

Definition hex_val (c : ascii) : option nat :=
  let n := nat_of_ascii c in
  if (48 <=? n)%nat && (n <=? 57)%nat then Some (n - 48)%nat
  else if (97 <=? n)%nat && (n <=? 102)%nat then Some (n - 87)%nat
  else if (65 <=? n)%nat && (n <=? 70)%nat then Some (n - 55)%nat
  else None.

(** [ensure_ascii]: control and non-ASCII characters leave as [\u00XX]. *)
Definition escape_char (c : ascii) : list ascii :=
  let n := nat_of_ascii c in
  if Ascii.eqb c dquote then [backslash; dquote]
  else if Ascii.eqb c backslash then [backslash; backslash]
  else if (n =? 10)%nat then [backslash; "n"]
  else if (n =? 13)%nat then [backslash; "r"]
  else if (n =? 9)%nat then [backslash; "t"]
  else if (n =? 8)%nat then [backslash; "b"]
  else if (n =? 12)%nat then [backslash; "f"]
  else if (n <? 32)%nat || (127 <? n)%nat then
    [backslash; "u"; "0"; "0"; hex_char (n / 16); hex_char (n mod 16)]
  else [c].

Fixpoint escape (s : string) : list ascii :=
  match s with
  | EmptyString => []
  | String c r => escape_char c ++ escape r
  end.

Definition print_string (s : string) : list ascii :=
  dquote :: escape s ++ [dquote].

Definition unescape (c : ascii) : option ascii :=
  if Ascii.eqb c dquote then Some dquote
  else if Ascii.eqb c backslash then Some backslash
  else if Ascii.eqb c "/" then Some "/"
  else if Ascii.eqb c "n" then Some (ascii_of_nat 10)
  else if Ascii.eqb c "r" then Some (ascii_of_nat 13)
  else if Ascii.eqb c "t" then Some (ascii_of_nat 9)
  else if Ascii.eqb c "b" then Some (ascii_of_nat 8)
  else if Ascii.eqb c "f" then Some (ascii_of_nat 12)
  else None.

(** The body of a string literal up to its closing quote.  Code points above
    [U+00FF] are outside the model's character type and are refused. *)
Fixpoint parse_string (s : list ascii) : option (string * list ascii) :=
  match s with
  | [] => None
  | c :: r =>
      if Ascii.eqb c dquote then Some (EmptyString, r)
      else if Ascii.eqb c backslash then
        match r with
        | [] => None
        | e :: r1 =>
            if Ascii.eqb e "u" then
              match r1 with
              | h1 :: h2 :: h3 :: h4 :: r2 =>
                  match hex_val h1, hex_val h2, hex_val h3, hex_val h4 with
                  | Some 0%nat, Some 0%nat, Some a, Some b =>
                      match parse_string r2 with
                      | Some (t, r3) =>
                          Some (String (ascii_of_nat (16 * a + b)) t, r3)
                      | None => None
                      end
                  | _, _, _, _ => None
                  end
              | _ => None
              end
            else
              match unescape e with
              | Some d =>
                  match parse_string r1 with
                  | Some (t, r2) => Some (String d t, r2)
                  | None => None
                  end
              | None => None
              end
        end
      else if (nat_of_ascii c <? 32)%nat then None
      else
        match parse_string r with
        | Some (t, r1) => Some (String c t, r1)
        | None => None
        end
  end.

(** *** Values *)

Definition is_ws (c : ascii) : bool :=
  let n := nat_of_ascii c in
  (n =? 32)%nat || (n =? 9)%nat || (n =? 10)%nat || (n =? 13)%nat.

Fixpoint skip_ws (s : list ascii) : list ascii :=
  match s with
  | c :: r => if is_ws c then skip_ws r else s
  | [] => []
  end.

(** What [json.dumps] accepts. *)
Fixpoint serialisable (v : pyval) : bool :=
  match v with
  | PyList l => forallb serialisable l
  | PyDict d => forallb (fun kv => serialisable (snd kv)) d
  | PyOther _ => false
  | _ => true
  end.

(** The text [json.dumps] writes with its default separators [", "] and
    [": "]. *)
Fixpoint print (v : pyval) : list ascii :=
  match v with
  | PyNone => ["n"; "u"; "l"; "l"]
  | PyBool true => ["t"; "r"; "u"; "e"]
  | PyBool false => ["f"; "a"; "l"; "s"; "e"]
  | PyInt z => print_Z z
  | PyFloat m e => print_Z m ++ "e" :: print_Z e
  | PyStr s => print_string s
  | PyList l =>
      "[" :: (fix elems (l : list pyval) : list ascii :=
                match l with
                | [] => ["]"]
                | [x] => print x ++ ["]"]
                | x :: r => print x ++ "," :: " " :: elems r
                end) l
  | PyDict d =>
      "{" :: (fix members (d : list (string * pyval)) : list ascii :=
                match d with
                | [] => ["}"]
                | [(k, x)] => print_string k ++ ":" :: " " :: print x ++ ["}"]
                | (k, x) :: r =>
                    print_string k ++ ":" :: " " :: print x
                      ++ "," :: " " :: members r
                end) d
  | PyOther _ => []
  end.

(** The text after the opening bracket of a list, and after the opening
    brace of a dict. *)
Fixpoint print_elems (l : list pyval) : list ascii :=
  match l with
  | [] => ["]"]
  | [x] => print x ++ ["]"]
  | x :: r => print x ++ "," :: " " :: print_elems r
  end.

Fixpoint print_members (d : list (string * pyval)) : list ascii :=
  match d with
  | [] => ["}"]
  | [(k, x)] => print_string k ++ ":" :: " " :: print x ++ ["}"]
  | (k, x) :: r =>
      print_string k ++ ":" :: " " :: print x ++ "," :: " " :: print_members r
  end.

Definition dumps (v : pyval) : result string :=
  if serialisable v then Ok (string_of_list_ascii (print v))
  else Raise TypeError.

(** [d[k] = v] on a dict: an existing key keeps its place. *)
Fixpoint dict_set (k : string) (v : pyval) (d : list (string * pyval))
  : list (string * pyval) :=
  match d with
  | [] => [(k, v)]
  | (k', v') :: r =>
      if String.eqb k k' then (k, v) :: r else (k', v') :: dict_set k v r
  end.

Definition dict_of_pairs (l : list (string * pyval)) : list (string * pyval) :=
  fold_left (fun d kv => dict_set (fst kv) (snd kv) d) l [].

(** The keys of every dict are distinct, as they are in any dict Python
    builds. *)
Fixpoint well_formed (v : pyval) : bool :=
  match v with
  | PyList l => forallb well_formed l
  | PyDict d =>
      bool_decide (NoDup d.*1) && forallb (fun kv => well_formed (snd kv)) d
  | _ => true
  end.

(** A JSON compatible value: [json.dumps] takes it. *)
Definition compatible (v : pyval) : bool := serialisable v && well_formed v.

(** The number of values [parse_value] has to read for [v]. *)
Fixpoint need (v : pyval) : nat :=
  match v with
  | PyList l =>
      S ((fix elems (l : list pyval) : nat :=
            match l with
            | [] => O
            | x :: r => S (need x + elems r)
            end) l)
  | PyDict d =>
      S ((fix members (d : list (string * pyval)) : nat :=
            match d with
            | [] => O
            | kx :: r => S (need (snd kx) + members r)
            end) d)
  | _ => 1%nat
  end.

Fixpoint need_elems (l : list pyval) : nat :=
  match l with
  | [] => O
  | x :: r => S (need x + need_elems r)
  end.

Fixpoint need_members (d : list (string * pyval)) : nat :=
  match d with
  | [] => O
  | kx :: r => S (need (snd kx) + need_members r)
  end.

(** The text of [v] reads back as [v], whatever follows it. *)
Definition reads_back (parse : nat -> list ascii -> option (pyval * list ascii))
    (v : pyval) : Prop :=
  forall n rest,
    (need v <= n)%nat -> ends_value rest ->
    parse n (print v ++ rest) = Some (v, rest).

(** A text that begins with a character a value can begin with. *)
Definition starts_value (s : list ascii) : Prop :=
  exists c t, s = c :: t /\ is_ws c = false
              /\ Ascii.eqb c "]" = false /\ Ascii.eqb c "}" = false.

Fixpoint starts_with (p s : list ascii) : option (list ascii) :=
  match p with
  | [] => Some s
  | c :: p' =>
      match s with
      | d :: s' => if Ascii.eqb c d then starts_with p' s' else None
      | [] => None
      end
  end.

(** Recursive descent over the text.  One step of each of the three
    readers, over the readers it calls. *)
Section Steps.
Variable value : list ascii -> option (pyval * list ascii).
Variable elems : list ascii -> option (list pyval * list ascii).
Variable members : list ascii -> option (list (string * pyval) * list ascii).

(** A value, after any white space. *)
Definition value_step (s : list ascii) : option (pyval * list ascii) :=
  match skip_ws s with
  | [] => None
  | c :: r =>
      if is_digit c || Ascii.eqb c "-" then parse_number (c :: r)
      else if Ascii.eqb c "n" then
        option_map (pair PyNone) (starts_with ["u"; "l"; "l"] r)
      else if Ascii.eqb c "t" then
        option_map (pair (PyBool true)) (starts_with ["r"; "u"; "e"] r)
      else if Ascii.eqb c "f" then
        option_map (pair (PyBool false)) (starts_with ["a"; "l"; "s"; "e"] r)
      else if Ascii.eqb c dquote then
        match parse_string r with
        | Some (t, r1) => Some (PyStr t, r1)
        | None => None
        end
      else if Ascii.eqb c "[" then
        match skip_ws r with
        | c1 :: r1 =>
            if Ascii.eqb c1 "]" then Some (PyList [], r1)
            else
              match elems r with
              | Some (l, r2) => Some (PyList l, r2)
              | None => None
              end
        | [] => None
        end
      else if Ascii.eqb c "{" then
        match skip_ws r with
        | c1 :: r1 =>
            if Ascii.eqb c1 "}" then Some (PyDict [], r1)
            else
              match members r with
              | Some (d, r2) => Some (PyDict (dict_of_pairs d), r2)
              | None => None
              end
        | [] => None
        end
      else None
  end.

(** The elements of a list, after its opening bracket. *)
Definition elems_step (s : list ascii) : option (list pyval * list ascii) :=
  match value s with
  | Some (x, r) =>
      match skip_ws r with
      | c :: r1 =>
          if Ascii.eqb c "," then
            match elems r1 with
            | Some (l, r2) => Some (x :: l, r2)
            | None => None
            end
          else if Ascii.eqb c "]" then Some ([x], r1)
          else None
      | [] => None
      end
  | None => None
  end.

(** The members of a dict, after its opening brace. *)
Definition members_step (s : list ascii)
  : option (list (string * pyval) * list ascii) :=
  match skip_ws s with
  | q :: r0 =>
      if Ascii.eqb q dquote then
        match parse_string r0 with
        | Some (k, r) =>
            match skip_ws r with
            | c :: r1 =>
                if Ascii.eqb c ":" then
                  match value r1 with
                  | Some (x, r2) =>
                      match skip_ws r2 with
                      | c2 :: r3 =>
                          if Ascii.eqb c2 "," then
                            match members r3 with
                            | Some (d, r4) => Some ((k, x) :: d, r4)
                            | None => None
                            end
                          else if Ascii.eqb c2 "}" then Some ([(k, x)], r3)
                          else None
                      | [] => None
                      end
                  | None => None
                  end
                else None
            | [] => None
            end
        | None => None
        end
      else None
  | [] => None
  end.

End Steps.

(** The readers; [n] bounds the number of values read. *)
Fixpoint parse_value (n : nat) (s : list ascii) : option (pyval * list ascii) :=
  match n with
  | O => None
  | S n => value_step (parse_elems n) (parse_members n) s
  end
with parse_elems (n : nat) (s : list ascii)
  : option (list pyval * list ascii) :=
  match n with
  | O => None
  | S n => elems_step (parse_value n) (parse_elems n) s
  end
with parse_members (n : nat) (s : list ascii)
  : option (list (string * pyval) * list ascii) :=
  match n with
  | O => None
  | S n => members_step (parse_value n) (parse_members n) s
  end.

(** [json.loads]: one value, then nothing but white space. *)
Definition loads (s : string) : result pyval :=
  let t := list_ascii_of_string s in
  match parse_value (S (length t)) t with
  | Some (v, r) =>
      match skip_ws r with
      | [] => Ok v
      | _ :: _ => Raise JSONDecodeError
      end
  | None => Raise JSONDecodeError
  end.

End Json.

(** ** The [sqlite3] module: the [concepts] table behind one connection *)

Module Sqlite.

(** The three TEXT columns of a row; its [id] is the key it is stored under. *)
Record row := Row {
  col_vector : string;
  col_metadata : string;
  col_raw_text : string
}.

(** A table with [id INTEGER PRIMARY KEY AUTOINCREMENT]: at most one row per
    id, and [seq] (the table's entry in [sqlite_sequence]) remembers the
    largest id ever issued. *)
Record table := Table {
  rows : gmap Z row;
  seq : Z
}.

(** A connection with its cursor.  [concepts] is [None] while the database
    has no such table. *)
Record connection := Connection {
  concepts : option table;
  is_open : bool;
  lastrowid : option Z
}.

Definition connect (database : option table) : connection :=
  Connection database true None.

Definition empty_table : table := Table ∅ 0.

Definition max_rowid : Z := 9223372036854775807.

Definition largest_rowid (m : gmap Z row) : Z :=
  map_fold (fun k _ acc => Z.max k acc) 0 m.

(** AUTOINCREMENT: one more than the largest id that ever existed. *)
Definition next_rowid (t : table) : Z :=
  Z.max (seq t) (largest_rowid (rows t)) + 1.

(** [CREATE TABLE IF NOT EXISTS concepts (...)] *)
Definition create_table (c : connection) : result unit * connection :=
  if is_open c then
    match concepts c with
    | Some _ => (Ok tt, c)
    | None => (Ok tt, Connection (Some empty_table) true (lastrowid c))
    end
  else (Raise ProgrammingError, c).

(** [INSERT INTO concepts (vector, metadata, raw_text) VALUES (?, ?, ?)] *)
Definition insert (r : row) (c : connection) : result unit * connection :=
  if is_open c then
    match concepts c with
    | Some t =>
        let id := next_rowid t in
        if id <=? max_rowid then
          (Ok tt, Connection (Some (Table (<[id := r]> (rows t)) id)) true (Some id))
        else (Raise OperationalError, c)
    | None => (Raise OperationalError, c)
    end
  else (Raise ProgrammingError, c).

Definition commit (c : connection) : result unit * connection :=
  if is_open c then (Ok tt, c) else (Raise ProgrammingError, c).

(** [SELECT * FROM concepts WHERE id = ?] followed by [fetchone()] *)
Definition select_by_id (id : Z) (c : connection) : result (option (Z * row)) :=
  if is_open c then
    match concepts c with
    | Some t => Ok (pair id <$> rows t !! id)
    | None => Raise OperationalError
    end
  else Raise ProgrammingError.

Definition rowid_le (a b : Z * row) : Prop := a.1 ≤ b.1.

#[global] Instance rowid_le_dec : RelDecision rowid_le.
Proof. intros a b. unfold rowid_le. apply _. Defined.

(** [SELECT id, vector FROM concepts]: the scan runs in rowid order. *)
Definition select_id_vector (c : connection) : result (list (Z * string)) :=
  if is_open c then
    match concepts c with
    | Some t =>
        Ok ((fun kr => (kr.1, col_vector kr.2))
              <$> merge_sort rowid_le (map_to_list (rows t)))
    | None => Raise OperationalError
    end
  else Raise ProgrammingError.

(** [DELETE FROM concepts WHERE id = ?]: never issued by the program; the
    administrative action against which AUTOINCREMENT guards the ids. *)
Definition delete (id : Z) (c : connection) : connection :=
  match concepts c with
  | Some t => Connection (Some (Table (delete id (rows t)) (seq t)))
                (is_open c) (lastrowid c)
  | None => c
  end.

Definition close (c : connection) : connection :=
  Connection (concepts c) false (lastrowid c).

End Sqlite.

(** ** The [annoy] module: [AnnoyIndex] *)

Module Annoy.

Inductive metric := Angular | Euclidean | Manhattan | Hamming | Dot.

(** A float, as the decimal [m * 10^e]. *)
Definition float : Type := Z * Z.
Definition vector : Type := list float.

(** Modelled from the spec: the Vector Index of section 4.2, standing for the
    [annoy] package, which is not part of the repository.  An index has a
    fixed dimensionality and metric, holds the vector added under each id,
    and answers queries once built; the approximate search is taken at its
    target, the exact nearest neighbours. *)
Record index := Index {
  f : nat;
  metric_of : metric;
  items : gmap Z vector;
  built : bool
}.

(** Modelled from the spec: the persisted index file of section 6; it records
    the dimensionality it was built for, so that [load] can tell a mismatch. *)
Record file := File {
  file_f : nat;
  file_items : gmap Z vector
}.

(** [AnnoyIndex(f, metric)] *)
Definition new (f : nat) (m : metric) : index := Index f m ∅ false.

Definition unload (ix : index) : index :=
  Index (f ix) (metric_of ix) ∅ false.

(** [add_item(i, v)]: refused on a built index, for a negative id and for a
    vector whose length is not the index's dimensionality. *)
Definition add_item (i : Z) (v : vector) (ix : index) : result index :=
  if built ix then Raise AnnoyError
  else if (i <? 0)%Z then Raise IndexError
  else if negb (length v =? f ix)%nat then Raise IndexError
  else Ok (Index (f ix) (metric_of ix) (<[i := v]> (items ix)) false).

Definition build (n_trees : Z) (ix : index) : result index :=
  if built ix then Raise AnnoyError
  else Ok (Index (f ix) (metric_of ix) (items ix) true).

Definition save (ix : index) : result file :=
  if built ix then Ok (File (f ix) (items ix)) else Raise AnnoyError.

(** Modelled from the spec: [load] fails cleanly on a file built for another
    dimensionality (section 4.2).  The [annoy] package itself looks at the
    size of the file only, which this model of a file does not record: it
    takes a file whose size is a multiple of the size of a node of the
    loading index and refuses every other one.  The two agree on a file
    that an index of the same dimensionality and metric has written; the
    properties of the constructor stated below are about such a file, or
    about a disk without an index file, or hold whichever way [load]
    decides. *)
Definition load (fl : file) (ix : index) : result index :=
  if (file_f fl =? f ix)%nat then
    Ok (Index (f ix) (metric_of ix) (file_items fl) true)
  else Raise OSError.

Section Query.

(** The distance the library computes under a metric, in floating point;
    it is left open here. *)
Variable distance : metric -> vector -> vector -> Q.

Definition nearer (m : metric) (q : vector) (a b : Z * vector) : Prop :=
  Qle_bool (distance m q a.2) (distance m q b.2) = true.

#[global] Instance nearer_dec m q : RelDecision (nearer m q).
Proof. intros a b. unfold nearer. apply _. Defined.

(** Modelled from the spec: [query(vector, k)] of section 4.2, up to [k]
    ids, nearest first under the index's metric, as many as the index
    holds when that is fewer.  An index that was never built holds no
    searchable item, and a query vector of the wrong length is refused as
    in [add_item]. *)
Definition get_nns_by_vector (q : vector) (n : nat) (ix : index)
  : result (list Z) :=
  if negb (length q =? f ix)%nat then Raise IndexError
  else if built ix then
    Ok (take n (merge_sort (nearer (metric_of ix) q)
                  (map_to_list (items ix))).*1)
  else Ok [].

(** The distance from the query to the item held under an id. *)
Definition distance_to (ix : index) (q : vector) (id : Z) : Q :=
  match items ix !! id with
  | Some v => distance (metric_of ix) q v
  | None => 0%Q
  end.

End Query.

End Annoy.

(** ** Statements that may raise, over the state of an object *)

Definition M (S A : Type) : Type := S -> result A * S.

Definition ret {S A} (a : A) : M S A := fun s => (Ok a, s).

Definition raise {S A} (e : exn) : M S A := fun s => (Raise e, s).

Definition bind {S A B} (m : M S A) (k : A -> M S B) : M S B :=
  fun s =>
    match m s with
    | (Ok a, s') => k a s'
    | (Raise e, s') => (Raise e, s')
    end.

Definition gets {S A} (get : S -> A) : M S A := fun s => (Ok (get s), s).

Definition modify {S} (upd : S -> S) : M S unit := fun s => (Ok tt, upd s).

(** The value of a call that has no effect on the object. *)
Definition lift {S A} (r : result A) : M S A := fun s => (r, s).

(** [try: body  except handled: handler] *)
Definition try_except {S A} (body : M S A) (handled : exn -> bool)
    (handler : M S A) : M S A :=
  fun s =>
    match body s with
    | (Ok a, s') => (Ok a, s')
    | (Raise e, s') => if handled e then handler s' else (Raise e, s')
    end.

(** [for x in l: body x] *)
Fixpoint for_each {S A} (body : A -> M S unit) (l : list A) : M S unit :=
  match l with
  | [] => ret tt
  | x :: r => bind (body x) (fun _ => for_each body r)
  end.

Declare Scope py_scope.
Delimit Scope py_scope with py.
Notation "x <- m ;; k" := (bind m (fun x => k))
  (at level 20, m at level 99, k at level 200, only parsing) : py_scope.
Notation "m ;; k" := (bind m (fun _ => k))
  (at level 100, k at level 200, only parsing, right associativity) : py_scope.
Local Open Scope py_scope.

(** ** class SQLiteStorage *)

Module SQLiteStorage.

(** The attributes of an instance, together with the file it keeps at
    [annoy_index_path] ([None] while there is no such file). *)
Record state := Self {
  conn : Sqlite.connection;
  embedding_dim : nat;
  annoy_index : Annoy.index;
  annoy_index_path : string;
  n_trees : Z;
  index_file : option Annoy.file
}.

Definition set_conn (c : Sqlite.connection) (self : state) : state :=
  Self c (embedding_dim self) (annoy_index self) (annoy_index_path self)
    (n_trees self) (index_file self).

Definition set_annoy_index (ix : Annoy.index) (self : state) : state :=
  Self (conn self) (embedding_dim self) ix (annoy_index_path self)
    (n_trees self) (index_file self).

Definition set_index_file (fl : option Annoy.file) (self : state) : state :=
  Self (conn self) (embedding_dim self) (annoy_index self)
    (annoy_index_path self) (n_trees self) fl.

(** A statement on [self.cursor] / [self.conn]. *)
Definition on_conn {A} (op : Sqlite.connection -> result A * Sqlite.connection)
  : M state A :=
  fun self => let (r, c) := op (conn self) in (r, set_conn c self).

(** A call on [self.annoy_index] that changes the index when it returns. *)
Definition on_index (op : Annoy.index -> result Annoy.index) : M state unit :=
  fun self =>
    match op (annoy_index self) with
    | Ok ix => (Ok tt, set_annoy_index ix self)
    | Raise e => (Raise e, self)
    end.

(** What the disk holds when an instance is constructed: the database at
    [db_path] and the index file next to it. *)
Record disk := Disk {
  database : option Sqlite.table;
  index_on_disk : option Annoy.file
}.

(** The dict the facade hands to [store]. *)
Record record := Record_ {
  vector : Json.pyval;
  metadata : Json.pyval;
  raw_text : string
}.

(** The dict [search] returns for a row. *)
Record hit := Hit {
  hit_id : Z;
  hit_vector : Json.pyval;
  hit_metadata : Json.pyval;
  hit_raw_text : string
}.

Definition _create_table : M state unit :=
  on_conn Sqlite.create_table ;;
  on_conn Sqlite.commit.

(** [np.array(...)] of a decoded vector, as [add_item] takes it. *)
Definition np_array (v : Json.pyval) : result Annoy.vector :=
  match v with
  | Json.PyList l =>
      fold_right
        (fun x acc =>
           match x, acc with
           | Json.PyFloat m e, Ok r => Ok ((m, e) :: r)
           | Json.PyInt z, Ok r => Ok ((z, 0) :: r)
           | _, Ok _ => Raise TypeError
           | _, Raise e => Raise e
           end) (Ok []) l
  | _ => Raise TypeError
  end.

(** The body of the loop of [_build_annoy_index]. *)
Definition add_row (row : Z * string) : M state unit :=
  let (record_id, vector_str) := row in
  v <- lift (Json.loads vector_str) ;;
  vector <- lift (np_array v) ;;
  on_index (Annoy.add_item record_id vector).

Definition _build_annoy_index : M state unit :=
  modify (fun self => set_annoy_index (Annoy.unload (annoy_index self)) self) ;;
  modify (fun self =>
            set_annoy_index (Annoy.new (embedding_dim self) Annoy.Angular) self) ;;
  cursor <- (fun self => (Sqlite.select_id_vector (conn self), self)) ;;
  for_each add_row cursor ;;
  n <- gets n_trees ;;
  on_index (Annoy.build n) ;;
  fl <- (fun self => (Annoy.save (annoy_index self), self)) ;;
  modify (set_index_file (Some fl)).

Definition is_OSError (e : exn) : bool :=
  match e with
  | OSError | FileNotFoundError => true
  | _ => false
  end.

Definition _load_annoy_index : M state unit :=
  try_except
    (fun self =>
       match index_file self with
       | Some fl => on_index (Annoy.load fl) self
       | None => raise FileNotFoundError self
       end)
    is_OSError
    _build_annoy_index.

Definition __init__ (d : disk) (db_path : string) (embedding_dim : nat)
    (annoy_metric : Annoy.metric) (n_trees : Z) : result unit * state :=
  (_create_table ;; _load_annoy_index)
    (Self (Sqlite.connect (database d)) embedding_dim
       (Annoy.new embedding_dim annoy_metric)
       (db_path ++ ".annoy") n_trees (index_on_disk d)).

Definition update_annoy_index (record_id : Z) (vector : Annoy.vector)
  : M state unit :=
  _build_annoy_index.

Definition store (rec : record) : M state Z :=
  vector_str <- lift (Json.dumps (vector rec)) ;;
  metadata_str <- lift (Json.dumps (metadata rec)) ;;
  on_conn (Sqlite.insert (Sqlite.Row vector_str metadata_str (raw_text rec))) ;;
  on_conn Sqlite.commit ;;
  fun self =>
    match Sqlite.lastrowid (conn self) with
    | Some id => (Ok id, self)
    | None => (Raise TypeError, self)   (* not reached: the INSERT has set it *)
    end.

(** The body of the loop of [search]: the row under [record_id], decoded,
    or [None] when there is no such row. *)
Definition fetch (record_id : Z) : M state (option hit) :=
  row <- (fun self => (Sqlite.select_by_id record_id (conn self), self)) ;;
  match row with
  | Some (id, r) =>
      v <- lift (Json.loads (Sqlite.col_vector r)) ;;
      md <- lift (Json.loads (Sqlite.col_metadata r)) ;;
      ret (Some (Hit id v md (Sqlite.col_raw_text r)))
  | None => ret None
  end.

Fixpoint hydrate (neighbor_ids : list Z) : M state (list hit) :=
  match neighbor_ids with
  | [] => ret []
  | record_id :: rest =>
      row <- fetch record_id ;;
      results <- hydrate rest ;;
      ret (match row with Some h => h :: results | None => results end)
  end.

Section Search.
Variable distance : Annoy.metric -> Annoy.vector -> Annoy.vector -> Q.

Definition search (query_vector : Annoy.vector) (top_k : nat)
  : M state (list hit) :=
  neighbor_ids <- (fun self =>
    (Annoy.get_nns_by_vector distance query_vector top_k (annoy_index self),
     self)) ;;
  hydrate neighbor_ids.
End Search.

Definition close : M state unit :=
  modify (fun self => set_conn (Sqlite.close (conn self)) self).

End SQLiteStorage.

(** ** class ConceptLibrary *)

Module ConceptLibrary.

(** The sentence encoder, an external collaborator: a text to vector function
    and the dimensionality it reports. *)
Record encoder_model := Encoder {
  encode : string -> Annoy.vector;
  get_sentence_embedding_dimension : nat
}.

Record state := Self {
  encoder : encoder_model;
  embedding_dim : nat;
  storage : SQLiteStorage.state
}.

Definition set_storage (st : SQLiteStorage.state) (self : state) : state :=
  Self (encoder self) (embedding_dim self) st.

(** A call on [self.storage]. *)
Definition on_storage {A} (op : M SQLiteStorage.state A) : M state A :=
  fun self => let (r, st) := op (storage self) in (r, set_storage st self).

(** [ndarray.tolist()] *)
Definition tolist (v : Annoy.vector) : Json.pyval :=
  Json.PyList (map (fun x => Json.PyFloat x.1 x.2) v).

(** The constructor; [d] is the disk under the default path, read only when
    no storage backend is passed. *)
Definition __init__ (d : SQLiteStorage.disk) (enc : encoder_model)
    (storage_backend : option SQLiteStorage.state) : result state :=
  let dim := get_sentence_embedding_dimension enc in
  match storage_backend with
  | None =>
      match SQLiteStorage.__init__ d "concepts.db" dim Annoy.Angular 10 with
      | (Ok _, st) => Ok (Self enc dim st)
      | (Raise e, _) => Raise e
      end
  | Some st => Ok (Self enc dim st)
  end.

Definition add_interaction (user_input : string) (metadata : Json.pyval)
  : M state Z :=
  concept_vector <- gets (fun self => encode (encoder self) user_input) ;;
  let rec := SQLiteStorage.Record_ (tolist concept_vector) metadata user_input in
  record_id <- on_storage (SQLiteStorage.store rec) ;;
  on_storage (SQLiteStorage.update_annoy_index record_id concept_vector) ;;
  ret record_id.

Section Search.
Variable distance : Annoy.metric -> Annoy.vector -> Annoy.vector -> Q.

Definition search (query : string) (top_k : nat)
  : M state (list SQLiteStorage.hit) :=
  query_vector <- gets (fun self => encode (encoder self) query) ;;
  on_storage (SQLiteStorage.search distance query_vector top_k).
End Search.

End ConceptLibrary.

(** ** What the rows of the table hold *)

Module Rows.

(** The vector a row's text stands for, as the rebuild reads it. *)
Definition row_vector (s : string) : result Annoy.vector :=
  match Json.loads s with
  | Ok v => SQLiteStorage.np_array v
  | Raise e => Raise e
  end.

(** A row the rebuild can add to an index of dimensionality [dim]. *)
Definition addable (dim : nat) (row : Z * string) : Prop :=
  0 ≤ row.1 /\ exists v, row_vector row.2 = Ok v /\ length v = dim.

(** Both TEXT columns of the row hold JSON. *)
Definition decodes (r : Sqlite.row) : Prop :=
  is_ok (Json.loads (Sqlite.col_vector r)) = true
  /\ is_ok (Json.loads (Sqlite.col_metadata r)) = true.

End Rows.

(** ** The lifetime of a store *)

Module Lifetime.

(** What happens to a store over its lifetime: the program's [store] calls,
    and rows deleted from outside. *)
Inductive event :=
| Stored (rec : SQLiteStorage.record)
| Deleted (id : Z).

Definition delete_row (id : Z) (self : SQLiteStorage.state) : SQLiteStorage.state :=
  SQLiteStorage.set_conn (Sqlite.delete id (SQLiteStorage.conn self)) self.

(** The ids returned by the [store] calls of a history, in order; a call
    that raises returns none. *)
Fixpoint issued (h : list event) (self : SQLiteStorage.state) : list Z :=
  match h with
  | [] => []
  | Stored rec :: h' =>
      match SQLiteStorage.store rec self with
      | (Ok id, self') => id :: issued h' self'
      | (Raise _, self') => issued h' self'
      end
  | Deleted id :: h' => issued h' (delete_row id self)
  end.

(** The largest id the table remembers having issued. *)
Definition seq_of (self : SQLiteStorage.state) : Z :=
  match Sqlite.concepts (SQLiteStorage.conn self) with
  | Some t => Sqlite.seq t
  | None => 0
  end.

End Lifetime.

(** ** Atomicity of a rebuild *)

Module Atomicity.

Section Atomicity.
Variable distance : Annoy.metric -> Annoy.vector -> Annoy.vector -> Q.

(** The rebuild returned and left a built index with one item per row. *)
Definition fully_replaced (self : SQLiteStorage.state)
    (out : result unit * SQLiteStorage.state) : Prop :=
  is_ok out.1 = true
  /\ Annoy.built (SQLiteStorage.annoy_index out.2) = true
  /\ exists t, Sqlite.concepts (SQLiteStorage.conn self) = Some t
               /\ dom (Annoy.items (SQLiteStorage.annoy_index out.2))
                  = dom (Sqlite.rows t).

(** Every query is answered as the index answered it before the rebuild. *)
Definition previous_queryable (self : SQLiteStorage.state)
    (out : result unit * SQLiteStorage.state) : Prop :=
  forall q k,
    Annoy.get_nns_by_vector distance q k (SQLiteStorage.annoy_index out.2)
    = Annoy.get_nns_by_vector distance q k (SQLiteStorage.annoy_index self).

(** A rebuild that never partially applies. *)
Definition never_partial (self : SQLiteStorage.state) : Prop :=
  let out := SQLiteStorage._build_annoy_index self in
  fully_replaced self out \/ previous_queryable self out.

End Atomicity.

End Atomicity.

(** ** Queries that are always answered *)

Module Answers.

Section Answers.
Variable distance : Annoy.metric -> Annoy.vector -> Annoy.vector -> Q.

(** The index answers every query vector and every [k], with at most [k]
    ids, and never raises. *)
Definition answers_every_query (ix : Annoy.index) : Prop :=
  forall q k, exists ids,
    Annoy.get_nns_by_vector distance q k ix = Ok ids
    /\ (length ids <= k)%nat.

End Answers.

End Answers.

(** ** Sample data *)

Module Sample.

(** Squared Euclidean distance on the mantissas, enough to rank the vectors
    below. *)
Definition distance (m : Annoy.metric) (a b : Annoy.vector) : Q :=
  fold_right
    (fun p acc => let d := inject_Z (p.1.1 - p.2.1) in (d * d + acc)%Q)
    0%Q (combine a b).

(** Two stub encoders, of dimensionality 2 and 3. *)
Definition enc2 : ConceptLibrary.encoder_model :=
  ConceptLibrary.Encoder
    (fun s => [(Z.of_nat (String.length s), 0); (1, 0)]) 2.

Definition enc3 : ConceptLibrary.encoder_model :=
  ConceptLibrary.Encoder
    (fun s => [(Z.of_nat (String.length s), 0); (1, 0); (5, -1)]) 3.

Definition fresh_disk : SQLiteStorage.disk := SQLiteStorage.Disk None None.

Definition health : Json.pyval :=
  Json.PyDict [("category"%string, Json.PyStr "health")].

(** A library over a fresh disk, as [ConceptLibrary.__init__] leaves it, and
    the same after two writes. *)
Definition lib0 : ConceptLibrary.state :=
  ConceptLibrary.Self enc2 2
    (SQLiteStorage.__init__ fresh_disk "concepts.db" 2 Annoy.Angular 10).2.

Definition lib2 : ConceptLibrary.state :=
  (ConceptLibrary.add_interaction "banana" health
     (ConceptLibrary.add_interaction "apple" health lib0).2).2.

(** The same library once its storage has been closed. *)
Definition lib_closed : ConceptLibrary.state :=
  ConceptLibrary.set_storage
    (SQLiteStorage.close (ConceptLibrary.storage lib2)).2 lib2.

Definition storage2 : SQLiteStorage.state := ConceptLibrary.storage lib2.

Definition table2 : Sqlite.table :=
  default Sqlite.empty_table (Sqlite.concepts (SQLiteStorage.conn storage2)).

Definition pear : SQLiteStorage.record :=
  SQLiteStorage.Record_ (Json.PyList [Json.PyFloat 4 0; Json.PyFloat 1 0])
    health "pear".

(** The storage of [lib2] after a library whose encoder has three
    dimensions has stored a record in it. *)
Definition kiwi : SQLiteStorage.record :=
  SQLiteStorage.Record_
    (ConceptLibrary.tolist (ConceptLibrary.encode enc3 "kiwi")) health "kiwi".

Definition mixed_storage : SQLiteStorage.state :=
  (SQLiteStorage.store kiwi storage2).2.

(** The storage of [lib2] after row 1 has been deleted from outside: the
    index still holds id 1. *)
Definition dangling_storage : SQLiteStorage.state :=
  Lifetime.delete_row 1 storage2.

Definition dangling_table : Sqlite.table :=
  default Sqlite.empty_table
    (Sqlite.concepts (SQLiteStorage.conn dangling_storage)).

Definition query5 : Annoy.vector := [(5, 0); (1, 0)].

(** A disk as a first start with a three dimensional encoder leaves it: the
    table, without rows yet, and the index file. *)
Definition disk3 : SQLiteStorage.disk :=
  SQLiteStorage.Disk (Some Sqlite.empty_table) (Some (Annoy.File 3 ∅)).

End Sample.

(** ** Restarts and the state of a store between calls *)

Module Restart.

(** What an instance leaves on the disk: its table and its index file. *)
Definition left_on_disk (self : SQLiteStorage.state) : SQLiteStorage.disk :=
  SQLiteStorage.Disk (Sqlite.concepts (SQLiteStorage.conn self))
    (SQLiteStorage.index_file self).

(** The index in memory is built, has the dimensionality of the instance,
    and is what the index file holds. *)
Definition persisted (self : SQLiteStorage.state) : Prop :=
  let ix := SQLiteStorage.annoy_index self in
  Annoy.built ix = true
  /\ Annoy.f ix = SQLiteStorage.embedding_dim self
  /\ SQLiteStorage.index_file self = Some (Annoy.File (Annoy.f ix) (Annoy.items ix)).

(** The index holds exactly the ids of the rows of the table. *)
Definition in_sync (self : SQLiteStorage.state) : Prop :=
  exists t, Sqlite.concepts (SQLiteStorage.conn self) = Some t
            /\ dom (Annoy.items (SQLiteStorage.annoy_index self))
               = dom (Sqlite.rows t).

(** The connection is open and the table is one the program can have
    written: ids from 1 up to the last one issued, every row a vector of
    the instance's dimensionality and JSON in both columns. *)
Definition healthy (self : SQLiteStorage.state) : Prop :=
  Sqlite.is_open (SQLiteStorage.conn self) = true
  /\ exists t,
      Sqlite.concepts (SQLiteStorage.conn self) = Some t
      /\ 0 ≤ Sqlite.seq t
      /\ forall id r, Sqlite.rows t !! id = Some r ->
           1 ≤ id ≤ Sqlite.seq t
           /\ Rows.addable (SQLiteStorage.embedding_dim self)
                (id, Sqlite.col_vector r)
           /\ Rows.decodes r.

(** [library.storage.close()] *)
Definition close_storage (lib : ConceptLibrary.state) : ConceptLibrary.state :=
  (ConceptLibrary.on_storage SQLiteStorage.close lib).2.

(** Several [add_interaction] calls in a row, as the demonstration at the
    end of the module makes them; the ids come back in order. *)
Fixpoint add_all (items : list (string * Json.pyval))
  : M ConceptLibrary.state (list Z) :=
  match items with
  | [] => ret []
  | (user_input, metadata) :: rest =>
      id <- ConceptLibrary.add_interaction user_input metadata ;;
      ids <- add_all rest ;;
      ret (id :: ids)
  end.

End Restart.

(** ** More sample data *)

Module Scenario.

(** A library whose encoder has three dimensions, over the two dimensional
    storage of [Sample.lib2]. *)
Definition lib_mixed : ConceptLibrary.state :=
  ConceptLibrary.Self Sample.enc3 3 Sample.storage2.

(** [Sample.lib2] after one more write. *)
Definition lib3 : ConceptLibrary.state :=
  (ConceptLibrary.add_interaction "pear" Sample.health Sample.lib2).2.

(** The table of [Sample.lib2], two rows of two dimensions, beside the
    index file of a three dimensional index. *)
Definition stale_disk : SQLiteStorage.disk :=
  SQLiteStorage.Disk (Some Sample.table2) (Some (Annoy.File 3 ∅)).

(** The list a call has returned. *)
Definition returned {A} (r : result (list A)) : list A :=
  match r with
  | Ok l => l
  | Raise _ => []
  end.

Definition two_more : list (string * Json.pyval) :=
  [("pear"%string, Sample.health); ("fig"%string, Sample.health)].

End Scenario.

(** * Properties *)

(** ** The table *)

Lemma largest_rowid_ge (m : gmap Z Sqlite.row) k r :
  m !! k = Some r -> k ≤ Sqlite.largest_rowid m.
Proof.
  revert k r. unfold Sqlite.largest_rowid.
  apply (map_fold_weak_ind
           (fun acc (m : gmap Z Sqlite.row) => forall k r, m !! k = Some r -> k ≤ acc)).
  - intros k r H. by rewrite lookup_empty in H.
  - intros i x m' acc Hi IH k r H.
    destruct (decide (i = k)) as [->|Hne].
    + lia.
    + rewrite lookup_insert_ne in H by done. specialize (IH k r H). lia.
Qed.

Lemma next_rowid_fresh t : Sqlite.rows t !! Sqlite.next_rowid t = None.
Proof.
  destruct (Sqlite.rows t !! Sqlite.next_rowid t) as [r|] eqn:E; [|done].
  apply largest_rowid_ge in E. unfold Sqlite.next_rowid in E. lia.
Qed.

Lemma next_rowid_gt_seq t : Sqlite.seq t < Sqlite.next_rowid t.
Proof. unfold Sqlite.next_rowid. lia. Qed.

Lemma next_rowid_gt_rows t k r :
  Sqlite.rows t !! k = Some r -> k < Sqlite.next_rowid t.
Proof. intros H%largest_rowid_ge. unfold Sqlite.next_rowid. lia. Qed.

(** ** [store] *)

Lemma set_conn_same self : SQLiteStorage.set_conn (SQLiteStorage.conn self) self = self.
Proof. by destruct self. Qed.

(** What a [store] that returns has done: one row, under the next id. *)
Lemma store_returns rec self id self' :
  SQLiteStorage.store rec self = (Ok id, self') ->
  exists vs ms t,
    Json.dumps (SQLiteStorage.vector rec) = Ok vs
    /\ Json.dumps (SQLiteStorage.metadata rec) = Ok ms
    /\ Sqlite.is_open (SQLiteStorage.conn self) = true
    /\ Sqlite.concepts (SQLiteStorage.conn self) = Some t
    /\ id = Sqlite.next_rowid t
    /\ self' = SQLiteStorage.set_conn
         (Sqlite.Connection
            (Some (Sqlite.Table
                     (<[id := Sqlite.Row vs ms (SQLiteStorage.raw_text rec)]>
                        (Sqlite.rows t)) id))
            true (Some id)) self.
Proof.
  unfold SQLiteStorage.store, bind, lift, SQLiteStorage.on_conn,
    Sqlite.insert, Sqlite.commit.
  destruct (Json.dumps (SQLiteStorage.vector rec)) as [vs|]; [|done].
  destruct (Json.dumps (SQLiteStorage.metadata rec)) as [ms|]; [|done].
  destruct self as [[tb op lr] dim ix path nt fl]; simpl.
  destruct op; simpl; [|done].
  destruct tb as [t|]; simpl; [|done].
  destruct (Sqlite.next_rowid t <=? Sqlite.max_rowid); simpl; [|done].
  intros [= <- <-]. by exists vs, ms, t.
Qed.

(** A [store] that raises has changed nothing. *)
Lemma store_raises rec self e self' :
  SQLiteStorage.store rec self = (Raise e, self') -> self' = self.
Proof.
  unfold SQLiteStorage.store, bind, lift, SQLiteStorage.on_conn,
    SQLiteStorage.set_conn, Sqlite.insert, Sqlite.commit.
  destruct (Json.dumps (SQLiteStorage.vector rec)) as [vs|]; [|congruence].
  destruct (Json.dumps (SQLiteStorage.metadata rec)) as [ms|]; [|congruence].
  destruct self as [[tb op lr] dim ix path nt fl]; simpl.
  destruct op; simpl; [|congruence].
  destruct tb as [t|]; simpl; [|congruence].
  destruct (Sqlite.next_rowid t <=? Sqlite.max_rowid); simpl; congruence.
Qed.

(** ** The write path *)

(** C9: when the store step of [add_interaction] raises, the call raises the
    same exception, so no id is returned, and the library is left exactly as
    it was: no row was written, the index and its file were not rebuilt. *)
Theorem add_interaction_store_fails lib user_input metadata e :
  (SQLiteStorage.store
     (SQLiteStorage.Record_
        (ConceptLibrary.tolist
           (ConceptLibrary.encode (ConceptLibrary.encoder lib) user_input))
        metadata user_input)
     (ConceptLibrary.storage lib)).1 = Raise e ->
  ConceptLibrary.add_interaction user_input metadata lib = (Raise e, lib).
Proof.
  intros H.
  unfold ConceptLibrary.add_interaction, bind, gets, ConceptLibrary.on_storage.
  destruct (SQLiteStorage.store _ _) as [r st] eqn:E. simpl in H. subst r.
  apply store_raises in E. subst st. by destruct lib.
Qed.

Lemma add_interaction_store_fails_witness :
  (SQLiteStorage.store
     (SQLiteStorage.Record_
        (ConceptLibrary.tolist
           (ConceptLibrary.encode (ConceptLibrary.encoder Sample.lib_closed) "pear"))
        Sample.health "pear")
     (ConceptLibrary.storage Sample.lib_closed)).1 = Raise ProgrammingError
  /\ ConceptLibrary.add_interaction "pear" Sample.health Sample.lib_closed
     = (Raise ProgrammingError, Sample.lib_closed).
Proof.
  split; [vm_compute; reflexivity|].
  apply (add_interaction_store_fails Sample.lib_closed "pear" Sample.health
           ProgrammingError).
  vm_compute; reflexivity.
Defined.

(** C10: a [store] that returns leaves every row that was there before as it
    was: the new id is none of the old ones, the old id still holds the same
    row, and fetching it gives the same answer as before the insert. *)
Theorem store_preserves_rows rec self new_id self' t id :
  SQLiteStorage.store rec self = (Ok new_id, self') ->
  Sqlite.concepts (SQLiteStorage.conn self) = Some t ->
  is_Some (Sqlite.rows t !! id) ->
  id ≠ new_id
  /\ (exists t', Sqlite.concepts (SQLiteStorage.conn self') = Some t'
               /\ Sqlite.rows t' !! id = Sqlite.rows t !! id)
  /\ (SQLiteStorage.fetch id self').1 = (SQLiteStorage.fetch id self).1.
Proof.
  intros Hst Ht [r Hr].
  apply store_returns in Hst as (vs & ms & t0 & _ & _ & Hop & Ht0 & -> & ->).
  rewrite Ht in Ht0. injection Ht0 as <-.
  assert (Hne : id ≠ Sqlite.next_rowid t).
  { intros ->. by rewrite next_rowid_fresh in Hr. }
  split; [done|]. split.
  - eexists. split; [reflexivity|]. simpl. by rewrite lookup_insert_ne.
  - unfold SQLiteStorage.fetch, bind, Sqlite.select_by_id. simpl.
    rewrite Hop, Ht. simpl. rewrite lookup_insert_ne by done.
    rewrite Hr. simpl. unfold lift, ret.
    destruct (Json.loads (Sqlite.col_vector r)); [|done].
    by destruct (Json.loads (Sqlite.col_metadata r)).
Qed.

Lemma store_preserves_rows_witness :
  SQLiteStorage.store Sample.pear Sample.storage2
    = (Ok 3, (SQLiteStorage.store Sample.pear Sample.storage2).2)
  /\ 1 ≠ 3
  /\ (SQLiteStorage.fetch 1
        (SQLiteStorage.store Sample.pear Sample.storage2).2).1
     = (SQLiteStorage.fetch 1 Sample.storage2).1.
Proof.
  assert (Hst : SQLiteStorage.store Sample.pear Sample.storage2
                = (Ok 3, (SQLiteStorage.store Sample.pear Sample.storage2).2))
    by (vm_compute; reflexivity).
  split; [exact Hst|].
  destruct (store_preserves_rows Sample.pear Sample.storage2 3
              (SQLiteStorage.store Sample.pear Sample.storage2).2
              Sample.table2 1) as (H1 & _ & H3).
  - exact Hst.
  - vm_compute; reflexivity.
  - vm_compute. eexists. reflexivity.
  - split; [exact H1 | exact H3].
Defined.

(** C6: over any history of a store, the ids its [store] calls return are
    strictly increasing, hence pairwise distinct, and each is larger than
    every id issued before the history began, whatever rows were deleted in
    between. *)
Theorem issued_ids_unique h self :
  NoDup (Lifetime.issued h self)
  /\ StronglySorted Z.lt (Lifetime.issued h self)
  /\ Forall (fun id => Lifetime.seq_of self < id) (Lifetime.issued h self).
Proof.
  cut (StronglySorted Z.lt (Lifetime.issued h self)
       /\ Forall (fun id => Lifetime.seq_of self < id) (Lifetime.issued h self)).
  { intros [Hs Hf]. split; [|done].
    clear Hf. induction Hs as [|x l _ IH Hx]; constructor; [|done].
    intros Hin. rewrite Forall_forall in Hx. specialize (Hx _ Hin). lia. }
  revert self. induction h as [|[rec|id] h IH]; intros self; simpl.
  - split; constructor.
  - destruct (SQLiteStorage.store rec self) as [[id|e] self'] eqn:E.
    + destruct (IH self') as [Hs Hf].
      apply store_returns in E as (vs & ms & t & _ & _ & _ & Ht & -> & ->).
      unfold Lifetime.seq_of in *. rewrite Ht. simpl in Hf.
      pose proof (next_rowid_gt_seq t).
      split; [constructor; [done|]|constructor; [done|]].
      * done.
      * eapply Forall_impl; [exact Hf|]. simpl. lia.
    + apply store_raises in E as ->. apply IH.
  - destruct (IH (Lifetime.delete_row id self)) as [Hs Hf]. split; [done|].
    eapply Forall_impl; [exact Hf|]. intros x. simpl.
    unfold Lifetime.seq_of, Lifetime.delete_row, Sqlite.delete. simpl.
    destruct (Sqlite.concepts (SQLiteStorage.conn self)) eqn:E; simpl;
      by rewrite ?E.
Qed.

(** ** The read path *)

Lemma bind_ret {S A} (m : M S A) s : bind m (fun x => ret x) s = m s.
Proof. unfold bind, ret. by destruct (m s) as [[a|e] s']. Qed.

Lemma fetch_dangling self t id :
  Sqlite.is_open (SQLiteStorage.conn self) = true ->
  Sqlite.concepts (SQLiteStorage.conn self) = Some t ->
  Sqlite.rows t !! id = None ->
  SQLiteStorage.fetch id self = (Ok None, self).
Proof.
  intros Hop Ht Hid.
  unfold SQLiteStorage.fetch, bind, Sqlite.select_by_id.
  by rewrite Hop, Ht, Hid.
Qed.

Lemma fetch_present self t id r :
  Sqlite.is_open (SQLiteStorage.conn self) = true ->
  Sqlite.concepts (SQLiteStorage.conn self) = Some t ->
  Sqlite.rows t !! id = Some r ->
  SQLiteStorage.fetch id self =
    match Json.loads (Sqlite.col_vector r), Json.loads (Sqlite.col_metadata r) with
    | Ok v, Ok md => (Ok (Some (SQLiteStorage.Hit id v md (Sqlite.col_raw_text r))), self)
    | Raise e, _ => (Raise e, self)
    | Ok _, Raise e => (Raise e, self)
    end.
Proof.
  intros Hop Ht Hid.
  unfold SQLiteStorage.fetch, bind, Sqlite.select_by_id, lift, ret.
  rewrite Hop, Ht, Hid. simpl.
  destruct (Json.loads (Sqlite.col_vector r)); [|done].
  by destruct (Json.loads (Sqlite.col_metadata r)).
Qed.

Lemma hydrate_skips self t ids :
  Sqlite.is_open (SQLiteStorage.conn self) = true ->
  Sqlite.concepts (SQLiteStorage.conn self) = Some t ->
  SQLiteStorage.hydrate ids self
  = SQLiteStorage.hydrate
      (filter (fun id => is_Some (Sqlite.rows t !! id)) ids) self.
Proof.
  intros Hop Ht. induction ids as [|id ids IH]; [done|].
  rewrite filter_cons. destruct (decide _) as [Hin|Hout].
  - simpl. unfold bind at 1 3.
    destruct (SQLiteStorage.fetch id self) as [[row|e] self'] eqn:E; [|done].
    destruct Hin as [r Hr].
    rewrite (fetch_present self t id r Hop Ht Hr) in E.
    assert (self' = self) as ->.
    { destruct (Json.loads (Sqlite.col_vector r)); [|congruence].
      destruct (Json.loads (Sqlite.col_metadata r)); congruence. }
    unfold bind. by rewrite IH.
  - simpl. unfold bind at 1.
    rewrite (fetch_dangling self t id Hop Ht); [|by apply eq_None_not_Some].
    rewrite bind_ret. exact IH.
Qed.

Lemma hydrate_present self t ids :
  Sqlite.is_open (SQLiteStorage.conn self) = true ->
  Sqlite.concepts (SQLiteStorage.conn self) = Some t ->
  Forall (fun id => exists r, Sqlite.rows t !! id = Some r /\ Rows.decodes r) ids ->
  exists results,
    SQLiteStorage.hydrate ids self = (Ok results, self)
    /\ map SQLiteStorage.hit_id results = ids.
Proof.
  intros Hop Ht. induction 1 as [|id ids (r & Hr & Hv & Hm) _ (results & IH & Hids)].
  - by exists [].
  - simpl. unfold bind at 1. rewrite (fetch_present self t id r Hop Ht Hr).
    destruct (Json.loads (Sqlite.col_vector r)) as [v|]; [|done].
    destruct (Json.loads (Sqlite.col_metadata r)) as [md|]; [|done].
    unfold bind. rewrite IH. eexists. split; [reflexivity|].
    simpl. by rewrite Hids.
Qed.

Section ReadPath.
Variable distance : Annoy.metric -> Annoy.vector -> Annoy.vector -> Q.

(** C8: on an open store, whatever ids the index returns, [search] gives
    what it would give had the index returned only the ids that have a row:
    an id without a row adds nothing to the results and raises nothing; and
    when the rows that are found decode, the search returns, with one record
    per id that has a row, in the order of the index. *)
Theorem search_skips_dangling_ids query_vector top_k self t ids :
  Sqlite.is_open (SQLiteStorage.conn self) = true ->
  Sqlite.concepts (SQLiteStorage.conn self) = Some t ->
  Annoy.get_nns_by_vector distance query_vector top_k
    (SQLiteStorage.annoy_index self) = Ok ids ->
  SQLiteStorage.search distance query_vector top_k self
  = SQLiteStorage.hydrate
      (filter (fun id => is_Some (Sqlite.rows t !! id)) ids) self
  /\ ((forall id r, id ∈ ids -> Sqlite.rows t !! id = Some r -> Rows.decodes r) ->
      exists results,
        SQLiteStorage.search distance query_vector top_k self = (Ok results, self)
        /\ map SQLiteStorage.hit_id results
           = filter (fun id => is_Some (Sqlite.rows t !! id)) ids).
Proof.
  intros Hop Ht Hq.
  assert (Hs : SQLiteStorage.search distance query_vector top_k self
               = SQLiteStorage.hydrate
                   (filter (fun id => is_Some (Sqlite.rows t !! id)) ids) self).
  { unfold SQLiteStorage.search, bind. rewrite Hq. by apply hydrate_skips. }
  split; [exact Hs|].
  intros Hdec. rewrite Hs. apply (hydrate_present self t); [done..|].
  apply Forall_forall. intros id [[r Hr] Hin]%list_elem_of_filter.
  exists r. split; [done|]. by apply (Hdec id).
Qed.

End ReadPath.

Lemma search_skips_dangling_ids_witness :
  Annoy.get_nns_by_vector Sample.distance Sample.query5 5
    (SQLiteStorage.annoy_index Sample.dangling_storage) = Ok [1; 2]
  /\ filter (fun id => is_Some (Sqlite.rows Sample.dangling_table !! id)) [1; 2]
     = [2]
  /\ SQLiteStorage.search Sample.distance Sample.query5 5 Sample.dangling_storage
     = SQLiteStorage.hydrate
         (filter (fun id => is_Some (Sqlite.rows Sample.dangling_table !! id))
            [1; 2])
         Sample.dangling_storage.
Proof.
  assert (Hq : Annoy.get_nns_by_vector Sample.distance Sample.query5 5
                 (SQLiteStorage.annoy_index Sample.dangling_storage)
               = Ok [1; 2]) by (vm_compute; reflexivity).
  split; [exact Hq|]. split; [vm_compute; reflexivity|].
  destruct (search_skips_dangling_ids Sample.distance Sample.query5 5
              Sample.dangling_storage Sample.dangling_table [1; 2])
    as [H _].
  - vm_compute; reflexivity.
  - vm_compute; reflexivity.
  - exact Hq.
  - exact H.
Defined.

(** ** The rebuild *)

Arguments SQLiteStorage.add_row : simpl never.

Lemma add_row_unfold id s self :
  SQLiteStorage.add_row (id, s) self =
    match Rows.row_vector s with
    | Ok v => SQLiteStorage.on_index (Annoy.add_item id v) self
    | Raise e => (Raise e, self)
    end.
Proof.
  unfold SQLiteStorage.add_row, Rows.row_vector, bind, lift.
  destruct (Json.loads s) as [v|]; [|done].
  by destruct (SQLiteStorage.np_array v).
Qed.

(** The loop of the rebuild, started on an index that is not built: it
    leaves the connection and the file alone, keeps the index unbuilt, adds
    nothing but vectors of the rows it has scanned, and runs to the end
    exactly when every row can be added. *)
Lemma for_each_add_row l : forall self,
  Annoy.built (SQLiteStorage.annoy_index self) = false ->
  NoDup l.*1 ->
  exists ix',
    (for_each SQLiteStorage.add_row l self).2 = SQLiteStorage.set_annoy_index ix' self
    /\ Annoy.f ix' = Annoy.f (SQLiteStorage.annoy_index self)
    /\ Annoy.metric_of ix' = Annoy.metric_of (SQLiteStorage.annoy_index self)
    /\ Annoy.built ix' = false
    /\ (forall id v, Annoy.items ix' !! id = Some v ->
          Annoy.items (SQLiteStorage.annoy_index self) !! id = Some v
          \/ exists s, (id, s) ∈ l /\ Rows.row_vector s = Ok v)
    /\ (is_ok (for_each SQLiteStorage.add_row l self).1 = true <->
        Forall (Rows.addable (Annoy.f (SQLiteStorage.annoy_index self))) l)
    /\ (is_ok (for_each SQLiteStorage.add_row l self).1 = true ->
        (forall id s, (id, s) ∈ l -> is_Some (Annoy.items ix' !! id))
        /\ (forall id, id ∉ l.*1 ->
              Annoy.items ix' !! id
              = Annoy.items (SQLiteStorage.annoy_index self) !! id)).
Proof.
  induction l as [|[id s] l IH]; intros self Hb Hnd.
  - exists (SQLiteStorage.annoy_index self). simpl.
    split; [by destruct self|]. repeat split; auto.
    intros ? ? []%elem_of_nil.
  - apply NoDup_cons in Hnd as [Hid Hnd]. simpl. unfold bind.
    rewrite add_row_unfold.
    destruct (Rows.row_vector s) as [v|e] eqn:Ev.
    2:{ exists (SQLiteStorage.annoy_index self). simpl.
        split; [by destruct self|]. repeat split; auto; try done.
        intros [(_ & v & Hv & _) _]%Forall_cons. simpl in Hv. congruence. }
    unfold SQLiteStorage.on_index, Annoy.add_item. rewrite Hb.
    destruct (id <? 0) eqn:Eneg.
    { exists (SQLiteStorage.annoy_index self). simpl.
      split; [by destruct self|]. repeat split; auto; try done.
      intros [(Hpos & _) _]%Forall_cons. simpl in Hpos. lia. }
    destruct (length v =? Annoy.f (SQLiteStorage.annoy_index self))%nat eqn:Elen;
      simpl.
    2:{ exists (SQLiteStorage.annoy_index self). simpl.
        split; [by destruct self|]. repeat split; auto; try done.
        intros [(_ & v' & Hv & Hlen) _]%Forall_cons. simpl in Hv, Hlen.
        apply Nat.eqb_neq in Elen. congruence. }
    set (ix1 := Annoy.Index _ _ _ false).
    destruct (IH (SQLiteStorage.set_annoy_index ix1 self) eq_refl Hnd)
      as (ix' & Hst & Hf & Hm & Hb' & Hsub & Hok & Hall).
    exists ix'. simpl in *. split; [by rewrite Hst|].
    split; [done|]. split; [done|]. split; [done|]. split; [|split].
    + intros id' v' Hl. destruct (Hsub id' v' Hl) as [Hl'|(s' & Hin & Hs')].
      * destruct (decide (id = id')) as [<-|Hne].
        -- rewrite lookup_insert_eq in Hl'. injection Hl' as <-.
           right. exists s. split; [left|done].
        -- rewrite lookup_insert_ne in Hl' by done. by left.
      * right. exists s'. split; [by right|done].
    + rewrite Hok. split.
      * intros H. constructor; [|done]. split; simpl; [lia|].
        exists v. split; [done|]. by apply Nat.eqb_eq.
      * by intros [_ H]%Forall_cons.
    + intros H. destruct (Hall H) as [Hin Hout]. split.
      * intros id' s' [[= -> ->]|Hin']%elem_of_cons.
        -- rewrite Hout by done. rewrite lookup_insert_eq. eauto.
        -- eauto.
      * intros id' [Hne Hnin]%not_elem_of_cons.
        rewrite Hout by done. by rewrite lookup_insert_ne.
Qed.

(** The scan of the table: one entry per row, no id twice. *)
Lemma select_id_vector_rows c t :
  Sqlite.is_open c = true ->
  Sqlite.concepts c = Some t ->
  exists l,
    Sqlite.select_id_vector c = Ok l
    /\ NoDup l.*1
    /\ (forall id s, (id, s) ∈ l <->
          exists r, Sqlite.rows t !! id = Some r /\ s = Sqlite.col_vector r)
    /\ (forall id, id ∈ l.*1 <-> is_Some (Sqlite.rows t !! id)).
Proof.
  intros Hop Ht. unfold Sqlite.select_id_vector. rewrite Hop, Ht.
  eexists. split; [reflexivity|].
  set (sorted := merge_sort Sqlite.rowid_le (map_to_list (Sqlite.rows t))).
  assert (Hperm : sorted ≡ₚ map_to_list (Sqlite.rows t))
    by apply merge_sort_Permutation.
  assert (Hfst : ((fun kr : Z * Sqlite.row => (kr.1, Sqlite.col_vector kr.2))
                    <$> sorted).*1 = sorted.*1).
  { rewrite <- list_fmap_compose. by apply list_fmap_ext. }
  assert (Hel : forall id s,
             (id, s) ∈ (fun kr : Z * Sqlite.row => (kr.1, Sqlite.col_vector kr.2))
                         <$> sorted
             <-> exists r, Sqlite.rows t !! id = Some r /\ s = Sqlite.col_vector r).
  { intros id s. rewrite list_elem_of_fmap. split.
    - intros ([k r] & [= -> ->] & Hin). rewrite Hperm in Hin.
      apply elem_of_map_to_list in Hin. eauto.
    - intros (r & Hr & ->). exists (id, r). split; [done|].
      rewrite Hperm. by apply elem_of_map_to_list. }
  split; [|split; [exact Hel|]].
  - rewrite Hfst, Hperm. apply NoDup_fst_map_to_list.
  - intros id. rewrite list_elem_of_fmap. split.
    + intros ([k s] & -> & Hin). apply Hel in Hin as (r & Hr & _). simpl. eauto.
    + intros [r Hr]. exists (id, Sqlite.col_vector r). split; [done|].
      apply Hel. eauto.
Qed.

Lemma build_unfold self :
  SQLiteStorage._build_annoy_index self =
    let self0 := SQLiteStorage.set_annoy_index
                   (Annoy.new (SQLiteStorage.embedding_dim self) Annoy.Angular)
                   self in
    match Sqlite.select_id_vector (SQLiteStorage.conn self) with
    | Raise e => (Raise e, self0)
    | Ok l =>
        match for_each SQLiteStorage.add_row l self0 with
        | (Raise e, self1) => (Raise e, self1)
        | (Ok _, self1) =>
            match Annoy.build (SQLiteStorage.n_trees self1)
                    (SQLiteStorage.annoy_index self1) with
            | Raise e => (Raise e, self1)
            | Ok ix =>
                match Annoy.save ix with
                | Raise e => (Raise e, SQLiteStorage.set_annoy_index ix self1)
                | Ok fl =>
                    (Ok tt, SQLiteStorage.set_index_file (Some fl)
                              (SQLiteStorage.set_annoy_index ix self1))
                end
            end
        end
    end.
Proof.
  unfold SQLiteStorage._build_annoy_index, bind, modify, gets,
    SQLiteStorage.on_index.
  destruct self as [c dim ix path nt fl]. simpl.
  destruct (Sqlite.select_id_vector c) as [l|e]; [|done].
  destruct (for_each SQLiteStorage.add_row l _) as [[[]|e] self1]; [|done].
  destruct (Annoy.build _ _) as [ix1|e]; [|done]. simpl.
  by destruct (Annoy.save ix1).
Qed.

(** What a rebuild leaves behind.  The index is always a new one, of the
    instance's dimensionality and of the angular metric, holding vectors of
    rows of the table only.  When the rebuild returns, the index is built,
    holds one item per row, and has been written to the file; when it
    raises, the index is left unbuilt and the file is as it was.  It returns
    exactly when the table can be scanned and every row can be added. *)
Lemma build_outcome self :
  let out := SQLiteStorage._build_annoy_index self in
  let ix' := SQLiteStorage.annoy_index out.2 in
  SQLiteStorage.conn out.2 = SQLiteStorage.conn self
  /\ SQLiteStorage.embedding_dim out.2 = SQLiteStorage.embedding_dim self
  /\ Annoy.f ix' = SQLiteStorage.embedding_dim self
  /\ Annoy.metric_of ix' = Annoy.Angular
  /\ (forall id v, Annoy.items ix' !! id = Some v ->
        exists t r, Sqlite.concepts (SQLiteStorage.conn self) = Some t
                    /\ Sqlite.rows t !! id = Some r
                    /\ Rows.row_vector (Sqlite.col_vector r) = Ok v)
  /\ (is_ok out.1 = true <->
      exists l, Sqlite.select_id_vector (SQLiteStorage.conn self) = Ok l
                /\ Forall (Rows.addable (SQLiteStorage.embedding_dim self)) l)
  /\ match out.1 with
     | Ok _ =>
         Annoy.built ix' = true
         /\ SQLiteStorage.index_file out.2
            = Some (Annoy.File (SQLiteStorage.embedding_dim self) (Annoy.items ix'))
         /\ exists t, Sqlite.concepts (SQLiteStorage.conn self) = Some t
                      /\ dom (Annoy.items ix') = dom (Sqlite.rows t)
     | Raise _ =>
         Annoy.built ix' = false
         /\ SQLiteStorage.index_file out.2 = SQLiteStorage.index_file self
     end.
Proof.
  intros out ix'. subst ix' out. rewrite build_unfold. cbv zeta.
  set (self0 := SQLiteStorage.set_annoy_index _ self).
  destruct (Sqlite.select_id_vector (SQLiteStorage.conn self)) as [l|e] eqn:Esel.
  2:{ simpl. split; [done|]. split; [done|]. split; [done|]. split; [done|].
      split; [intros id v H; by rewrite lookup_empty in H|].
      split; [|done]. split; [done|]. intros (l & [=] & _). }
  assert (exists t, Sqlite.is_open (SQLiteStorage.conn self) = true
                    /\ Sqlite.concepts (SQLiteStorage.conn self) = Some t)
    as (t & Hop & Ht).
  { unfold Sqlite.select_id_vector in Esel.
    destruct (Sqlite.is_open _); [|done].
    destruct (Sqlite.concepts _) as [t|]; [|done]. eauto. }
  destruct (select_id_vector_rows _ t Hop Ht) as (l' & Hl' & Hnd & Hel & Hdom).
  rewrite Esel in Hl'. injection Hl' as <-.
  destruct (for_each_add_row l self0 eq_refl Hnd)
    as (ix1 & Hst & Hf & Hm & Hb & Hsub & Hok & Hall).
  assert (Hsub' : forall id v, Annoy.items ix1 !! id = Some v ->
            exists t r, Sqlite.concepts (SQLiteStorage.conn self) = Some t
                        /\ Sqlite.rows t !! id = Some r
                        /\ Rows.row_vector (Sqlite.col_vector r) = Ok v).
  { intros id v H. destruct (Hsub id v H) as [H0|(s & Hin & Hs)].
    - simpl in H0. by rewrite lookup_empty in H0.
    - apply Hel in Hin as (r & Hr & ->). eauto. }
  destruct (for_each SQLiteStorage.add_row l self0) as [[[]|e] self1];
    simpl in Hst, Hok, Hall; subst self1.
  - unfold Annoy.build, Annoy.save. simpl. rewrite Hb. simpl.
    split; [done|]. split; [done|]. split; [done|]. split; [done|].
    split; [exact Hsub'|]. split.
    { split; [|done]. intros _. exists l. split; [done|]. by apply Hok. }
    split; [done|]. split; [by rewrite Hf|].
    exists t. split; [done|]. destruct (Hall eq_refl) as [Hin Hout].
    apply set_eq. intros id. rewrite !elem_of_dom. split.
    + intros [v Hv]. destruct (Hsub' id v Hv) as (t' & r & Ht' & Hr & _).
      rewrite Ht in Ht'. injection Ht' as <-. eauto.
    + intros [r Hr]. apply (Hin id (Sqlite.col_vector r)). apply Hel. eauto.
  - simpl. split; [done|]. split; [done|]. split; [done|]. split; [done|].
    split; [exact Hsub'|]. split; [|done].
    split; [done|]. intros (l0 & [= <-] & Hadd). by apply Hok in Hadd.
Qed.

(** C1, as the program has it: a rebuild does not roll back.  When it
    returns, the index has been replaced by a built one that holds exactly
    one item per row, the row's vector, and the index file has been
    rewritten from it.  When it raises, the previous index is gone all the
    same: the instance is left with a new, unbuilt index that holds vectors
    of rows only, and the index file is as it was. *)
Theorem build_replaces_or_resets self :
  let out := SQLiteStorage._build_annoy_index self in
  let ix' := SQLiteStorage.annoy_index out.2 in
  Annoy.f ix' = SQLiteStorage.embedding_dim self
  /\ (forall id v, Annoy.items ix' !! id = Some v ->
        exists t r, Sqlite.concepts (SQLiteStorage.conn self) = Some t
                    /\ Sqlite.rows t !! id = Some r
                    /\ Rows.row_vector (Sqlite.col_vector r) = Ok v)
  /\ match out.1 with
     | Ok _ =>
         Annoy.built ix' = true
         /\ SQLiteStorage.index_file out.2
            = Some (Annoy.File (SQLiteStorage.embedding_dim self) (Annoy.items ix'))
         /\ exists t, Sqlite.concepts (SQLiteStorage.conn self) = Some t
                      /\ dom (Annoy.items ix') = dom (Sqlite.rows t)
     | Raise _ =>
         Annoy.built ix' = false
         /\ SQLiteStorage.index_file out.2 = SQLiteStorage.index_file self
     end.
Proof.
  intros out ix'.
  destruct (build_outcome self) as (_ & _ & Hf & _ & Hsub & _ & Hres).
  split; [exact Hf|]. split; [exact Hsub|exact Hres].
Qed.

(** C1, as stated, fails: on a store that holds a row of another length,
    the rebuild raises [IndexError] after it has discarded the previous
    index; the query that found record 1 before finds nothing afterwards. *)
Lemma build_partially_applies :
  (SQLiteStorage._build_annoy_index Sample.mixed_storage).1 = Raise IndexError
  /\ Annoy.get_nns_by_vector Sample.distance [(5, 0); (1, 0)] 1
       (SQLiteStorage.annoy_index Sample.mixed_storage) = Ok [1]
  /\ Annoy.get_nns_by_vector Sample.distance [(5, 0); (1, 0)] 1
       (SQLiteStorage.annoy_index
          (SQLiteStorage._build_annoy_index Sample.mixed_storage).2) = Ok []
  /\ ~ Atomicity.never_partial Sample.distance Sample.mixed_storage.
Proof.
  assert (H1 : (SQLiteStorage._build_annoy_index Sample.mixed_storage).1
               = Raise IndexError) by (vm_compute; reflexivity).
  assert (H2 : Annoy.get_nns_by_vector Sample.distance [(5, 0); (1, 0)] 1
                 (SQLiteStorage.annoy_index Sample.mixed_storage) = Ok [1])
    by (vm_compute; reflexivity).
  assert (H3 : Annoy.get_nns_by_vector Sample.distance [(5, 0); (1, 0)] 1
                 (SQLiteStorage.annoy_index
                    (SQLiteStorage._build_annoy_index Sample.mixed_storage).2)
               = Ok []) by (vm_compute; reflexivity).
  split; [exact H1|]. split; [exact H2|]. split; [exact H3|].
  intros [(Hok & _)|Hq].
  - rewrite H1 in Hok. discriminate.
  - specialize (Hq [(5, 0); (1, 0)] 1%nat). rewrite H2, H3 in Hq. discriminate.
Qed.

(** C2, at a failing input: an instance constructed with the Euclidean
    metric on a fresh disk finds no index file and rebuilds; the index it
    ends up with is angular. *)
Theorem init_rebuild_forgets_metric :
  let out := SQLiteStorage.__init__ Sample.fresh_disk "concepts.db" 2
               Annoy.Euclidean 10 in
  out.1 = Ok tt
  /\ Annoy.metric_of (SQLiteStorage.annoy_index out.2) = Annoy.Angular.
Proof. vm_compute. split; reflexivity. Qed.

(** C4: when [add_interaction] returns, the ids the index holds are the ids
    of the rows of the table, the new id among them, and the index is
    built. *)
Theorem index_ids_equal_store_ids lib user_input metadata id lib' :
  ConceptLibrary.add_interaction user_input metadata lib = (Ok id, lib') ->
  exists t',
    Sqlite.concepts (SQLiteStorage.conn (ConceptLibrary.storage lib')) = Some t'
    /\ dom (Annoy.items (SQLiteStorage.annoy_index (ConceptLibrary.storage lib')))
       = dom (Sqlite.rows t')
    /\ id ∈ dom (Sqlite.rows t')
    /\ Annoy.built (SQLiteStorage.annoy_index (ConceptLibrary.storage lib')) = true.
Proof.
  unfold ConceptLibrary.add_interaction, bind, gets, ret,
    ConceptLibrary.on_storage, SQLiteStorage.update_annoy_index.
  destruct (SQLiteStorage.store _ _) as [[id1|e] st1] eqn:Est; [|done]. simpl.
  pose proof (build_outcome st1) as (Hc & _ & _ & _ & _ & _ & Hres).
  destruct (SQLiteStorage._build_annoy_index st1) as [[[]|e] st2]; [|done].
  simpl in *. intros [= <- <-]. simpl.
  destruct Hres as (Hb & _ & t' & Ht' & Hdom).
  exists t'. rewrite Hc. split; [done|]. split; [done|]. split; [|done].
  apply store_returns in Est as (vs & ms & t & _ & _ & _ & _ & -> & ->).
  simpl in Ht'. injection Ht' as <-. simpl.
  apply elem_of_dom. rewrite lookup_insert_eq. eauto.
Qed.

Lemma index_ids_equal_store_ids_witness :
  ConceptLibrary.add_interaction "pear" Sample.health Sample.lib2
  = (Ok 3, (ConceptLibrary.add_interaction "pear" Sample.health Sample.lib2).2)
  /\ exists t',
      dom (Annoy.items
             (SQLiteStorage.annoy_index
                (ConceptLibrary.storage
                   (ConceptLibrary.add_interaction "pear" Sample.health
                      Sample.lib2).2)))
      = dom (Sqlite.rows t')
      /\ 3 ∈ dom (Sqlite.rows t').
Proof.
  assert (H : ConceptLibrary.add_interaction "pear" Sample.health Sample.lib2
              = (Ok 3, (ConceptLibrary.add_interaction "pear" Sample.health
                          Sample.lib2).2)) by (vm_compute; reflexivity).
  split; [exact H|].
  destruct (index_ids_equal_store_ids Sample.lib2 "pear" Sample.health 3 _ H)
    as (t' & _ & Hdom & Hin & _).
  exists t'. split; [exact Hdom|exact Hin].
Defined.

(** ** Startup *)

(** The constructor, spelled out over this model of [load]: the table is
    created when it is missing, an index file of the right dimensionality
    is loaded, and in every other case the index is rebuilt. *)
Lemma init_unfold d db_path dim m n :
  SQLiteStorage.__init__ d db_path dim m n =
    let self0 :=
      SQLiteStorage.Self
        (Sqlite.Connection
           (Some (default Sqlite.empty_table (SQLiteStorage.database d)))
           true None)
        dim (Annoy.new dim m) (db_path ++ ".annoy") n
        (SQLiteStorage.index_on_disk d) in
    match SQLiteStorage.index_on_disk d with
    | Some fl =>
        if (Annoy.file_f fl =? dim)%nat then
          (Ok tt, SQLiteStorage.set_annoy_index
                    (Annoy.Index dim m (Annoy.file_items fl) true) self0)
        else SQLiteStorage._build_annoy_index self0
    | None => SQLiteStorage._build_annoy_index self0
    end.
Proof.
  unfold SQLiteStorage.__init__, SQLiteStorage._create_table,
    SQLiteStorage._load_annoy_index, try_except, bind, raise,
    SQLiteStorage.on_conn, SQLiteStorage.on_index, Sqlite.create_table,
    Sqlite.commit, Sqlite.connect, Annoy.load.
  destruct (SQLiteStorage.index_on_disk d) as [fl|];
    destruct (SQLiteStorage.database d) as [t|]; simpl; try done;
    by destruct (Annoy.file_f fl =? dim)%nat.
Qed.

(** C3, as the program has it: no step of the startup compares the two
    dimensionalities.  A storage backend handed to the library is taken as
    it is, whatever its dimensionality, its rows and its index.  With the
    default backend the startup returns, whatever index file the disk
    holds, whenever every row of the table can be added at the encoder's
    dimensionality under an id that fits the 32 bits of an item id, and
    always on a table without rows: the library then has a built index of
    the encoder's dimensionality, and the table is as it was. *)
Theorem startup_compares_nothing d enc :
  let dim := ConceptLibrary.get_sentence_embedding_dimension enc in
  let t := default Sqlite.empty_table (SQLiteStorage.database d) in
  (forall st, ConceptLibrary.__init__ d enc (Some st)
              = Ok (ConceptLibrary.Self enc dim st))
  /\ ((forall id r, Sqlite.rows t !! id = Some r ->
                    id < 2 ^ 31
                    /\ Rows.addable dim (id, Sqlite.col_vector r)) ->
      exists lib,
        ConceptLibrary.__init__ d enc None = Ok lib
        /\ ConceptLibrary.encoder lib = enc
        /\ ConceptLibrary.embedding_dim lib = dim
        /\ SQLiteStorage.embedding_dim (ConceptLibrary.storage lib) = dim
        /\ Annoy.built (SQLiteStorage.annoy_index (ConceptLibrary.storage lib))
           = true
        /\ Annoy.f (SQLiteStorage.annoy_index (ConceptLibrary.storage lib))
           = dim
        /\ Sqlite.is_open (SQLiteStorage.conn (ConceptLibrary.storage lib))
           = true
        /\ Sqlite.concepts (SQLiteStorage.conn (ConceptLibrary.storage lib))
           = Some t).
Proof.
  intros dim t. split; [done|]. intros Hall.
  unfold ConceptLibrary.__init__. fold dim.
  rewrite init_unfold. cbv zeta. fold t.
  set (self0 := SQLiteStorage.Self _ _ _ _ _ _).
  assert (Hb : exists st, SQLiteStorage._build_annoy_index self0 = (Ok tt, st)
                 /\ SQLiteStorage.embedding_dim st = dim
                 /\ Annoy.built (SQLiteStorage.annoy_index st) = true
                 /\ Annoy.f (SQLiteStorage.annoy_index st) = dim
                 /\ Sqlite.is_open (SQLiteStorage.conn st) = true
                 /\ Sqlite.concepts (SQLiteStorage.conn st) = Some t).
  { pose proof (build_outcome self0) as (Hc & Hd & Hf & _ & _ & Hok & Hres).
    destruct (select_id_vector_rows (SQLiteStorage.conn self0) t eq_refl eq_refl)
      as (l & Hl & _ & Hel & _).
    cbv zeta in *.
    destruct (SQLiteStorage._build_annoy_index self0) as [[[]|e] st];
      simpl in *.
    - exists st. destruct Hres as (Hbuilt & _). by rewrite Hc.
    - destruct Hok as [_ Hok]. discriminate Hok. exists l. split; [done|].
      apply Forall_forall. intros [id s] (r & Hr & ->)%Hel. by apply (Hall id r). }
  destruct (SQLiteStorage.index_on_disk d) as [fl|].
  - destruct (Annoy.file_f fl =? dim)%nat.
    + by eexists.
    + destruct Hb as (st & -> & Hst). by exists (ConceptLibrary.Self enc dim st).
  - destruct Hb as (st & -> & Hst). by exists (ConceptLibrary.Self enc dim st).
Qed.

(** C3, as stated, fails: a library whose encoder has three dimensions
    starts without any failure on a storage backend of two dimensions, whose
    index file and rows are two dimensional; and an encoder of two
    dimensions starts without any failure over the default disk that holds
    a three dimensional index file. *)
Lemma startup_ignores_mismatch :
  ConceptLibrary.get_sentence_embedding_dimension Sample.enc3
    ≠ SQLiteStorage.embedding_dim Sample.storage2
  /\ Annoy.file_f <$> SQLiteStorage.index_file Sample.storage2 = Some 2%nat
  /\ ConceptLibrary.__init__ Sample.fresh_disk Sample.enc3 (Some Sample.storage2)
     = Ok (ConceptLibrary.Self Sample.enc3 3 Sample.storage2)
  /\ Annoy.file_f <$> SQLiteStorage.index_on_disk Sample.disk3 = Some 3%nat
  /\ is_ok (ConceptLibrary.__init__ Sample.disk3 Sample.enc2 None) = true.
Proof.
  split; [vm_compute; lia|]. split; [vm_compute; reflexivity|].
  split; [reflexivity|]. split; [reflexivity|]. vm_compute; reflexivity.
Qed.

(** ** Queries *)

Lemma StronglySorted_sublist {A} (R : relation A) (l1 l2 : list A) :
  l1 `sublist_of` l2 -> StronglySorted R l2 -> StronglySorted R l1.
Proof.
  induction 1 as [|x l1 l2 Hsub IH|x l1 l2 Hsub IH]; intros Hs.
  - constructor.
  - apply StronglySorted_inv in Hs as [Hs Hx]. constructor; [by apply IH|].
    rewrite Forall_forall in Hx. apply Forall_forall.
    intros y Hy. apply Hx. by eapply elem_of_sublist.
  - apply StronglySorted_inv in Hs as [Hs _]. by apply IH.
Qed.

(** Every record [hydrate] returns carries the id it was fetched under, and
    the records come in the order of the ids. *)
Lemma hydrate_sublist ids : forall self results self',
  SQLiteStorage.hydrate ids self = (Ok results, self') ->
  SQLiteStorage.hit_id <$> results `sublist_of` ids.
Proof.
  induction ids as [|id ids IH]; intros self results self'; simpl.
  - intros [= <- <-]. constructor.
  - unfold bind at 1.
    destruct (SQLiteStorage.fetch id self) as [[row|e] self1] eqn:Ef; [|done].
    unfold bind, ret.
    destruct (SQLiteStorage.hydrate ids self1) as [[rs|e] self2] eqn:Eh; [|done].
    intros [= <- <-]. specialize (IH _ _ _ Eh).
    destruct row as [h|]; [|by constructor].
    assert (SQLiteStorage.hit_id h = id) as <-; [|by constructor].
    revert Ef. unfold SQLiteStorage.fetch, bind, lift, ret.
    destruct (Sqlite.select_by_id id _) as [[[id' r]|]|] eqn:Es; [|done..].
    assert (id' = id) as ->.
    { unfold Sqlite.select_by_id in Es.
      destruct (Sqlite.is_open _); [|done].
      destruct (Sqlite.concepts _) as [t|]; [|done].
      destruct (Sqlite.rows t !! id); simpl in Es; congruence. }
    destruct (Json.loads (Sqlite.col_vector r)); [|done].
    destruct (Json.loads (Sqlite.col_metadata r)); [|done].
    by intros [= <- _].
Qed.

Section Queries.
Variable distance : Annoy.metric -> Annoy.vector -> Annoy.vector -> Q.

#[local] Instance nearer_total m q : Total (Annoy.nearer distance m q).
Proof.
  intros a b. unfold Annoy.nearer. rewrite !Qle_bool_iff.
  destruct (Qlt_le_dec (distance m q a.2) (distance m q b.2)) as [H|H].
  - left. by apply Qlt_le_weak.
  - by right.
Qed.

#[local] Instance nearer_trans m q : Transitive (Annoy.nearer distance m q).
Proof.
  intros a b c. unfold Annoy.nearer. rewrite !Qle_bool_iff. apply Qle_trans.
Qed.

(** The answer of the index to a query of its dimensionality. *)
Lemma get_nns_by_vector_spec q k ix :
  length q = Annoy.f ix ->
  exists ids,
    Annoy.get_nns_by_vector distance q k ix = Ok ids
    /\ (length ids <= k)%nat
    /\ NoDup ids
    /\ (forall id, id ∈ ids -> id ∈ dom (Annoy.items ix))
    /\ StronglySorted
         (fun a b => (Annoy.distance_to distance ix q a
                      <= Annoy.distance_to distance ix q b)%Q) ids
    /\ (Annoy.built ix = true ->
        length ids = Nat.min k (size (Annoy.items ix))).
Proof.
  intros Hlen. unfold Annoy.get_nns_by_vector.
  rewrite Hlen, Nat.eqb_refl. simpl.
  destruct (Annoy.built ix).
  2:{ exists []. split; [done|]. split; [simpl; lia|]. split; [constructor|].
      split; [by intros ? ?%elem_of_nil|]. split; [constructor|done]. }
  set (sorted := merge_sort _ _).
  assert (Hperm : sorted ≡ₚ map_to_list (Annoy.items ix))
    by apply merge_sort_Permutation.
  assert (Hin : forall id v, (id, v) ∈ sorted -> Annoy.items ix !! id = Some v).
  { intros id v H. rewrite Hperm in H. by apply elem_of_map_to_list. }
  assert (Hss : StronglySorted
                  (fun a b => (Annoy.distance_to distance ix q a
                               <= Annoy.distance_to distance ix q b)%Q)
                  sorted.*1).
  { assert (Hs : StronglySorted (Annoy.nearer distance (Annoy.metric_of ix) q)
                   sorted) by (apply StronglySorted_merge_sort; apply _).
    clear Hperm. induction Hs as [|[id v] l Hs IH Hx]; [constructor|].
    simpl. constructor.
    - apply IH. intros id' v' H. apply Hin. by right.
    - rewrite Forall_fmap. rewrite Forall_forall in Hx. apply Forall_forall.
      intros [id' v'] H'. specialize (Hx _ H'). simpl.
      unfold Annoy.distance_to.
      rewrite (Hin id v) by left. rewrite (Hin id' v') by (by right).
      unfold Annoy.nearer in Hx. by apply Qle_bool_iff in Hx. }
  exists (take k sorted.*1). split; [done|].
  split; [rewrite length_take; lia|].
  split.
  { eapply sublist_NoDup; [|apply sublist_take].
    rewrite Hperm. apply NoDup_fst_map_to_list. }
  split.
  { intros id H. eapply elem_of_sublist in H; [|apply sublist_take].
    apply list_elem_of_fmap in H as ([id' v] & -> & H).
    simpl. apply elem_of_dom. rewrite (Hin _ _ H). eauto. }
  split.
  { eapply StronglySorted_sublist; [apply sublist_take|exact Hss]. }
  intros _. rewrite length_take, length_fmap, Hperm, length_map_to_list. done.
Qed.

End Queries.

(** ** JSON: [loads] undoes [dumps] *)

Section JsonNumbers.
Import Json.
Local Open Scope char_scope.

Lemma scan_print_uint u rest :
  no_digit rest -> scan_uint (print_uint u ++ rest) = (u, rest).
Proof.
  intros Hrest. induction u; simpl;
    try (rewrite IHu; reflexivity).
  destruct rest as [|c r]; [done|]. simpl in *. by rewrite Hrest.
Qed.

Lemma to_uint_nonnil n : N.to_uint n ≠ Nil.
Proof. destruct n; [done|]. apply DecimalPos.Unsigned.to_uint_nonnil. Qed.

Lemma canonical_to_uint n : canonical (N.to_uint n) = true.
Proof.
  unfold canonical, uint_eqb. rewrite DecimalN.Unsigned.of_to.
  by destruct (Decimal.uint_eq_dec _ _).
Qed.

(** The digits of a number start with a digit. *)
Lemma print_uint_head u :
  u ≠ Nil -> exists c t, print_uint u = c :: t /\ is_digit c = true.
Proof. destruct u; [done|..]; intros _; simpl; eauto. Qed.

Lemma signed_abs z : signed (z <? 0)%Z (Z.abs_N z) = z.
Proof.
  unfold signed. destruct (Z.ltb_spec z 0); rewrite N2Z.inj_abs_N; lia.
Qed.

Lemma scan_sign_print_Z z rest :
  exists t, scan_sign (print_Z z ++ rest) = ((z <? 0)%Z, t ++ rest)
            /\ t = print_uint (N.to_uint (Z.abs_N z)).
Proof.
  eexists. split; [|reflexivity]. unfold print_Z.
  destruct (z <? 0)%Z; [done|].
  destruct (print_uint_head (N.to_uint (Z.abs_N z)) (to_uint_nonnil _))
    as (c & t & -> & Hc).
  simpl. destruct (Ascii.eqb_spec c "-") as [->|]; [done|done].
Qed.

Lemma ends_value_no_digit rest : ends_value rest -> no_digit rest.
Proof. destruct rest as [|c r]; [done|]. by intros [->|[->| ->]]. Qed.

Lemma scan_fraction_none rest :
  ends_value rest -> scan_fraction rest = Some (None, rest).
Proof. destruct rest as [|c r]; [done|]. by intros [->|[->| ->]]. Qed.

Lemma scan_exponent_none rest :
  ends_value rest -> scan_exponent rest = Some (None, rest).
Proof. destruct rest as [|c r]; [done|]. by intros [->|[->| ->]]. Qed.

Lemma scan_exponent_print_Z e rest :
  no_digit rest ->
  scan_exponent ("e" :: print_Z e ++ rest) = Some (Some e, rest).
Proof.
  intros Hrest. unfold scan_exponent, print_Z.
  change (Ascii.eqb "e" "e" || Ascii.eqb "e" "E") with true. cbv iota.
  pose proof (signed_abs e) as Hs.
  destruct (print_uint_head (N.to_uint (Z.abs_N e)) (to_uint_nonnil _))
    as (c & t & Hp & Hc).
  destruct (e <? 0)%Z.
  - cbn [app]. change (Ascii.eqb "-" "-") with true. cbv iota.
    rewrite (scan_print_uint _ _ Hrest).
    rewrite DecimalN.Unsigned.of_to, Hs.
    by destruct (N.to_uint (Z.abs_N e)).
  - assert (Hm : Ascii.eqb c "-" = false)
      by (destruct (Ascii.eqb_spec c "-") as [->|]; done).
    assert (Hpl : Ascii.eqb c "+" = false)
      by (destruct (Ascii.eqb_spec c "+") as [->|]; done).
    rewrite Hp. cbn [app]. rewrite Hm, Hpl.
    change (c :: t ++ rest) with ((c :: t) ++ rest). rewrite <- Hp.
    rewrite (scan_print_uint _ _ Hrest).
    rewrite DecimalN.Unsigned.of_to, Hs.
    by destruct (N.to_uint (Z.abs_N e)).
Qed.

Lemma parse_number_int z rest :
  ends_value rest -> parse_number (print_Z z ++ rest) = Some (PyInt z, rest).
Proof.
  intros Hrest. unfold parse_number.
  destruct (scan_sign_print_Z z rest) as (t & -> & ->).
  rewrite (scan_print_uint _ _ (ends_value_no_digit _ Hrest)).
  rewrite canonical_to_uint, scan_fraction_none, scan_exponent_none by done.
  by rewrite DecimalN.Unsigned.of_to, signed_abs.
Qed.

Lemma parse_number_float m e rest :
  ends_value rest ->
  parse_number (print_Z m ++ "e" :: print_Z e ++ rest)
  = Some (PyFloat m e, rest).
Proof.
  intros Hrest. unfold parse_number.
  destruct (scan_sign_print_Z m ("e" :: print_Z e ++ rest)) as (t & -> & ->).
  rewrite (scan_print_uint _ ("e" :: _)) by done.
  rewrite canonical_to_uint.
  change (scan_fraction ("e" :: print_Z e ++ rest))
    with (Some (@None Decimal.uint, "e" :: print_Z e ++ rest)).
  cbv beta iota.
  rewrite (scan_exponent_print_Z _ _ (ends_value_no_digit _ Hrest)).
  by rewrite DecimalN.Unsigned.of_to, signed_abs.
Qed.

(** A number literal starts with a digit or a minus sign. *)
Lemma print_Z_head z :
  exists c t, print_Z z = c :: t
              /\ (is_digit c || Ascii.eqb c "-") = true.
Proof.
  unfold print_Z. destruct (z <? 0)%Z; [by eauto|].
  destruct (print_uint_head (N.to_uint (Z.abs_N z)) (to_uint_nonnil _))
    as (c & t & -> & Hc).
  exists c, t. by rewrite Hc.
Qed.

End JsonNumbers.

Section JsonStrings.
Import Json.
Local Open Scope char_scope.

(** One character, escaped or not, reads back as itself. *)
Lemma parse_escape_char c t :
  parse_string (escape_char c ++ t)
  = match parse_string t with
    | Some (s, r) => Some (String c s, r)
    | None => None
    end.
Proof.
  destruct c as [[] [] [] [] [] [] [] []];
    match goal with
    | |- context [escape_char ?c] =>
        let e := eval vm_compute in (escape_char c) in
        change (escape_char c) with e
    end;
    cbn [app]; unfold parse_string at 1; fold parse_string;
    simpl; reflexivity.
Qed.

Lemma parse_escape s rest :
  parse_string (escape s ++ dquote :: rest) = Some (s, rest).
Proof.
  induction s as [|c s IH]; [done|].
  cbn [escape]. rewrite <- app_assoc, parse_escape_char. by rewrite IH.
Qed.

(** The text of a string literal has at least its two quotes. *)
Lemma print_string_length s : (2 <= length (print_string s))%nat.
Proof. unfold print_string. simpl. rewrite length_app. simpl. lia. Qed.

End JsonStrings.

Section JsonValues.
Import Json.
Local Open Scope char_scope.

Lemma pyval_ind (P : pyval -> Prop) :
  P PyNone ->
  (forall b, P (PyBool b)) ->
  (forall z, P (PyInt z)) ->
  (forall m e, P (PyFloat m e)) ->
  (forall s, P (PyStr s)) ->
  (forall l, Forall P l -> P (PyList l)) ->
  (forall d, Forall (fun kx => P kx.2) d -> P (PyDict d)) ->
  (forall tag, P (PyOther tag)) ->
  forall v, P v.
Proof.
  intros HN HB HI HF HS HL HD HO. fix IH 1.
  intros [|b|z|m e|s|l|d|tag];
    [exact HN|apply HB|apply HI|apply HF|apply HS| | |apply HO].
  - apply HL. induction l as [|x l IHl]; constructor; [apply IH|exact IHl].
  - apply HD. induction d as [|[k x] d IHd]; constructor; [apply IH|exact IHd].
Qed.

Lemma skip_ws_head c r : is_ws c = false -> skip_ws (c :: r) = c :: r.
Proof. intros H. simpl. by rewrite H. Qed.

Lemma number_start c :
  (is_digit c || Ascii.eqb c "-") = true ->
  is_ws c = false /\ Ascii.eqb c "]" = false /\ Ascii.eqb c "}" = false.
Proof.
  destruct c as [[] [] [] [] [] [] [] []]; vm_compute; intros H;
    first [discriminate H | repeat split].
Qed.

Lemma print_starts v rest :
  serialisable v = true -> starts_value (print v ++ rest).
Proof.
  unfold starts_value. destruct v as [|[]|z|m e|s|l|d|tag]; intros Hs;
    try discriminate Hs; try (by eexists _, _).
  - destruct (print_Z_head z) as (c & t & Hp & Hc).
    exists c, (t ++ rest). simpl. rewrite Hp. split; [done|].
    by apply number_start.
  - destruct (print_Z_head m) as (c & t & Hp & Hc).
    exists c, ((t ++ "e" :: print_Z e) ++ rest). simpl. rewrite Hp.
    split; [done|]. by apply number_start.
Qed.

Lemma parse_value_space n s : parse_value n (" " :: s) = parse_value n s.
Proof. by destruct n. Qed.

Lemma parse_members_space n s : parse_members n (" " :: s) = parse_members n s.
Proof. by destruct n. Qed.

Section Steps.
Variable elems : list ascii -> option (list pyval * list ascii).
Variable members : list ascii -> option (list (string * pyval) * list ascii).

Lemma value_step_none rest :
  value_step elems members (print PyNone ++ rest) = Some (PyNone, rest).
Proof. done. Qed.

Lemma value_step_bool b rest :
  value_step elems members (print (PyBool b) ++ rest) = Some (PyBool b, rest).
Proof. by destruct b. Qed.

Lemma value_step_number c t :
  (is_digit c || Ascii.eqb c "-") = true ->
  value_step elems members (c :: t) = parse_number (c :: t).
Proof.
  intros Hc. unfold value_step.
  destruct (number_start c Hc) as (Hws & _).
  by rewrite (skip_ws_head _ _ Hws), Hc.
Qed.

Lemma value_step_int z rest :
  ends_value rest ->
  value_step elems members (print (PyInt z) ++ rest) = Some (PyInt z, rest).
Proof.
  intros Hrest. rewrite <- (parse_number_int z rest Hrest). simpl.
  destruct (print_Z_head z) as (c & t & -> & Hc).
  by apply value_step_number.
Qed.

Lemma value_step_float m e rest :
  ends_value rest ->
  value_step elems members (print (PyFloat m e) ++ rest)
  = Some (PyFloat m e, rest).
Proof.
  intros Hrest. rewrite <- (parse_number_float m e rest Hrest). simpl.
  rewrite <- app_assoc. simpl.
  destruct (print_Z_head m) as (c & t & -> & Hc).
  by apply value_step_number.
Qed.

Lemma value_step_str s rest :
  value_step elems members (print (PyStr s) ++ rest) = Some (PyStr s, rest).
Proof.
  simpl. unfold value_step. simpl. rewrite <- app_assoc. simpl.
  by rewrite parse_escape.
Qed.

Lemma value_step_list l rest :
  (l ≠ [] -> starts_value (print_elems l ++ rest)) ->
  value_step elems members (print (PyList l) ++ rest)
  = match l with
    | [] => Some (PyList [], rest)
    | _ :: _ =>
        match elems (print_elems l ++ rest) with
        | Some (l', r) => Some (PyList l', r)
        | None => None
        end
    end.
Proof.
  intros Hst. change (print (PyList l)) with ("[" :: print_elems l).
  destruct l as [|x l]; [done|].
  destruct Hst as (c & t & Hp & Hws & Hb & _); [done|].
  unfold value_step. cbn [app skip_ws]. rewrite Hp.
  change (is_ws "[") with false. cbv iota.
  change (is_digit "[" || Ascii.eqb "[" "-") with false. cbv iota.
  change (Ascii.eqb "[" "n") with false.
  change (Ascii.eqb "[" "t") with false.
  change (Ascii.eqb "[" "f") with false.
  change (Ascii.eqb "[" dquote) with false.
  change (Ascii.eqb "[" "[") with true. cbv iota.
  by rewrite (skip_ws_head _ _ Hws), Hb.
Qed.

Lemma value_step_dict d rest :
  (d ≠ [] -> starts_value (print_members d ++ rest)) ->
  value_step elems members (print (PyDict d) ++ rest)
  = match d with
    | [] => Some (PyDict [], rest)
    | _ :: _ =>
        match members (print_members d ++ rest) with
        | Some (d', r) => Some (PyDict (dict_of_pairs d'), r)
        | None => None
        end
    end.
Proof.
  intros Hst. change (print (PyDict d)) with ("{" :: print_members d).
  destruct d as [|kx d]; [done|].
  destruct Hst as (c & t & Hp & Hws & _ & Hb); [done|].
  unfold value_step. cbn [app skip_ws]. rewrite Hp.
  change (is_ws "{") with false. cbv iota.
  change (is_digit "{" || Ascii.eqb "{" "-") with false. cbv iota.
  change (Ascii.eqb "{" "n") with false.
  change (Ascii.eqb "{" "t") with false.
  change (Ascii.eqb "{" "f") with false.
  change (Ascii.eqb "{" dquote) with false.
  change (Ascii.eqb "{" "[") with false.
  change (Ascii.eqb "{" "{") with true. cbv iota.
  by rewrite (skip_ws_head _ _ Hws), Hb.
Qed.

End Steps.

Ltac flatten_app :=
  repeat first [rewrite <- app_assoc | progress cbn [app]].

Lemma parse_elems_space n s : parse_elems n (" " :: s) = parse_elems n s.
Proof.
  destruct n; [done|]. cbn [parse_elems]. unfold elems_step.
  by rewrite parse_value_space.
Qed.

Lemma print_elems_starts l rest :
  l ≠ [] -> forallb serialisable l = true ->
  starts_value (print_elems l ++ rest).
Proof.
  destruct l as [|x l]; [done|]. intros _ [Hx _]%andb_true_iff.
  destruct l; cbn [print_elems]; rewrite <- app_assoc; by apply print_starts.
Qed.

Lemma print_members_starts d rest :
  d ≠ [] -> starts_value (print_members d ++ rest).
Proof.
  destruct d as [|[k x] d]; [done|]. intros _.
  destruct d; by eexists _, _.
Qed.

Lemma parse_print_elems l :
  Forall (reads_back parse_value) l ->
  l ≠ [] ->
  forall n rest,
    (need_elems l <= n)%nat -> ends_value rest ->
    parse_elems n (print_elems l ++ rest) = Some (l, rest).
Proof.
  induction 1 as [|x l Hx _ IH]; [done|]. intros _ n rest Hn Hrest.
  destruct n as [|n]; [simpl in Hn; lia|]. cbn [need_elems] in Hn.
  cbn [parse_elems]. unfold elems_step. unfold reads_back in Hx.
  destruct l as [|y l].
  - cbn [print_elems]. rewrite <- app_assoc. cbn [app].
    rewrite Hx; [done|lia|]. right. by left.
  - change (print_elems (x :: y :: l))
      with (print x ++ "," :: " " :: print_elems (y :: l)).
    rewrite <- app_assoc. cbn [app].
    rewrite Hx; [|lia|by left].
    change (skip_ws ("," :: " " :: print_elems (y :: l) ++ rest))
      with ("," :: " " :: print_elems (y :: l) ++ rest).
    change (Ascii.eqb "," ",") with true. cbv iota.
    rewrite parse_elems_space, IH; [done|done|lia|done].
Qed.

Lemma parse_print_members d :
  Forall (fun kx => reads_back parse_value kx.2) d ->
  d ≠ [] ->
  forall n rest,
    (need_members d <= n)%nat -> ends_value rest ->
    parse_members n (print_members d ++ rest) = Some (d, rest).
Proof.
  induction 1 as [|[k x] d Hx _ IH]; [done|]. intros _ n rest Hn Hrest.
  destruct n as [|n]; [simpl in Hn; lia|]. cbn [need_members snd] in Hn.
  cbn [parse_members]. unfold members_step. unfold reads_back in Hx.
  simpl in Hx.
  destruct d as [|ky d].
  - cbn [print_members]. unfold print_string. flatten_app.
    change (skip_ws (dquote :: ?r)) with (dquote :: r).
    change (Ascii.eqb dquote dquote) with true. cbv iota.
    rewrite parse_escape.
    change (skip_ws (":" :: ?r)) with (":" :: r).
    change (Ascii.eqb ":" ":") with true. cbv iota.
    rewrite parse_value_space, Hx; [done|lia|]. right. by right.
  - change (print_members ((k, x) :: ky :: d))
      with (print_string k ++ ":" :: " " :: print x
              ++ "," :: " " :: print_members (ky :: d)).
    unfold print_string. flatten_app.
    change (skip_ws (dquote :: ?r)) with (dquote :: r).
    change (Ascii.eqb dquote dquote) with true. cbv iota.
    rewrite parse_escape.
    change (skip_ws (":" :: ?r)) with (":" :: r).
    change (Ascii.eqb ":" ":") with true. cbv iota.
    rewrite parse_value_space, Hx; [|lia|by left].
    change (skip_ws ("," :: ?r)) with ("," :: r).
    change (Ascii.eqb "," ",") with true. cbv iota.
    rewrite parse_members_space, IH; [done|done|lia|done].
Qed.

(** Setting keys that are all new, one after the other, lists them. *)
Lemma dict_set_fresh k v d : k ∉ d.*1 -> dict_set k v d = d ++ [(k, v)].
Proof.
  induction d as [|[k' v'] d IH]; [done|]. simpl.
  intros [Hne Hk]%not_elem_of_cons.
  destruct (String.eqb_spec k k') as [->|_]; [done|]. by rewrite IH.
Qed.

Lemma dict_of_pairs_distinct d : NoDup d.*1 -> dict_of_pairs d = d.
Proof.
  unfold dict_of_pairs. change d with ([] ++ d) at 1 3.
  generalize (@nil (string * pyval)) as acc.
  induction d as [|[k v] d IH]; intros acc Hnd; simpl.
  - by rewrite app_nil_r.
  - rewrite fmap_app in Hnd. simpl in Hnd.
    rewrite dict_set_fresh.
    + rewrite IH; [by rewrite <- app_assoc|].
      rewrite !fmap_app. simpl. by rewrite <- app_assoc.
    + apply NoDup_app in Hnd as (_ & Hk & _). intros Hin.
      apply (Hk _ Hin). left.
Qed.

(** The round trip on values. *)
Lemma parse_print v :
  serialisable v = true -> well_formed v = true ->
  reads_back parse_value v.
Proof.
  induction v as [|b|z|m e|s|l IH|d IH|tag] using pyval_ind;
    intros Hs Hw n rest Hn Hrest; try discriminate Hs;
    (destruct n as [|n]; [simpl in Hn; lia|]); cbn [parse_value].
  - apply value_step_none.
  - apply value_step_bool.
  - by apply value_step_int.
  - by apply value_step_float.
  - apply value_step_str.
  - simpl in Hs, Hw. rewrite value_step_list.
    2:{ intros Hne. by apply print_elems_starts. }
    destruct l as [|x l]; [done|].
    rewrite parse_print_elems; [done| |done| |done].
    + apply Forall_forall. intros y Hy. rewrite Forall_forall in IH.
      apply IH; [done|..].
      * rewrite forallb_forall in Hs. apply Hs. by apply list_elem_of_In.
      * rewrite forallb_forall in Hw. apply Hw. by apply list_elem_of_In.
    + change (need (PyList (x :: l))) with (S (need_elems (x :: l))) in Hn. lia.
  - simpl in Hs, Hw. apply andb_true_iff in Hw as [Hnd Hw].
    apply bool_decide_eq_true in Hnd.
    rewrite value_step_dict.
    2:{ intros Hne. by apply print_members_starts. }
    destruct d as [|kx d]; [done|].
    rewrite parse_print_members; [by rewrite dict_of_pairs_distinct| |done| |done].
    + apply Forall_forall. intros y Hy. rewrite Forall_forall in IH.
      apply IH; [done|..].
      * rewrite forallb_forall in Hs. apply Hs. by apply list_elem_of_In.
      * rewrite forallb_forall in Hw. apply Hw. by apply list_elem_of_In.
    + change (need (PyDict (kx :: d))) with (S (need_members (kx :: d))) in Hn.
      lia.
Qed.

Lemma need_elems_le_length l :
  Forall (fun v => (need v <= length (print v))%nat) l ->
  (need_elems l <= length (print_elems l))%nat.
Proof.
  induction 1 as [|x l Hx Hl IH]; [simpl; lia|].
  destruct l as [|y l].
  - cbn [print_elems need_elems]. rewrite length_app. simpl. lia.
  - change (print_elems (x :: y :: l))
      with (print x ++ "," :: " " :: print_elems (y :: l)).
    change (need_elems (x :: y :: l))
      with (S (need x + need_elems (y :: l))).
    rewrite length_app. cbn [length]. lia.
Qed.

Lemma need_members_le_length d :
  Forall (fun kx : string * pyval => (need kx.2 <= length (print kx.2))%nat) d ->
  (need_members d <= length (print_members d))%nat.
Proof.
  induction 1 as [|[k x] d Hx Hd IH]; [simpl; lia|]. simpl in Hx.
  destruct d as [|ky d].
  - cbn [print_members need_members snd].
    rewrite !length_app. cbn [length]. rewrite length_app. simpl. lia.
  - change (print_members ((k, x) :: ky :: d))
      with (print_string k ++ ":" :: " " :: print x
              ++ "," :: " " :: print_members (ky :: d)).
    change (need_members ((k, x) :: ky :: d))
      with (S (need x + need_members (ky :: d))).
    rewrite !length_app. cbn [length]. rewrite length_app. cbn [length]. lia.
Qed.

(** The fuel [loads] gives the reader is enough for what [dumps] writes. *)
Lemma need_le_length v :
  serialisable v = true -> (need v <= length (print v))%nat.
Proof.
  induction v as [|b|z|m e|s|l IH|d IH|tag] using pyval_ind; intros Hs;
    try discriminate Hs.
  - simpl. lia.
  - destruct b; simpl; lia.
  - simpl. destruct (print_Z_head z) as (c & t & -> & _). simpl. lia.
  - simpl. destruct (print_Z_head m) as (c & t & -> & _). simpl. lia.
  - simpl. lia.
  - change (need (PyList l)) with (S (need_elems l)).
    change (print (PyList l)) with ("[" :: print_elems l). cbn [length].
    apply le_n_S, need_elems_le_length.
    simpl in Hs. rewrite forallb_forall in Hs.
    rewrite Forall_forall in IH. apply Forall_forall.
    intros x Hx. apply IH; [done|]. apply Hs. by apply list_elem_of_In.
  - change (need (PyDict d)) with (S (need_members d)).
    change (print (PyDict d)) with ("{" :: print_members d). cbn [length].
    apply le_n_S, need_members_le_length.
    simpl in Hs. rewrite forallb_forall in Hs.
    rewrite Forall_forall in IH. apply Forall_forall.
    intros x Hx. apply IH; [done|]. apply Hs. by apply list_elem_of_In.
Qed.

(** [json.loads(json.dumps(v)) == v] for every JSON compatible [v]. *)
Lemma loads_dumps v :
  compatible v = true ->
  exists s, dumps v = Ok s /\ loads s = Ok v.
Proof.
  intros [Hs Hw]%andb_true_iff. unfold dumps. rewrite Hs.
  eexists. split; [reflexivity|]. unfold loads.
  rewrite list_ascii_of_string_of_list_ascii.
  pose proof (parse_print v Hs Hw (S (length (print v))) []) as H.
  rewrite app_nil_r in H. rewrite H; [done| |done].
  apply need_le_length in Hs. lia.
Qed.

(** A vector of floats is JSON compatible. *)
Lemma tolist_compatible v : compatible (ConceptLibrary.tolist v) = true.
Proof.
  unfold compatible, ConceptLibrary.tolist. apply andb_true_iff.
  split; simpl; by induction v.
Qed.

End JsonValues.

(** C5: when [add_interaction] returns an id for a text and a JSON
    compatible metadata value, fetching that id afterwards gives the record
    with that id, that very text as [raw_text], that very value as
    [metadata], and the vector the encoder gave. *)
Theorem fetch_after_add_interaction lib user_input metadata id lib' :
  Json.compatible metadata = true ->
  ConceptLibrary.add_interaction user_input metadata lib = (Ok id, lib') ->
  SQLiteStorage.fetch id (ConceptLibrary.storage lib')
  = (Ok (Some (SQLiteStorage.Hit id
                 (ConceptLibrary.tolist
                    (ConceptLibrary.encode (ConceptLibrary.encoder lib)
                       user_input))
                 metadata user_input)),
     ConceptLibrary.storage lib').
Proof.
  intros Hmd.
  unfold ConceptLibrary.add_interaction, bind, gets, ret,
    ConceptLibrary.on_storage, SQLiteStorage.update_annoy_index.
  destruct (SQLiteStorage.store _ _) as [[id1|e] st1] eqn:Est; [|done]. simpl.
  pose proof (build_outcome st1) as (Hc & _).
  destruct (SQLiteStorage._build_annoy_index st1) as [[[]|e] st2]; [|done].
  simpl in *. intros [= <- <-]. simpl.
  apply store_returns in Est as (vs & ms & t & Hvs & Hms & _ & _ & -> & ->).
  simpl in Hvs, Hms, Hc.
  rewrite (fetch_present st2 _ (Sqlite.next_rowid t)
             (Sqlite.Row vs ms user_input)
             (eq_trans (f_equal Sqlite.is_open Hc) eq_refl)
             (eq_trans (f_equal Sqlite.concepts Hc) eq_refl)
             (lookup_insert_eq _ _ _)).
  simpl.
  destruct (loads_dumps _ (tolist_compatible
              (ConceptLibrary.encode (ConceptLibrary.encoder lib) user_input)))
    as (vs' & Hvs' & Hlv).
  rewrite Hvs in Hvs'. injection Hvs' as <-.
  destruct (loads_dumps _ Hmd) as (ms' & Hms' & Hlm).
  rewrite Hms in Hms'. injection Hms' as <-. by rewrite Hlv, Hlm.
Qed.

Lemma fetch_after_add_interaction_witness :
  Json.compatible Sample.health = true
  /\ ConceptLibrary.add_interaction "pear" Sample.health Sample.lib2
     = (Ok 3, (ConceptLibrary.add_interaction "pear" Sample.health Sample.lib2).2)
  /\ SQLiteStorage.fetch 3
       (ConceptLibrary.storage
          (ConceptLibrary.add_interaction "pear" Sample.health Sample.lib2).2)
     = (Ok (Some (SQLiteStorage.Hit 3
                    (ConceptLibrary.tolist
                       (ConceptLibrary.encode
                          (ConceptLibrary.encoder Sample.lib2) "pear"))
                    Sample.health "pear")),
        ConceptLibrary.storage
          (ConceptLibrary.add_interaction "pear" Sample.health Sample.lib2).2).
Proof.
  assert (Hc : Json.compatible Sample.health = true) by (vm_compute; reflexivity).
  assert (H : ConceptLibrary.add_interaction "pear" Sample.health Sample.lib2
              = (Ok 3, (ConceptLibrary.add_interaction "pear" Sample.health
                          Sample.lib2).2)) by (vm_compute; reflexivity).
  split; [exact Hc|]. split; [exact H|].
  exact (fetch_after_add_interaction Sample.lib2 "pear" Sample.health 3 _ Hc H).
Defined.

(** * Further properties of the program *)

(** ** The constructor and the table *)

Lemma set_annoy_index_same self :
  SQLiteStorage.set_annoy_index (SQLiteStorage.annoy_index self) self = self.
Proof. by destruct self. Qed.

(** X1: on an open connection [_create_table] returns; it leaves a table
    that is there with all its rows and creates an empty one otherwise; it
    leaves the index and its file alone, and running it again changes
    nothing. *)
Theorem create_table_idempotent self :
  Sqlite.is_open (SQLiteStorage.conn self) = true ->
  let out := SQLiteStorage._create_table self in
  out.1 = Ok tt
  /\ Sqlite.concepts (SQLiteStorage.conn out.2)
     = Some (default Sqlite.empty_table
               (Sqlite.concepts (SQLiteStorage.conn self)))
  /\ SQLiteStorage.annoy_index out.2 = SQLiteStorage.annoy_index self
  /\ SQLiteStorage.index_file out.2 = SQLiteStorage.index_file self
  /\ SQLiteStorage._create_table out.2 = (Ok tt, out.2).
Proof.
  intros Hop.
  unfold SQLiteStorage._create_table, bind, SQLiteStorage.on_conn,
    Sqlite.create_table, Sqlite.commit.
  destruct self as [[tb op lr] dim ix path nt fl]. simpl in *. subst op.
  by destruct tb.
Qed.

(** A rebuild that returns leaves the index persisted and in step with the
    table. *)
Lemma build_persists self :
  (SQLiteStorage._build_annoy_index self).1 = Ok tt ->
  Restart.persisted (SQLiteStorage._build_annoy_index self).2
  /\ Restart.in_sync (SQLiteStorage._build_annoy_index self).2.
Proof.
  intros Hok.
  pose proof (build_outcome self) as (Hc & Hd & Hf & _ & _ & _ & Hres).
  cbv zeta in *. rewrite Hok in Hres.
  destruct Hres as (Hb & Hfile & t & Ht & Hdom).
  split.
  - split; [done|]. split; [by rewrite Hd|]. by rewrite Hfile, Hf.
  - exists t. by rewrite Hc.
Qed.

(** X2: whenever the constructor returns, by loading the index file or by
    rebuilding, the instance holds a built index of the dimensionality it
    was constructed with, the index file holds that very index, and the
    connection is open on a database that has the table. *)
Theorem init_leaves_persisted_index d db_path dim m n :
  let out := SQLiteStorage.__init__ d db_path dim m n in
  out.1 = Ok tt ->
  Restart.persisted out.2
  /\ SQLiteStorage.embedding_dim out.2 = dim
  /\ Sqlite.is_open (SQLiteStorage.conn out.2) = true
  /\ Sqlite.concepts (SQLiteStorage.conn out.2)
     = Some (default Sqlite.empty_table (SQLiteStorage.database d)).
Proof.
  intros out. subst out. rewrite init_unfold. cbv zeta.
  set (self0 := SQLiteStorage.Self _ _ _ _ _ _).
  assert (Hb : (SQLiteStorage._build_annoy_index self0).1 = Ok tt ->
               Restart.persisted (SQLiteStorage._build_annoy_index self0).2
               /\ SQLiteStorage.embedding_dim
                    (SQLiteStorage._build_annoy_index self0).2 = dim
               /\ Sqlite.is_open
                    (SQLiteStorage.conn
                       (SQLiteStorage._build_annoy_index self0).2) = true
               /\ Sqlite.concepts
                    (SQLiteStorage.conn
                       (SQLiteStorage._build_annoy_index self0).2)
                  = Some (default Sqlite.empty_table (SQLiteStorage.database d))).
  { intros Hok. destruct (build_persists self0 Hok) as [Hp _].
    pose proof (build_outcome self0) as (Hc & Hd & _).
    cbv zeta in *. by rewrite Hc, Hd. }
  destruct (SQLiteStorage.index_on_disk d) as [fl|] eqn:Efl; [|exact Hb].
  destruct (Annoy.file_f fl =? dim)%nat eqn:Edim; [|exact Hb].
  intros _. apply Nat.eqb_eq in Edim. subst self0. simpl.
  unfold Restart.persisted. simpl. destruct fl as [ff fi]. simpl in Edim.
  by subst ff.
Qed.

(** X4: an instance whose index is persisted can be opened again from
    what it leaves on the disk, with the same dimensionality and metric:
    the constructor returns with the same index, hence the same answers to
    every query, over the same table and index file. *)
Theorem reopen_restores_index self db_path n :
  Restart.persisted self ->
  let out := SQLiteStorage.__init__ (Restart.left_on_disk self) db_path
               (SQLiteStorage.embedding_dim self)
               (Annoy.metric_of (SQLiteStorage.annoy_index self)) n in
  out.1 = Ok tt
  /\ SQLiteStorage.annoy_index out.2 = SQLiteStorage.annoy_index self
  /\ SQLiteStorage.index_file out.2 = SQLiteStorage.index_file self
  /\ Sqlite.concepts (SQLiteStorage.conn out.2)
     = Some (default Sqlite.empty_table
               (Sqlite.concepts (SQLiteStorage.conn self))).
Proof.
  intros (Hb & Hf & Hfile) out. subst out. rewrite init_unfold. cbv zeta.
  unfold Restart.left_on_disk. simpl. rewrite Hfile. simpl.
  rewrite Hf, Nat.eqb_refl. simpl. split; [done|]. split; [|done].
  destruct (SQLiteStorage.annoy_index self) as [f0 m0 its b0].
  simpl in *. by subst.
Qed.

(** X5: when [add_interaction] returns, the index in memory is built, of
    the dimensionality of the storage, angular, and is what the index file
    holds. *)
Theorem add_interaction_persists_index lib user_input metadata id lib' :
  ConceptLibrary.add_interaction user_input metadata lib = (Ok id, lib') ->
  Restart.persisted (ConceptLibrary.storage lib')
  /\ SQLiteStorage.embedding_dim (ConceptLibrary.storage lib')
     = SQLiteStorage.embedding_dim (ConceptLibrary.storage lib)
  /\ Annoy.metric_of (SQLiteStorage.annoy_index (ConceptLibrary.storage lib'))
     = Annoy.Angular.
Proof.
  unfold ConceptLibrary.add_interaction, bind, gets, ret,
    ConceptLibrary.on_storage, SQLiteStorage.update_annoy_index.
  destruct (SQLiteStorage.store _ _) as [[id1|e] st1] eqn:Est; [|done]. simpl.
  pose proof (build_persists st1) as Hp.
  pose proof (build_outcome st1) as (_ & Hd & _ & Hm & _).
  destruct (SQLiteStorage._build_annoy_index st1) as [[[]|e] st2]; [|done].
  simpl in *. intros [= <- <-]. simpl.
  destruct (Hp eq_refl) as [Hp' _]. split; [done|]. split; [|done].
  rewrite Hd.
  by apply store_returns in Est as (vs & ms & t & _ & _ & _ & _ & _ & ->).
Qed.

(** ** The read path *)

Lemma fetch_state id self : (SQLiteStorage.fetch id self).2 = self.
Proof.
  unfold SQLiteStorage.fetch, bind, lift, ret.
  destruct (Sqlite.select_by_id id _) as [[[id' r]|]|]; [|done..].
  destruct (Json.loads (Sqlite.col_vector r)); [|done].
  by destruct (Json.loads (Sqlite.col_metadata r)).
Qed.

Lemma hydrate_state ids self : (SQLiteStorage.hydrate ids self).2 = self.
Proof.
  induction ids as [|id ids IH]; [done|]. simpl. unfold bind at 1.
  pose proof (fetch_state id self) as Hf.
  destruct (SQLiteStorage.fetch id self) as [[row|e] self1]; simpl in Hf;
    subst self1; [|done].
  unfold bind, ret.
  by destruct (SQLiteStorage.hydrate ids self) as [[rs|e] self2].
Qed.

Section ReadOnly.
Variable distance : Annoy.metric -> Annoy.vector -> Annoy.vector -> Q.

Lemma search_state q k self :
  (SQLiteStorage.search distance q k self).2 = self.
Proof.
  unfold SQLiteStorage.search, bind.
  destruct (Annoy.get_nns_by_vector distance q k _) as [ids|e]; [|done].
  apply hydrate_state.
Qed.

(** X6: a search changes nothing, whether it returns or raises: the
    library, and so the table, the index and the index file, are after it
    what they were before. *)
Theorem search_changes_nothing query top_k lib :
  (ConceptLibrary.search distance query top_k lib).2 = lib
  /\ forall q self, (SQLiteStorage.search distance q top_k self).2 = self.
Proof.
  split; [|intros; apply search_state].
  unfold ConceptLibrary.search, bind, gets, ConceptLibrary.on_storage.
  pose proof (search_state
                (ConceptLibrary.encode (ConceptLibrary.encoder lib) query)
                top_k (ConceptLibrary.storage lib)) as H.
  destruct (SQLiteStorage.search _ _ _ _) as [r st]. simpl in *. subst st.
  by destruct lib.
Qed.

Lemma get_nns_empty q k ix :
  length q = Annoy.f ix ->
  k = 0%nat \/ Annoy.built ix = false \/ Annoy.items ix = ∅ ->
  Annoy.get_nns_by_vector distance q k ix = Ok [].
Proof.
  intros Hlen Hcase. unfold Annoy.get_nns_by_vector.
  rewrite Hlen, Nat.eqb_refl. simpl.
  destruct (Annoy.built ix); [|done].
  destruct Hcase as [->|[?| ->]]; [done|done|].
  rewrite map_to_list_empty. by destruct k.
Qed.

(** X7: a search for a vector of the index's dimensionality returns the
    empty list, without a look at the database, when [top_k] is 0, when the
    index is not built, and when it holds no item. *)
Theorem search_without_items_is_empty q top_k self :
  length q = Annoy.f (SQLiteStorage.annoy_index self) ->
  top_k = 0%nat
  \/ Annoy.built (SQLiteStorage.annoy_index self) = false
  \/ Annoy.items (SQLiteStorage.annoy_index self) = ∅ ->
  SQLiteStorage.search distance q top_k self = (Ok [], self).
Proof.
  intros Hlen Hcase. unfold SQLiteStorage.search, bind.
  by rewrite (get_nns_empty _ _ _ Hlen Hcase).
Qed.

(** X8: on a closed connection a search still asks the index; it returns
    the empty list when the index names no neighbour, and raises
    [ProgrammingError] at the first neighbour otherwise. *)
Theorem search_on_closed_store q top_k self :
  Sqlite.is_open (SQLiteStorage.conn self) = false ->
  SQLiteStorage.search distance q top_k self
  = match Annoy.get_nns_by_vector distance q top_k
            (SQLiteStorage.annoy_index self) with
    | Ok [] => (Ok [], self)
    | Ok (_ :: _) => (Raise ProgrammingError, self)
    | Raise e => (Raise e, self)
    end.
Proof.
  intros Hcl. unfold SQLiteStorage.search, bind.
  destruct (Annoy.get_nns_by_vector distance q top_k _) as [[|id ids]|e];
    [done| |done].
  simpl. unfold bind, SQLiteStorage.fetch, bind, Sqlite.select_by_id.
  by rewrite Hcl.
Qed.

End ReadOnly.

(** ** Closing *)

Lemma store_outcome rec self :
  SQLiteStorage.store rec self =
    if negb (Json.serialisable (SQLiteStorage.vector rec)
             && Json.serialisable (SQLiteStorage.metadata rec))
    then (Raise TypeError, self)
    else if negb (Sqlite.is_open (SQLiteStorage.conn self))
    then (Raise ProgrammingError, self)
    else
      match Sqlite.concepts (SQLiteStorage.conn self) with
      | None => (Raise OperationalError, self)
      | Some t =>
          let id := Sqlite.next_rowid t in
          if id <=? Sqlite.max_rowid then
            (Ok id,
             SQLiteStorage.set_conn
               (Sqlite.Connection
                  (Some (Sqlite.Table
                           (<[id := Sqlite.Row
                                      (string_of_list_ascii
                                         (Json.print (SQLiteStorage.vector rec)))
                                      (string_of_list_ascii
                                         (Json.print (SQLiteStorage.metadata rec)))
                                      (SQLiteStorage.raw_text rec)]>
                              (Sqlite.rows t)) id))
                  true (Some id)) self)
          else (Raise OperationalError, self)
      end.
Proof.
  unfold SQLiteStorage.store, bind, lift, SQLiteStorage.on_conn,
    SQLiteStorage.set_conn, Sqlite.insert, Sqlite.commit, Json.dumps.
  destruct (Json.serialisable (SQLiteStorage.vector rec)); [|done].
  destruct (Json.serialisable (SQLiteStorage.metadata rec)); [|done].
  destruct self as [[tb op lr] dim ix path nt fl]; simpl.
  destruct op; simpl; [|done].
  destruct tb as [t|]; simpl; [|done].
  by destruct (Sqlite.next_rowid t <=? Sqlite.max_rowid).
Qed.

Lemma tolist_serialisable v : Json.serialisable (ConceptLibrary.tolist v) = true.
Proof.
  pose proof (tolist_compatible v) as H. unfold Json.compatible in H.
  by apply andb_true_iff in H as [H _].
Qed.

(** X9: after [close()] the library refuses every write and keeps what it
    had: [add_interaction] raises [ProgrammingError] ([TypeError] when the
    metadata cannot be serialised, which is found out first) and changes
    nothing; the rows, the index and the index file are those from before
    the close, and closing again changes nothing. *)
Theorem closed_library_refuses_writes lib user_input metadata :
  let lib' := Restart.close_storage lib in
  ConceptLibrary.add_interaction user_input metadata lib'
  = (Raise (if Json.serialisable metadata then ProgrammingError
            else TypeError), lib')
  /\ Restart.close_storage lib' = lib'
  /\ Sqlite.concepts (SQLiteStorage.conn (ConceptLibrary.storage lib'))
     = Sqlite.concepts (SQLiteStorage.conn (ConceptLibrary.storage lib))
  /\ SQLiteStorage.annoy_index (ConceptLibrary.storage lib')
     = SQLiteStorage.annoy_index (ConceptLibrary.storage lib)
  /\ SQLiteStorage.index_file (ConceptLibrary.storage lib')
     = SQLiteStorage.index_file (ConceptLibrary.storage lib).
Proof.
  intros lib'. split; [|done].
  unfold ConceptLibrary.add_interaction, bind, gets, ConceptLibrary.on_storage.
  rewrite store_outcome.
  cbn [SQLiteStorage.vector SQLiteStorage.metadata].
  rewrite tolist_serialisable.
  destruct (Json.serialisable metadata); simpl; by destruct lib.
Qed.

(** ** The write path *)

Lemma add_interaction_unfold user_input metadata lib :
  ConceptLibrary.add_interaction user_input metadata lib =
    match SQLiteStorage.store
            (SQLiteStorage.Record_
               (ConceptLibrary.tolist
                  (ConceptLibrary.encode (ConceptLibrary.encoder lib) user_input))
               metadata user_input)
            (ConceptLibrary.storage lib) with
    | (Ok id, st1) =>
        match SQLiteStorage._build_annoy_index st1 with
        | (Ok _, st2) => (Ok id, ConceptLibrary.set_storage st2 lib)
        | (Raise e, st2) => (Raise e, ConceptLibrary.set_storage st2 lib)
        end
    | (Raise e, st1) => (Raise e, ConceptLibrary.set_storage st1 lib)
    end.
Proof.
  unfold ConceptLibrary.add_interaction, bind, gets, ret,
    ConceptLibrary.on_storage, SQLiteStorage.update_annoy_index.
  destruct (SQLiteStorage.store _ _) as [[id|e] st1]; [|done]. simpl.
  by destruct (SQLiteStorage._build_annoy_index st1) as [[[]|e] st2].
Qed.

Lemma np_array_tolist v : SQLiteStorage.np_array (ConceptLibrary.tolist v) = Ok v.
Proof.
  unfold ConceptLibrary.tolist, SQLiteStorage.np_array.
  induction v as [|[m e] v IH]; [done|]. simpl in *. by rewrite IH.
Qed.

(** The text [store] writes for a vector is read back by the rebuild as
    that vector. *)
Lemma row_vector_dumps v s :
  Json.dumps (ConceptLibrary.tolist v) = Ok s -> Rows.row_vector s = Ok v.
Proof.
  intros Hs. destruct (loads_dumps _ (tolist_compatible v)) as (s' & Hs' & Hl).
  rewrite Hs in Hs'. injection Hs' as <-.
  unfold Rows.row_vector. rewrite Hl. apply np_array_tolist.
Qed.

(** The loop of the rebuild over rows that all hold vectors, one of them of
    another length than the index: it raises [IndexError]. *)
Lemma for_each_add_row_IndexError l : forall self,
  Annoy.built (SQLiteStorage.annoy_index self) = false ->
  Forall (fun row : Z * string =>
            0 ≤ row.1 /\ exists v, Rows.row_vector row.2 = Ok v) l ->
  Exists (fun row : Z * string =>
            exists v, Rows.row_vector row.2 = Ok v
                      /\ length v ≠ Annoy.f (SQLiteStorage.annoy_index self)) l ->
  (for_each SQLiteStorage.add_row l self).1 = Raise IndexError.
Proof.
  induction l as [|[id s] l IH]; intros self Hb Hall Hex.
  - by apply Exists_nil in Hex.
  - apply Forall_cons in Hall as [(Hid & v & Hv) Hall]. simpl in Hid, Hv.
    simpl. unfold bind. rewrite add_row_unfold, Hv.
    unfold SQLiteStorage.on_index, Annoy.add_item. rewrite Hb.
    destruct (id <? 0) eqn:Eneg; [lia|].
    destruct (length v =? Annoy.f (SQLiteStorage.annoy_index self))%nat
      eqn:Elen; simpl; [|done].
    apply Nat.eqb_eq in Elen. apply IH; [done|done|].
    apply Exists_cons in Hex as [(v' & Hv' & Hne)|Hex]; [|done].
    simpl in Hv'. rewrite Hv in Hv'. injection Hv' as <-. done.
Qed.

Lemma largest_rowid_le (m : gmap Z Sqlite.row) b :
  0 ≤ b -> (forall k r, m !! k = Some r -> k ≤ b) ->
  Sqlite.largest_rowid m ≤ b.
Proof.
  intros Hb. unfold Sqlite.largest_rowid.
  apply (map_fold_weak_ind
           (fun acc (m : gmap Z Sqlite.row) =>
              (forall k r, m !! k = Some r -> k ≤ b) -> acc ≤ b)).
  - done.
  - intros i x m' acc Hi IH Hall.
    assert (i ≤ b) by (apply (Hall i x); by rewrite lookup_insert_eq).
    assert (acc ≤ b); [|lia].
    apply IH. intros k r Hk. apply (Hall k r).
    rewrite lookup_insert_ne; [done|]. intros ->. congruence.
Qed.

Lemma healthy_next_rowid self t :
  Restart.healthy self ->
  Sqlite.concepts (SQLiteStorage.conn self) = Some t ->
  Sqlite.next_rowid t = Sqlite.seq t + 1.
Proof.
  intros (_ & t' & Ht' & Hseq & Hrows) Ht. rewrite Ht in Ht'.
  injection Ht' as <-. unfold Sqlite.next_rowid.
  assert (Sqlite.largest_rowid (Sqlite.rows t) ≤ Sqlite.seq t); [|lia].
  apply largest_rowid_le; [done|]. intros k r Hk.
  destruct (Hrows k r Hk) as [? _]. lia.
Qed.

(** X10: when the store step of [add_interaction] returns and the rebuild
    after it raises, the call raises that exception and no id is returned,
    but the write has happened: the row is in the table under the id it
    was given, the index is left unbuilt, and the index file is the one
    from before the call. *)
Theorem add_interaction_rebuild_fails lib user_input metadata id st1 e :
  SQLiteStorage.store
    (SQLiteStorage.Record_
       (ConceptLibrary.tolist
          (ConceptLibrary.encode (ConceptLibrary.encoder lib) user_input))
       metadata user_input)
    (ConceptLibrary.storage lib) = (Ok id, st1) ->
  (SQLiteStorage._build_annoy_index st1).1 = Raise e ->
  let lib' := (ConceptLibrary.add_interaction user_input metadata lib).2 in
  (ConceptLibrary.add_interaction user_input metadata lib).1 = Raise e
  /\ (exists t', Sqlite.concepts (SQLiteStorage.conn (ConceptLibrary.storage lib'))
                = Some t'
                /\ exists vs ms, Sqlite.rows t' !! id
                                 = Some (Sqlite.Row vs ms user_input))
  /\ Annoy.built (SQLiteStorage.annoy_index (ConceptLibrary.storage lib')) = false
  /\ SQLiteStorage.index_file (ConceptLibrary.storage lib')
     = SQLiteStorage.index_file (ConceptLibrary.storage lib).
Proof.
  intros Hst Hb lib'. subst lib'. rewrite add_interaction_unfold, Hst.
  pose proof (build_outcome st1) as (Hc & _ & _ & _ & _ & _ & Hres).
  cbv zeta in *. rewrite Hb in Hres. destruct Hres as [Hunb Hfile].
  destruct (SQLiteStorage._build_annoy_index st1) as [[[]|e'] st2];
    simpl in *; [done|].
  injection Hb as ->. split; [done|].
  apply store_returns in Hst as (vs & ms & t & _ & _ & _ & _ & -> & ->).
  simpl in *. split; [|done].
  eexists. rewrite Hc. split; [reflexivity|]. simpl.
  exists vs, ms. apply lookup_insert_eq.
Qed.

(** The outcome of a rebuild, read from the rows of the table. *)
Lemma build_ok_iff self t :
  Sqlite.is_open (SQLiteStorage.conn self) = true ->
  Sqlite.concepts (SQLiteStorage.conn self) = Some t ->
  (SQLiteStorage._build_annoy_index self).1 = Ok tt <->
  forall id r, Sqlite.rows t !! id = Some r ->
               Rows.addable (SQLiteStorage.embedding_dim self)
                 (id, Sqlite.col_vector r).
Proof.
  intros Hop Ht.
  pose proof (build_outcome self) as (_ & _ & _ & _ & _ & Hok & _).
  cbv zeta in Hok.
  destruct (select_id_vector_rows _ t Hop Ht) as (l & Hl & _ & Hel & _).
  assert (Hiff : (SQLiteStorage._build_annoy_index self).1 = Ok tt <->
                 is_ok (SQLiteStorage._build_annoy_index self).1 = true).
  { by destruct (SQLiteStorage._build_annoy_index self).1 as [[]|]. }
  rewrite Hiff, Hok. split.
  - intros (l' & Hl' & Hadd) id r Hr. rewrite Hl in Hl'. injection Hl' as <-.
    rewrite Forall_forall in Hadd. apply Hadd, Hel. eauto.
  - intros Hall. exists l. split; [done|]. apply Forall_forall.
    intros [id s] (r & Hr & ->)%Hel. by apply Hall.
Qed.

Lemma build_on_healthy self :
  Restart.healthy self ->
  (SQLiteStorage._build_annoy_index self).1 = Ok tt
  /\ Restart.healthy (SQLiteStorage._build_annoy_index self).2.
Proof.
  intros (Hop & t & Ht & Hseq & Hrows).
  pose proof (build_outcome self) as (Hc & Hd & _). cbv zeta in *.
  split.
  - apply (build_ok_iff self t Hop Ht). intros id r Hr.
    by destruct (Hrows id r Hr) as (_ & ? & _).
  - split; [by rewrite Hc|]. exists t. rewrite Hc, Hd. done.
Qed.

Lemma Ok_inj {A} (a b : A) : Ok a = Ok b -> a = b.
Proof. by intros [= ->]. Qed.

Lemma store_on_healthy self v metadata text t :
  Restart.healthy self ->
  Sqlite.concepts (SQLiteStorage.conn self) = Some t ->
  Sqlite.seq t < Sqlite.max_rowid ->
  Json.compatible metadata = true ->
  length v = SQLiteStorage.embedding_dim self ->
  exists st1 vs ms,
    SQLiteStorage.store
      (SQLiteStorage.Record_ (ConceptLibrary.tolist v) metadata text) self
    = (Ok (Sqlite.seq t + 1), st1)
    /\ Restart.healthy st1
    /\ Sqlite.concepts (SQLiteStorage.conn st1)
       = Some (Sqlite.Table
                 (<[Sqlite.seq t + 1 := Sqlite.Row vs ms text]> (Sqlite.rows t))
                 (Sqlite.seq t + 1))
    /\ Json.loads vs = Ok (ConceptLibrary.tolist v)
    /\ Json.loads ms = Ok metadata
    /\ SQLiteStorage.embedding_dim st1 = SQLiteStorage.embedding_dim self
    /\ SQLiteStorage.annoy_index st1 = SQLiteStorage.annoy_index self
    /\ SQLiteStorage.index_file st1 = SQLiteStorage.index_file self.
Proof.
  intros Hh Ht Hmax Hmd Hlen.
  pose proof (healthy_next_rowid self t Hh Ht) as Hnext.
  destruct Hh as (Hop & t' & Ht' & Hseq & Hrows).
  rewrite Ht in Ht'. injection Ht' as <-.
  destruct (loads_dumps _ (tolist_compatible v)) as (vs & Hvs & Hlv).
  destruct (loads_dumps _ Hmd) as (ms & Hms & Hlm).
  assert (Hsm : Json.serialisable metadata = true).
  { unfold Json.compatible in Hmd. by apply andb_true_iff in Hmd as [? _]. }
  unfold Json.dumps in Hvs, Hms. rewrite tolist_serialisable in Hvs.
  rewrite Hsm in Hms. apply Ok_inj in Hvs, Hms.
  eexists _, vs, ms. rewrite store_outcome.
  cbn [SQLiteStorage.vector SQLiteStorage.metadata SQLiteStorage.raw_text].
  rewrite tolist_serialisable, Hsm, Hop, Ht. cbv zeta. rewrite Hnext.
  cbn [andb negb]. destruct (Z.leb_spec (Sqlite.seq t + 1) Sqlite.max_rowid);
    [|lia].
  rewrite Hvs, Hms. split; [reflexivity|].
  split; [|by destruct self].
  split; [done|]. eexists. split; [reflexivity|]. simpl. split; [lia|].
  intros id r Hr. destruct (decide (id = Sqlite.seq t + 1)) as [->|Hne].
  - rewrite lookup_insert_eq in Hr. injection Hr as <-. simpl.
    split; [lia|]. split.
    + split; simpl; [lia|]. exists v. split; [|done].
      apply row_vector_dumps. unfold Json.dumps.
      by rewrite tolist_serialisable, Hvs.
    + split; simpl; [by rewrite Hlv|by rewrite Hlm].
  - rewrite lookup_insert_ne in Hr by done.
    destruct (Hrows id r Hr) as (Hid & Hadd & Hdec). split; [lia|].
    split; [|done]. by destruct self.
Qed.

(** One write on a healthy store: it returns the next id and leaves the store
    healthy, with the index rebuilt over one more row and persisted. *)
Lemma add_interaction_healthy lib user_input metadata t :
  Restart.healthy (ConceptLibrary.storage lib) ->
  Sqlite.concepts (SQLiteStorage.conn (ConceptLibrary.storage lib)) = Some t ->
  Sqlite.seq t < Sqlite.max_rowid ->
  Json.compatible metadata = true ->
  length (ConceptLibrary.encode (ConceptLibrary.encoder lib) user_input)
  = SQLiteStorage.embedding_dim (ConceptLibrary.storage lib) ->
  let out := ConceptLibrary.add_interaction user_input metadata lib in
  out.1 = Ok (Sqlite.seq t + 1)
  /\ Restart.healthy (ConceptLibrary.storage out.2)
  /\ Restart.in_sync (ConceptLibrary.storage out.2)
  /\ Restart.persisted (ConceptLibrary.storage out.2)
  /\ ConceptLibrary.encoder out.2 = ConceptLibrary.encoder lib
  /\ SQLiteStorage.embedding_dim (ConceptLibrary.storage out.2)
     = SQLiteStorage.embedding_dim (ConceptLibrary.storage lib)
  /\ exists vs ms,
      Sqlite.concepts (SQLiteStorage.conn (ConceptLibrary.storage out.2))
      = Some (Sqlite.Table
                (<[Sqlite.seq t + 1 := Sqlite.Row vs ms user_input]>
                   (Sqlite.rows t))
                (Sqlite.seq t + 1))
      /\ Sqlite.rows t !! (Sqlite.seq t + 1) = None
      /\ Json.loads vs
         = Ok (ConceptLibrary.tolist
                 (ConceptLibrary.encode (ConceptLibrary.encoder lib) user_input))
      /\ Json.loads ms = Ok metadata.
Proof.
  intros Hh Ht Hmax Hmd Hlen out. subst out.
  destruct (store_on_healthy _ _ metadata user_input t Hh Ht Hmax Hmd Hlen)
    as (st1 & vs & ms & Hst & Hh1 & Ht1 & Hlv & Hlm & Hd1 & _).
  assert (Hfresh : Sqlite.rows t !! (Sqlite.seq t + 1) = None).
  { rewrite <- (healthy_next_rowid _ t Hh Ht). apply next_rowid_fresh. }
  rewrite add_interaction_unfold, Hst.
  destruct (build_on_healthy st1 Hh1) as [Hok Hh2].
  destruct (build_persists st1 Hok) as [Hp Hs].
  pose proof (build_outcome st1) as (Hc & Hd & _). cbv zeta in Hc, Hd.
  destruct (SQLiteStorage._build_annoy_index st1) as [[[]|e] st2];
    simpl in *; [|done].
  split; [done|]. split; [done|]. split; [done|]. split; [done|].
  split; [done|]. split; [by rewrite Hd|].
  exists vs, ms. by rewrite Hc, Ht1.
Qed.

(** ** What a search returns *)

(** Every record [hydrate] returns is the row of the table under one of the
    ids, decoded. *)
Lemma hydrate_hits ids : forall self results self',
  SQLiteStorage.hydrate ids self = (Ok results, self') ->
  forall h, h ∈ results ->
    SQLiteStorage.hit_id h ∈ ids
    /\ exists t r,
        Sqlite.concepts (SQLiteStorage.conn self) = Some t
        /\ Sqlite.rows t !! SQLiteStorage.hit_id h = Some r
        /\ Json.loads (Sqlite.col_vector r) = Ok (SQLiteStorage.hit_vector h)
        /\ Json.loads (Sqlite.col_metadata r) = Ok (SQLiteStorage.hit_metadata h)
        /\ SQLiteStorage.hit_raw_text h = Sqlite.col_raw_text r.
Proof.
  induction ids as [|id ids IH]; intros self results self'; simpl.
  - intros [= <- <-] h []%elem_of_nil.
  - unfold bind at 1.
    pose proof (fetch_state id self) as Hfs.
    destruct (SQLiteStorage.fetch id self) as [[row|e] self1] eqn:Ef; [|done].
    simpl in Hfs. subst self1. unfold bind, ret.
    destruct (SQLiteStorage.hydrate ids self) as [[rs|e] self2] eqn:Eh; [|done].
    intros [= <- <-] h Hin. specialize (IH _ _ _ Eh).
    assert (Htail : h ∈ rs ->
              SQLiteStorage.hit_id h ∈ id :: ids
              /\ exists t r,
                  Sqlite.concepts (SQLiteStorage.conn self) = Some t
                  /\ Sqlite.rows t !! SQLiteStorage.hit_id h = Some r
                  /\ Json.loads (Sqlite.col_vector r)
                     = Ok (SQLiteStorage.hit_vector h)
                  /\ Json.loads (Sqlite.col_metadata r)
                     = Ok (SQLiteStorage.hit_metadata h)
                  /\ SQLiteStorage.hit_raw_text h = Sqlite.col_raw_text r).
    { intros Hrs. destruct (IH h Hrs) as [Hi Hrow]. split; [by right|done]. }
    destruct row as [h0|]; [|by apply Htail].
    apply elem_of_cons in Hin as [->|Hin]; [|by apply Htail].
    revert Ef. unfold SQLiteStorage.fetch, bind, lift, ret, Sqlite.select_by_id.
    destruct (Sqlite.is_open _); [|done].
    destruct (Sqlite.concepts _) as [t|]; [|done].
    destruct (Sqlite.rows t !! id) as [r|] eqn:Er; simpl; [|done].
    destruct (Json.loads (Sqlite.col_vector r)) as [v|] eqn:Ev; [|done].
    destruct (Json.loads (Sqlite.col_metadata r)) as [md|] eqn:Em; [|done].
    intros [= <-]. simpl. split; [by left|]. by exists t, r.
Qed.

(** A row that decodes and whose id is among the ids is among the records
    [hydrate] returns. *)
Lemma hydrate_has_row ids : forall self results self' t id r v md,
  Sqlite.is_open (SQLiteStorage.conn self) = true ->
  Sqlite.concepts (SQLiteStorage.conn self) = Some t ->
  SQLiteStorage.hydrate ids self = (Ok results, self') ->
  id ∈ ids ->
  Sqlite.rows t !! id = Some r ->
  Json.loads (Sqlite.col_vector r) = Ok v ->
  Json.loads (Sqlite.col_metadata r) = Ok md ->
  SQLiteStorage.Hit id v md (Sqlite.col_raw_text r) ∈ results.
Proof.
  induction ids as [|p ids IH];
    intros self results self' t id r v md Hop Ht Hh Hin Hr Hv Hm.
  - by apply elem_of_nil in Hin.
  - simpl in Hh. unfold bind at 1 in Hh.
    pose proof (fetch_state p self) as Hfs.
    destruct (SQLiteStorage.fetch p self) as [[row|e] self1] eqn:Ef; [|done].
    simpl in Hfs. subst self1. unfold bind, ret in Hh.
    destruct (SQLiteStorage.hydrate ids self) as [[rs|e] self2] eqn:Eh; [|done].
    injection Hh as <- _.
    apply elem_of_cons in Hin as [<-|Hin].
    + rewrite (fetch_present self t id r Hop Ht Hr), Hv, Hm in Ef.
      injection Ef as <-. by left.
    + assert (SQLiteStorage.Hit id v md (Sqlite.col_raw_text r) ∈ rs)
        by (by eapply IH).
      destruct row; [by right|done].
Qed.

Section SearchResults.
Variable distance : Annoy.metric -> Annoy.vector -> Annoy.vector -> Q.

(** X11: every record a search returns is a row of the table, decoded: its
    id is the row's id, its vector and metadata are what [json.loads] makes
    of the row's two columns, and its text is the row's text. *)
Theorem search_returns_decoded_rows q top_k self results self' :
  SQLiteStorage.search distance q top_k self = (Ok results, self') ->
  forall h, h ∈ results ->
    exists t r,
      Sqlite.concepts (SQLiteStorage.conn self) = Some t
      /\ Sqlite.rows t !! SQLiteStorage.hit_id h = Some r
      /\ Json.loads (Sqlite.col_vector r) = Ok (SQLiteStorage.hit_vector h)
      /\ Json.loads (Sqlite.col_metadata r) = Ok (SQLiteStorage.hit_metadata h)
      /\ SQLiteStorage.hit_raw_text h = Sqlite.col_raw_text r.
Proof.
  unfold SQLiteStorage.search, bind.
  destruct (Annoy.get_nns_by_vector distance q top_k _) as [ids|e]; [|done].
  intros Hh h Hin. by destruct (hydrate_hits ids _ _ _ Hh h Hin) as [_ ?].
Qed.

(** A built index asked for at least as many ids as it holds returns all of
    them. *)
Lemma get_nns_all q k ix ids :
  Annoy.get_nns_by_vector distance q k ix = Ok ids ->
  Annoy.built ix = true ->
  (size (Annoy.items ix) <= k)%nat ->
  forall id, id ∈ dom (Annoy.items ix) -> id ∈ ids.
Proof.
  unfold Annoy.get_nns_by_vector.
  destruct (negb _); [done|]. intros Hq Hb Hk id [v Hv]%elem_of_dom.
  rewrite Hb in Hq. injection Hq as <-.
  set (sorted := merge_sort _ _).
  assert (Hperm : sorted ≡ₚ map_to_list (Annoy.items ix))
    by apply merge_sort_Permutation.
  rewrite take_ge.
  - apply list_elem_of_fmap. exists (id, v). split; [done|].
    rewrite Hperm. by apply elem_of_map_to_list.
  - rewrite length_fmap, Hperm, length_map_to_list. done.
Qed.

(** A search on a healthy store whose index is built over the rows of the
    table returns, with as many records as asked for or as there are. *)
Lemma storage_search_healthy q top_k self t :
  Restart.healthy self ->
  Sqlite.concepts (SQLiteStorage.conn self) = Some t ->
  dom (Annoy.items (SQLiteStorage.annoy_index self)) = dom (Sqlite.rows t) ->
  Annoy.built (SQLiteStorage.annoy_index self) = true ->
  length q = Annoy.f (SQLiteStorage.annoy_index self) ->
  exists results,
    SQLiteStorage.search distance q top_k self = (Ok results, self)
    /\ length results = Nat.min top_k (size (Sqlite.rows t))
    /\ NoDup (SQLiteStorage.hit_id <$> results)
    /\ StronglySorted
         (fun a b =>
            (Annoy.distance_to distance (SQLiteStorage.annoy_index self) q a
             <= Annoy.distance_to distance (SQLiteStorage.annoy_index self) q b)%Q)
         (SQLiteStorage.hit_id <$> results).
Proof.
  intros (Hop & t' & Ht' & _ & Hrows) Ht Hdom Hb Hlen.
  rewrite Ht in Ht'. injection Ht' as <-.
  destruct (get_nns_by_vector_spec distance q top_k _ Hlen)
    as (ids & Hq & _ & Hnd & Hin & Hss & Hsize).
  destruct (hydrate_present self t ids Hop Ht) as (results & Hh & Hids).
  { apply Forall_forall. intros id Hid. apply Hin in Hid.
    rewrite Hdom in Hid. apply elem_of_dom in Hid as [r Hr].
    exists r. split; [done|]. by destruct (Hrows id r Hr) as (_ & _ & ?). }
  exists results. unfold SQLiteStorage.search, bind. rewrite Hq.
  split; [done|].
  assert (Hfm : SQLiteStorage.hit_id <$> results = ids) by exact Hids.
  rewrite Hfm. split; [|done].
  rewrite <- (length_fmap SQLiteStorage.hit_id), Hfm, (Hsize Hb).
  by rewrite <- (size_dom (Annoy.items _)), Hdom, size_dom.
Qed.

(** X12: a search that follows an [add_interaction] sees its record: when
    the search asks for at least as many neighbours as the index holds and
    returns, the record with the new id, the encoder's vector, the metadata
    and the text is among the results. *)
Theorem search_sees_new_record lib user_input metadata id lib' query top_k
    results lib'' :
  Json.compatible metadata = true ->
  ConceptLibrary.add_interaction user_input metadata lib = (Ok id, lib') ->
  (size (Annoy.items (SQLiteStorage.annoy_index (ConceptLibrary.storage lib')))
   <= top_k)%nat ->
  ConceptLibrary.search distance query top_k lib' = (Ok results, lib'') ->
  SQLiteStorage.Hit id
    (ConceptLibrary.tolist
       (ConceptLibrary.encode (ConceptLibrary.encoder lib) user_input))
    metadata user_input ∈ results.
Proof.
  intros Hmd Hadd Hk.
  rewrite add_interaction_unfold in Hadd.
  destruct (SQLiteStorage.store _ _) as [[id1|e] st1] eqn:Est; [|done].
  pose proof (build_outcome st1) as (Hc & _ & _ & _ & _ & _ & Hres).
  cbv zeta in *.
  destruct (SQLiteStorage._build_annoy_index st1) as [[[]|e] st2]; [|done].
  simpl in *. injection Hadd as <- <-. simpl in *.
  destruct Hres as (Hb & _ & t' & Ht' & Hdom).
  apply store_returns in Est as (vs & ms & t & Hvs & Hms & Hop & _ & -> & ->).
  simpl in Hvs, Hms, Ht'. injection Ht' as <-. simpl in Hdom.
  unfold ConceptLibrary.search, bind, gets, ConceptLibrary.on_storage,
    SQLiteStorage.search, bind. simpl.
  destruct (Annoy.get_nns_by_vector distance _ top_k _) as [ids|e] eqn:Eq;
    [|done].
  pose proof (get_nns_all _ _ _ _ Eq Hb Hk (Sqlite.next_rowid t)) as Hin.
  destruct (SQLiteStorage.hydrate ids st2) as [[rs|e] st3] eqn:Eh; [|done].
  simpl. intros [= <- _].
  destruct (loads_dumps _ (tolist_compatible
              (ConceptLibrary.encode (ConceptLibrary.encoder lib)
                 user_input))) as (vs' & Hvs' & Hlv).
  rewrite Hvs in Hvs'. injection Hvs' as <-.
  destruct (loads_dumps _ Hmd) as (ms' & Hms' & Hlm).
  rewrite Hms in Hms'. injection Hms' as <-.
  apply (hydrate_has_row ids st2 rs st3
           (Sqlite.Table
              (<[Sqlite.next_rowid t := Sqlite.Row vs ms user_input]>
                 (Sqlite.rows t)) (Sqlite.next_rowid t))
           (Sqlite.next_rowid t) (Sqlite.Row vs ms user_input)); try done.
  - by rewrite Hc.
  - by rewrite Hc.
  - apply Hin. rewrite Hdom. apply elem_of_dom. rewrite lookup_insert_eq. eauto.
  - simpl. apply lookup_insert_eq.
Qed.

End SearchResults.

(** ** The order of the results *)

Section NearestFirst.
Variable distance : Annoy.metric -> Annoy.vector -> Annoy.vector -> Q.

(** C7, as the program has it.  A query vector of another length than the
    index's dimensionality is refused: [search] raises [IndexError] and
    changes nothing.  A query vector of the index's dimensionality is
    always answered: with at most [k] ids, all distinct and all held by the
    index, each no farther from the query under the index's metric than
    the ones after it; a built index answers with [k] ids when it holds
    that many and otherwise with all it holds, down to none.  On a healthy
    store whose index holds the ids of the table, [search] then returns,
    with exactly one record per id of the answer and in its order. *)
Theorem search_returns_nearest_first q k self :
  let ix := SQLiteStorage.annoy_index self in
  (length q ≠ Annoy.f ix ->
   SQLiteStorage.search distance q k self = (Raise IndexError, self))
  /\ (length q = Annoy.f ix ->
      exists ids,
        Annoy.get_nns_by_vector distance q k ix = Ok ids
        /\ (length ids <= k)%nat
        /\ NoDup ids
        /\ (forall id, id ∈ ids -> id ∈ dom (Annoy.items ix))
        /\ StronglySorted
             (fun a b => (Annoy.distance_to distance ix q a
                          <= Annoy.distance_to distance ix q b)%Q) ids
        /\ (Annoy.built ix = true ->
            length ids = Nat.min k (size (Annoy.items ix)))
        /\ (Restart.healthy self ->
            Restart.in_sync self ->
            exists results,
              SQLiteStorage.search distance q k self = (Ok results, self)
              /\ SQLiteStorage.hit_id <$> results = ids)).
Proof.
  intros ix. split.
  - intros Hne. unfold SQLiteStorage.search, bind, Annoy.get_nns_by_vector.
    fold ix. apply Nat.eqb_neq in Hne. by rewrite Hne.
  - intros Hlen.
    destruct (get_nns_by_vector_spec distance q k ix Hlen)
      as (ids & Hq & Hk & Hnd & Hin & Hss & Hsize).
    exists ids. split; [done|]. split; [done|]. split; [done|].
    split; [done|]. split; [done|].
    split; [done|].
    intros (Hop & t' & Ht' & _ & Hrows) (t & Ht & Hdom).
    rewrite Ht in Ht'. injection Ht' as <-.
    destruct (hydrate_present self t ids Hop Ht) as (results & Hh & Hids).
    { apply Forall_forall. intros id Hid. apply Hin in Hid.
      fold ix in Hdom. rewrite Hdom in Hid. apply elem_of_dom in Hid as [r Hr].
      exists r. split; [done|]. by destruct (Hrows id r Hr) as (_ & _ & ?). }
    exists results. split; [|exact Hids].
    unfold SQLiteStorage.search, bind. fold ix. by rewrite Hq.
Qed.

End NearestFirst.

(** C7, as stated, fails: a library whose encoder has three dimensions,
    started on the two dimensional storage of [Sample.lib2], gets
    [IndexError] for its query instead of a list of records; the index does
    not answer the query vector. *)
Lemma search_refuses_other_length :
  ConceptLibrary.__init__ Sample.fresh_disk Sample.enc3 (Some Sample.storage2)
  = Ok Scenario.lib_mixed
  /\ ConceptLibrary.search Sample.distance "plum" 5 Scenario.lib_mixed
     = (Raise IndexError, Scenario.lib_mixed)
  /\ Annoy.get_nns_by_vector Sample.distance
       (ConceptLibrary.encode Sample.enc3 "plum") 5
       (SQLiteStorage.annoy_index Sample.storage2) = Raise IndexError
  /\ ~ Answers.answers_every_query Sample.distance
         (SQLiteStorage.annoy_index Sample.storage2).
Proof.
  assert (H3 : Annoy.get_nns_by_vector Sample.distance
                 (ConceptLibrary.encode Sample.enc3 "plum") 5
                 (SQLiteStorage.annoy_index Sample.storage2) = Raise IndexError)
    by (vm_compute; reflexivity).
  split; [reflexivity|]. split; [vm_compute; reflexivity|].
  split; [exact H3|].
  intros Hall.
  destruct (Hall (ConceptLibrary.encode Sample.enc3 "plum") 5%nat)
    as (ids & Hq & _).
  rewrite H3 in Hq. discriminate.
Qed.

(** ** Vectors of another length *)

(** X13: when [add_interaction] returns, the index holds under the new id
    the vector the encoder gave for the text, and that vector has the
    dimensionality of the storage. *)
Theorem add_interaction_indexes_vector lib user_input metadata id lib' :
  ConceptLibrary.add_interaction user_input metadata lib = (Ok id, lib') ->
  Annoy.items (SQLiteStorage.annoy_index (ConceptLibrary.storage lib')) !! id
  = Some (ConceptLibrary.encode (ConceptLibrary.encoder lib) user_input)
  /\ length (ConceptLibrary.encode (ConceptLibrary.encoder lib) user_input)
     = SQLiteStorage.embedding_dim (ConceptLibrary.storage lib).
Proof.
  intros Hadd. rewrite add_interaction_unfold in Hadd.
  destruct (SQLiteStorage.store _ _) as [[id1|e] st1] eqn:Est; [|done].
  apply store_returns in Est as (vs & ms & t & Hvs & _ & Hop & _ & -> & ->).
  simpl in Hvs. apply row_vector_dumps in Hvs.
  set (st1 := SQLiteStorage.set_conn _ _) in *.
  assert (Hok : (SQLiteStorage._build_annoy_index st1).1 = Ok tt)
    by (by destruct (SQLiteStorage._build_annoy_index st1) as [[[]|e] st2]).
  pose proof (proj1 (build_ok_iff st1 _ eq_refl eq_refl) Hok
                (Sqlite.next_rowid t) _ (lookup_insert_eq _ _ _))
    as (_ & v & Hv & Hlen).
  simpl in Hv. rewrite Hvs in Hv. injection Hv as <-.
  pose proof (build_outcome st1) as (_ & _ & _ & _ & Hsub & _ & Hres).
  cbv zeta in *. clear Hok.
  destruct (SQLiteStorage._build_annoy_index st1) as [[[]|e] st2]; [|done].
  simpl in Hsub, Hres. injection Hadd as <- <-.
  destruct Hres as (_ & _ & t' & Ht' & Hdom).
  simpl in Ht'. injection Ht' as <-. simpl in Hdom.
  split; [|by destruct (ConceptLibrary.storage lib)].
  cbn [ConceptLibrary.storage ConceptLibrary.set_storage].
  assert (Hin : Sqlite.next_rowid t
                ∈ dom (Annoy.items (SQLiteStorage.annoy_index st2))).
  { rewrite Hdom. apply elem_of_dom. rewrite lookup_insert_eq. eauto. }
  apply elem_of_dom in Hin as [v' Hv']. rewrite Hv'. f_equal.
  destruct (Hsub _ _ Hv') as (t' & r & [= <-] & Hr & Hrv).
  simpl in Hr. rewrite lookup_insert_eq in Hr. injection Hr as <-.
  simpl in Hrv. congruence.
Qed.

(** A rebuild over rows that all hold vectors, one of them of another length
    than the instance, raises [IndexError]. *)
Lemma build_raises_IndexError self t :
  Sqlite.is_open (SQLiteStorage.conn self) = true ->
  Sqlite.concepts (SQLiteStorage.conn self) = Some t ->
  (forall id r, Sqlite.rows t !! id = Some r ->
     0 ≤ id /\ exists v, Rows.row_vector (Sqlite.col_vector r) = Ok v) ->
  (exists id r v, Sqlite.rows t !! id = Some r
                  /\ Rows.row_vector (Sqlite.col_vector r) = Ok v
                  /\ length v ≠ SQLiteStorage.embedding_dim self) ->
  (SQLiteStorage._build_annoy_index self).1 = Raise IndexError.
Proof.
  intros Hop Ht Hall (id & r & v & Hr & Hv & Hne).
  destruct (select_id_vector_rows _ t Hop Ht) as (l & Hl & _ & Hel & _).
  rewrite build_unfold. cbv zeta. rewrite Hl.
  set (self0 := SQLiteStorage.set_annoy_index _ self).
  assert (H : (for_each SQLiteStorage.add_row l self0).1 = Raise IndexError).
  { apply for_each_add_row_IndexError; [done| |].
    - apply Forall_forall. intros [id' s] (r' & Hr' & ->)%Hel. simpl.
      by apply (Hall id' r').
    - apply Exists_exists. exists (id, Sqlite.col_vector r). split.
      + apply Hel. eauto.
      + exists v. split; [done|]. by destruct self. }
  destruct (for_each SQLiteStorage.add_row l self0) as [[[]|e] self1];
    simpl in H; [done|]. by injection H as ->.
Qed.

(** X14: on a healthy store, a text whose vector has another length than
    the storage's dimensionality makes [add_interaction] raise
    [IndexError], after the row has been written under the next id; the
    index is left unbuilt. *)
Theorem add_interaction_wrong_length lib user_input metadata t :
  Restart.healthy (ConceptLibrary.storage lib) ->
  Sqlite.concepts (SQLiteStorage.conn (ConceptLibrary.storage lib)) = Some t ->
  Sqlite.seq t < Sqlite.max_rowid ->
  Json.serialisable metadata = true ->
  length (ConceptLibrary.encode (ConceptLibrary.encoder lib) user_input)
  ≠ SQLiteStorage.embedding_dim (ConceptLibrary.storage lib) ->
  let out := ConceptLibrary.add_interaction user_input metadata lib in
  out.1 = Raise IndexError
  /\ (exists t' vs ms,
        Sqlite.concepts (SQLiteStorage.conn (ConceptLibrary.storage out.2))
        = Some t'
        /\ Sqlite.rows t' !! (Sqlite.seq t + 1)
           = Some (Sqlite.Row vs ms user_input))
  /\ Annoy.built (SQLiteStorage.annoy_index (ConceptLibrary.storage out.2))
     = false.
Proof.
  intros Hh Ht Hmax Hsm Hlen out. subst out.
  pose proof (healthy_next_rowid _ t Hh Ht) as Hnext.
  destruct Hh as (Hop & t' & Ht' & Hseq & Hrows).
  rewrite Ht in Ht'. injection Ht' as <-.
  rewrite add_interaction_unfold, store_outcome.
  cbn [SQLiteStorage.vector SQLiteStorage.metadata SQLiteStorage.raw_text].
  rewrite tolist_serialisable, Hsm, Hop, Ht. cbv zeta. rewrite Hnext.
  cbn [andb negb].
  destruct (Z.leb_spec (Sqlite.seq t + 1) Sqlite.max_rowid); [|lia].
  set (vs := string_of_list_ascii (Json.print (ConceptLibrary.tolist _))).
  set (ms := string_of_list_ascii (Json.print metadata)).
  set (st1 := SQLiteStorage.set_conn _ _).
  assert (Hvs : Rows.row_vector vs
                = Ok (ConceptLibrary.encode (ConceptLibrary.encoder lib)
                        user_input)).
  { apply row_vector_dumps. unfold Json.dumps.
    by rewrite tolist_serialisable. }
  assert (Hb : (SQLiteStorage._build_annoy_index st1).1 = Raise IndexError).
  { apply (build_raises_IndexError st1 _ eq_refl eq_refl).
    - intros id r Hr. simpl in Hr.
      destruct (decide (id = Sqlite.seq t + 1)) as [->|Hne].
      + rewrite lookup_insert_eq in Hr. injection Hr as <-. simpl.
        split; [lia|eauto].
      + rewrite lookup_insert_ne in Hr by done.
        destruct (Hrows id r Hr) as (Hid & (_ & v & Hv & _) & _).
        split; [lia|eauto].
    - eexists (Sqlite.seq t + 1), _, _. simpl.
      split; [apply lookup_insert_eq|]. split; [exact Hvs|].
      by destruct (ConceptLibrary.storage lib). }
  pose proof (build_outcome st1) as (Hc & _ & _ & _ & _ & _ & Hres).
  cbv zeta in *. rewrite Hb in Hres. destruct Hres as [Hunb _].
  destruct (SQLiteStorage._build_annoy_index st1) as [[[]|e] st2];
    simpl in *; [done|].
  split; [by injection Hb as ->|]. split; [|exact Hunb].
  eexists _, vs, ms. rewrite Hc. split; [reflexivity|]. simpl.
  apply lookup_insert_eq.
Qed.

(** ** Rebuilding again *)

(** A rebuild looks at nothing of the index it replaces. *)
Lemma build_ignores_index self ix0 :
  SQLiteStorage._build_annoy_index (SQLiteStorage.set_annoy_index ix0 self)
  = SQLiteStorage._build_annoy_index self.
Proof. rewrite !build_unfold. by destruct self. Qed.

Lemma for_each_add_row_file l x : forall s,
  for_each SQLiteStorage.add_row l (SQLiteStorage.set_index_file x s)
  = ((for_each SQLiteStorage.add_row l s).1,
     SQLiteStorage.set_index_file x (for_each SQLiteStorage.add_row l s).2).
Proof.
  induction l as [|[id v] l IH]; intros s; [done|].
  simpl. unfold bind. rewrite !add_row_unfold.
  destruct (Rows.row_vector v) as [w|e]; [|done].
  unfold SQLiteStorage.on_index.
  change (SQLiteStorage.annoy_index (SQLiteStorage.set_index_file x s))
    with (SQLiteStorage.annoy_index s).
  destruct (Annoy.add_item id w (SQLiteStorage.annoy_index s)) as [ix|e];
    [|done].
  change (SQLiteStorage.set_annoy_index ix (SQLiteStorage.set_index_file x s))
    with (SQLiteStorage.set_index_file x (SQLiteStorage.set_annoy_index ix s)).
  by rewrite IH.
Qed.

(** A rebuild that returns does not depend on the index file it overwrites. *)
Lemma build_ignores_file self x s1 :
  SQLiteStorage._build_annoy_index self = (Ok tt, s1) ->
  SQLiteStorage._build_annoy_index (SQLiteStorage.set_index_file x self)
  = (Ok tt, s1).
Proof.
  rewrite !build_unfold. cbv zeta.
  change (SQLiteStorage.conn (SQLiteStorage.set_index_file x self))
    with (SQLiteStorage.conn self).
  destruct (Sqlite.select_id_vector (SQLiteStorage.conn self)) as [l|e]; [|done].
  change (SQLiteStorage.set_annoy_index
            (Annoy.new
               (SQLiteStorage.embedding_dim (SQLiteStorage.set_index_file x self))
               Annoy.Angular) (SQLiteStorage.set_index_file x self))
    with (SQLiteStorage.set_index_file x
            (SQLiteStorage.set_annoy_index
               (Annoy.new (SQLiteStorage.embedding_dim self) Annoy.Angular) self)).
  rewrite for_each_add_row_file.
  destruct (for_each SQLiteStorage.add_row l _) as [[[]|e] self1]; [|done].
  simpl.
  destruct (Annoy.build _ _) as [ix|e]; [|done].
  destruct (Annoy.save ix) as [fl|e]; [|done].
  intros [= <-]. by destruct self1.
Qed.

(** What a rebuild changes of an instance: its index and its index file. *)
Lemma build_frame self :
  exists ix fl,
    (SQLiteStorage._build_annoy_index self).2
    = SQLiteStorage.set_index_file fl (SQLiteStorage.set_annoy_index ix self).
Proof.
  rewrite build_unfold. cbv zeta.
  set (self0 := SQLiteStorage.set_annoy_index _ self).
  destruct (Sqlite.select_id_vector (SQLiteStorage.conn self)) as [l|e] eqn:Esel.
  2:{ exists (Annoy.new (SQLiteStorage.embedding_dim self) Annoy.Angular),
        (SQLiteStorage.index_file self).
      subst self0. by destruct self. }
  assert (exists t, Sqlite.is_open (SQLiteStorage.conn self) = true
                    /\ Sqlite.concepts (SQLiteStorage.conn self) = Some t)
    as (t & Hop & Ht).
  { unfold Sqlite.select_id_vector in Esel.
    destruct (Sqlite.is_open _); [|done].
    destruct (Sqlite.concepts _) as [t|]; [|done]. eauto. }
  destruct (select_id_vector_rows _ t Hop Ht) as (l' & Hl' & Hnd & _).
  rewrite Esel in Hl'. injection Hl' as <-.
  destruct (for_each_add_row l self0 eq_refl Hnd) as (ix1 & Hst & _).
  destruct (for_each SQLiteStorage.add_row l self0) as [[[]|e] self1];
    simpl in Hst; subst self1.
  - destruct (Annoy.build _ _) as [ix|e].
    + destruct (Annoy.save ix) as [fl|e].
      * exists ix, (Some fl). subst self0. by destruct self.
      * exists ix, (SQLiteStorage.index_file self). subst self0.
        by destruct self.
    + exists ix1, (SQLiteStorage.index_file self). subst self0.
      by destruct self.
  - exists ix1, (SQLiteStorage.index_file self). subst self0. by destruct self.
Qed.

(** X16: a rebuild that returns can be run again without effect: the
    second one returns and leaves the very same state; and the first one
    would have given that state whatever index the instance held before. *)
Theorem rebuild_is_idempotent self s1 :
  SQLiteStorage._build_annoy_index self = (Ok tt, s1) ->
  SQLiteStorage._build_annoy_index s1 = (Ok tt, s1)
  /\ forall ix0,
      SQLiteStorage._build_annoy_index (SQLiteStorage.set_annoy_index ix0 self)
      = (Ok tt, s1).
Proof.
  intros Hb. split; [|intros ix0; by rewrite build_ignores_index].
  destruct (build_frame self) as (ix & fl & Hs1). rewrite Hb in Hs1.
  simpl in Hs1. rewrite Hs1 at 1.
  change (SQLiteStorage.set_index_file fl (SQLiteStorage.set_annoy_index ix self))
    with (SQLiteStorage.set_annoy_index ix (SQLiteStorage.set_index_file fl self)).
  rewrite build_ignores_index. by apply build_ignores_file.
Qed.

(** ** A first start *)

(** The storage a first start constructs on an empty disk. *)
Lemma first_start_state db_path dim m n :
  let out := SQLiteStorage.__init__ (SQLiteStorage.Disk None None) db_path
               dim m n in
  out.1 = Ok tt
  /\ Restart.healthy out.2
  /\ Restart.persisted out.2
  /\ Restart.in_sync out.2
  /\ Annoy.items (SQLiteStorage.annoy_index out.2) = ∅
  /\ Sqlite.concepts (SQLiteStorage.conn out.2) = Some Sqlite.empty_table
  /\ SQLiteStorage.embedding_dim out.2 = dim.
Proof.
  intros out. subst out. rewrite init_unfold. cbv zeta. simpl.
  set (self0 := SQLiteStorage.Self _ _ _ _ _ _).
  assert (Hh : Restart.healthy self0).
  { split; [done|]. exists Sqlite.empty_table. split; [done|]. split; [done|].
    intros id r Hr. simpl in Hr. by rewrite lookup_empty in Hr. }
  destruct (build_on_healthy self0 Hh) as [Hok Hh'].
  destruct (build_persists self0 Hok) as [Hp Hs].
  pose proof (build_outcome self0) as (Hc & Hd & _). cbv zeta in *.
  split; [done|]. split; [done|]. split; [done|]. split; [done|].
  split; [|split; [by rewrite Hc|by rewrite Hd]].
  destruct Hs as (t & Ht & Hdom). rewrite Hc in Ht. injection Ht as <-.
  apply dom_empty_inv_L. rewrite Hdom. apply dom_empty_L.
Qed.

Section FirstStart.
Variable distance : Annoy.metric -> Annoy.vector -> Annoy.vector -> Q.

(** X17: on an empty disk the library starts for every encoder: the table
    is created without rows, the index is built without items and written
    to the index file, and every search for a text whose vector has the
    encoder's dimensionality returns the empty list. *)
Theorem first_start_is_empty enc :
  exists lib,
    ConceptLibrary.__init__ (SQLiteStorage.Disk None None) enc None = Ok lib
    /\ Annoy.items (SQLiteStorage.annoy_index (ConceptLibrary.storage lib)) = ∅
    /\ Annoy.built (SQLiteStorage.annoy_index (ConceptLibrary.storage lib)) = true
    /\ Sqlite.concepts (SQLiteStorage.conn (ConceptLibrary.storage lib))
       = Some Sqlite.empty_table
    /\ SQLiteStorage.index_file (ConceptLibrary.storage lib)
       = Some (Annoy.File (ConceptLibrary.get_sentence_embedding_dimension enc) ∅)
    /\ forall query top_k,
        length (ConceptLibrary.encode enc query)
        = ConceptLibrary.get_sentence_embedding_dimension enc ->
        ConceptLibrary.search distance query top_k lib = (Ok [], lib).
Proof.
  unfold ConceptLibrary.__init__.
  destruct (first_start_state "concepts.db"
              (ConceptLibrary.get_sentence_embedding_dimension enc)
              Annoy.Angular 10)
    as (Hok & _ & (Hb & Hf & Hfile) & _ & Hit & Ht & Hd).
  destruct (SQLiteStorage.__init__ _ _ _ _ _) as [[[]|e] st]; [|done].
  simpl in *. eexists. split; [reflexivity|]. simpl.
  split; [done|]. split; [done|]. split; [done|].
  split; [by rewrite Hfile, Hf, Hd, Hit|].
  intros query top_k Hlen.
  unfold ConceptLibrary.search, bind, gets, ConceptLibrary.on_storage,
    SQLiteStorage.search, bind. simpl.
  rewrite (get_nns_empty distance); [done|by rewrite Hf, Hd|by right; right].
Qed.

End FirstStart.

(** ** Writes and searches in a row *)

Section Sessions.
Variable distance : Annoy.metric -> Annoy.vector -> Annoy.vector -> Q.

(** X18: on a healthy store whose built index holds the ids of the table,
    a search for a text whose vector has the index's dimensionality
    returns, with [top_k] records or, when there are fewer rows, one record
    per row; the records have distinct ids, all of rows of the table. *)
Theorem search_returns_min_records lib query top_k t :
  Restart.healthy (ConceptLibrary.storage lib) ->
  Sqlite.concepts (SQLiteStorage.conn (ConceptLibrary.storage lib)) = Some t ->
  Restart.in_sync (ConceptLibrary.storage lib) ->
  Annoy.built (SQLiteStorage.annoy_index (ConceptLibrary.storage lib)) = true ->
  length (ConceptLibrary.encode (ConceptLibrary.encoder lib) query)
  = Annoy.f (SQLiteStorage.annoy_index (ConceptLibrary.storage lib)) ->
  exists results,
    ConceptLibrary.search distance query top_k lib = (Ok results, lib)
    /\ length results = Nat.min top_k (size (Sqlite.rows t))
    /\ NoDup (SQLiteStorage.hit_id <$> results)
    /\ forall h, h ∈ results -> SQLiteStorage.hit_id h ∈ dom (Sqlite.rows t).
Proof.
  intros Hh Ht (t' & Ht' & Hdom) Hb Hlen.
  rewrite Ht in Ht'. injection Ht' as <-.
  destruct (storage_search_healthy distance _ top_k _ t Hh Ht Hdom Hb Hlen)
    as (results & Hs & Hn & Hnd & _).
  exists results.
  unfold ConceptLibrary.search, bind, gets, ConceptLibrary.on_storage.
  rewrite Hs. split; [by destruct lib|]. split; [done|]. split; [done|].
  intros h Hin. revert Hs. unfold SQLiteStorage.search, bind.
  destruct (Annoy.get_nns_by_vector distance _ top_k _) as [ids|e]; [|done].
  intros Hhy. destruct (hydrate_hits ids _ _ _ Hhy h Hin)
    as (_ & t' & r & Ht' & Hr & _).
  rewrite Ht in Ht'. injection Ht' as <-. apply elem_of_dom. eauto.
Qed.

(** X19: a first start, one write, one search: on an empty disk, for every
    encoder, text, JSON compatible metadata and query whose vectors have the
    encoder's dimensionality, and every [top_k] of at least 1, the write
    returns id 1 and the search returns exactly the record written. *)
Theorem first_record_round_trip enc user_input metadata query top_k :
  Json.compatible metadata = true ->
  length (ConceptLibrary.encode enc user_input)
  = ConceptLibrary.get_sentence_embedding_dimension enc ->
  length (ConceptLibrary.encode enc query)
  = ConceptLibrary.get_sentence_embedding_dimension enc ->
  (1 <= top_k)%nat ->
  exists lib0 lib1,
    ConceptLibrary.__init__ (SQLiteStorage.Disk None None) enc None = Ok lib0
    /\ ConceptLibrary.add_interaction user_input metadata lib0 = (Ok 1, lib1)
    /\ ConceptLibrary.search distance query top_k lib1
       = (Ok [SQLiteStorage.Hit 1
                (ConceptLibrary.tolist (ConceptLibrary.encode enc user_input))
                metadata user_input], lib1).
Proof.
  intros Hmd Hlen Hq Hk. unfold ConceptLibrary.__init__.
  destruct (first_start_state "concepts.db"
              (ConceptLibrary.get_sentence_embedding_dimension enc)
              Annoy.Angular 10)
    as (Hok & Hh & _ & _ & _ & Ht & Hd).
  destruct (SQLiteStorage.__init__ _ _ _ _ _) as [[[]|e] st0]; [|done].
  simpl in Hh, Ht, Hd. clear Hok.
  set (lib0 := ConceptLibrary.Self enc _ st0).
  destruct (add_interaction_healthy lib0 user_input metadata Sqlite.empty_table)
    as (Ha & Hh1 & (t1 & Ht1 & Hdom) & (Hb & Hf & _) & He1 & Hd1
        & vs & ms & Hc1 & _ & Hlv & Hlm);
    [done|done|done|done|subst lib0; simpl; by rewrite Hd|].
  destruct (ConceptLibrary.add_interaction user_input metadata lib0)
    as [r lib1] eqn:Eadd.
  simpl in Ha, Hh1, Ht1, Hdom, Hb, Hf, He1, Hd1, Hc1. subst r.
  rewrite Hc1 in Ht1. injection Ht1 as <-. simpl in Hdom.
  exists lib0, lib1. split; [done|]. split; [exact Eadd|].
  destruct (storage_search_healthy distance
              (ConceptLibrary.encode (ConceptLibrary.encoder lib1) query)
              top_k _ _ Hh1 Hc1 Hdom Hb)
    as (results & Hs & Hn & _).
  { rewrite He1, Hf, Hd1. subst lib0. simpl. by rewrite Hd. }
  unfold ConceptLibrary.search, bind, gets, ConceptLibrary.on_storage.
  rewrite Hs. simpl.
  assert (Hone : results
                 = [SQLiteStorage.Hit 1
                      (ConceptLibrary.tolist (ConceptLibrary.encode enc user_input))
                      metadata user_input]); [|by rewrite Hone; destruct lib1].
  simpl in Hn.
  rewrite map_size_insert_None, map_size_empty in Hn by apply lookup_empty.
  destruct results as [|h [|h' results]]; simpl in Hn; [lia| |lia].
  f_equal. revert Hs. unfold SQLiteStorage.search, bind.
  destruct (Annoy.get_nns_by_vector distance _ top_k _) as [ids|e]; [|done].
  intros Hhy.
  destruct (hydrate_hits ids _ _ _ Hhy h)
    as (_ & t' & r & Ht' & Hr & Hv & Hm & Htx); [by left|].
  rewrite Hc1 in Ht'. injection Ht' as <-. simpl in Hr.
  apply lookup_insert_Some in Hr as [[Hid <-]|[_ Hr]];
    [|by rewrite lookup_empty in Hr].
  simpl in Hv, Hm, Htx. rewrite Hlv in Hv. rewrite Hlm in Hm.
  injection Hv as Hv. injection Hm as Hm.
  destruct h as [hid hv hm ht]. simpl in *. by subst.
Qed.

End Sessions.

(** X20: writes in a row on a healthy store, for an encoder whose vectors
    all have the storage's dimensionality and JSON compatible metadata:
    every call returns, the ids are the next ones in order, one by one, and
    the store ends healthy, with one more row per write and a built,
    persisted index over all of them. *)
Theorem add_all_on_healthy_store items : forall lib t,
  Restart.healthy (ConceptLibrary.storage lib) ->
  Sqlite.concepts (SQLiteStorage.conn (ConceptLibrary.storage lib)) = Some t ->
  Restart.in_sync (ConceptLibrary.storage lib) ->
  Restart.persisted (ConceptLibrary.storage lib) ->
  (forall s, length (ConceptLibrary.encode (ConceptLibrary.encoder lib) s)
             = SQLiteStorage.embedding_dim (ConceptLibrary.storage lib)) ->
  Forall (fun it : string * Json.pyval => Json.compatible it.2 = true) items ->
  Sqlite.seq t + Z.of_nat (length items) ≤ Sqlite.max_rowid ->
  let out := Restart.add_all items lib in
  out.1 = Ok (seqZ (Sqlite.seq t + 1) (Z.of_nat (length items)))
  /\ Restart.healthy (ConceptLibrary.storage out.2)
  /\ Restart.in_sync (ConceptLibrary.storage out.2)
  /\ Restart.persisted (ConceptLibrary.storage out.2)
  /\ ConceptLibrary.encoder out.2 = ConceptLibrary.encoder lib
  /\ SQLiteStorage.embedding_dim (ConceptLibrary.storage out.2)
     = SQLiteStorage.embedding_dim (ConceptLibrary.storage lib)
  /\ exists t',
      Sqlite.concepts (SQLiteStorage.conn (ConceptLibrary.storage out.2))
      = Some t'
      /\ Sqlite.seq t' = Sqlite.seq t + Z.of_nat (length items)
      /\ size (Sqlite.rows t') = (size (Sqlite.rows t) + length items)%nat.
Proof.
  induction items as [|[user_input metadata] items IH];
    intros lib t Hh Ht Hs Hp Henc Hmd Hmax.
  - simpl. repeat (split; [done|]). exists t. split; [done|].
    split; [lia|]. by rewrite Nat.add_0_r.
  - apply Forall_cons in Hmd as [Hmd Hmds]. simpl in Hmd.
    cbn [length] in Hmax |- *.
    destruct (add_interaction_healthy lib user_input metadata t Hh Ht)
      as (Ha & Hh1 & Hs1 & Hp1 & He1 & Hd1 & vs & ms & Hc1 & Hfresh & _);
      [lia|done|apply Henc|].
    cbv zeta. cbn [Restart.add_all]. unfold bind, ret.
    destruct (ConceptLibrary.add_interaction user_input metadata lib)
      as [r lib1]. simpl in Ha, Hh1, Hs1, Hp1, He1, Hd1, Hc1. subst r.
    edestruct (IH lib1 _ Hh1 Hc1 Hs1 Hp1)
      as (Hb & Hh2 & Hs2 & Hp2 & He2 & Hd2 & t2 & Ht2 & Hseq2 & Hsize2);
      [by intros s; rewrite He1, Hd1|done|simpl; lia|].
    destruct (Restart.add_all items lib1) as [r2 lib2].
    simpl in Hb, Hh2, Hs2, Hp2, He2, Hd2, Ht2, Hseq2, Hsize2. subst r2.
    cbn [fst snd]. split.
    { rewrite (seqZ_cons (Sqlite.seq t + 1)) by lia. cbn [Sqlite.seq].
      replace (Z.succ (Sqlite.seq t + 1)) with (Sqlite.seq t + 1 + 1) by lia.
      by replace (Z.pred (Z.of_nat (S (length items))))
        with (Z.of_nat (length items)) by lia. }
    split; [done|]. split; [done|]. split; [done|].
    split; [by rewrite He2|]. split; [by rewrite Hd2|].
    exists t2. split; [done|]. split; [lia|].
    rewrite Hsize2. simpl. rewrite map_size_insert_None by done. lia.
Qed.

(** ** The sample data *)

(** The storage of [Sample.lib2], reached by a first start and two writes,
    is healthy, and its index is in step with the table and persisted. *)
Lemma sample_storage2_state :
  Restart.healthy Sample.storage2
  /\ Restart.in_sync Sample.storage2
  /\ Restart.persisted Sample.storage2.
Proof.
  destruct (first_start_state "concepts.db" 2 Annoy.Angular 10)
    as (_ & Hh0 & _ & _ & _ & Ht0 & _).
  destruct (add_interaction_healthy Sample.lib0 "apple" Sample.health
              Sqlite.empty_table)
    as (_ & Hh1 & _ & _ & _ & _ & vs & ms & Hc1 & _);
    [exact Hh0|exact Ht0|done|vm_compute; reflexivity|vm_compute; reflexivity|].
  destruct (add_interaction_healthy
              (ConceptLibrary.add_interaction "apple" Sample.health Sample.lib0).2
              "banana" Sample.health _ Hh1 Hc1)
    as (_ & Hh2 & Hs2 & Hp2 & _);
    [done|vm_compute; reflexivity|vm_compute; reflexivity|].
  split; [exact Hh2|]. split; [exact Hs2|exact Hp2].
Qed.

Lemma sample_table2 :
  Sqlite.concepts (SQLiteStorage.conn Sample.storage2) = Some Sample.table2.
Proof. vm_compute; reflexivity. Qed.

Lemma create_table_idempotent_witness :
  Sqlite.is_open (SQLiteStorage.conn Sample.storage2) = true
  /\ SQLiteStorage._create_table (SQLiteStorage._create_table Sample.storage2).2
     = (Ok tt, (SQLiteStorage._create_table Sample.storage2).2).
Proof.
  assert (Hop : Sqlite.is_open (SQLiteStorage.conn Sample.storage2) = true)
    by (vm_compute; reflexivity).
  split; [exact Hop|].
  destruct (create_table_idempotent Sample.storage2 Hop) as (_ & _ & _ & _ & H).
  exact H.
Defined.

Lemma init_leaves_persisted_index_witness :
  (SQLiteStorage.__init__ Sample.disk3 "concepts.db" 2 Annoy.Euclidean 10).1
  = Ok tt
  /\ Restart.persisted
       (SQLiteStorage.__init__ Sample.disk3 "concepts.db" 2 Annoy.Euclidean 10).2.
Proof.
  assert (Hok : (SQLiteStorage.__init__ Sample.disk3 "concepts.db" 2
                   Annoy.Euclidean 10).1 = Ok tt) by (vm_compute; reflexivity).
  split; [exact Hok|].
  destruct (init_leaves_persisted_index Sample.disk3 "concepts.db" 2
              Annoy.Euclidean 10 Hok) as (H & _).
  exact H.
Defined.

Lemma reopen_restores_index_witness :
  Restart.persisted Sample.storage2
  /\ SQLiteStorage.annoy_index
       (SQLiteStorage.__init__ (Restart.left_on_disk Sample.storage2)
          "concepts.db" (SQLiteStorage.embedding_dim Sample.storage2)
          (Annoy.metric_of (SQLiteStorage.annoy_index Sample.storage2)) 10).2
     = SQLiteStorage.annoy_index Sample.storage2.
Proof.
  destruct sample_storage2_state as (_ & _ & Hp).
  split; [exact Hp|].
  destruct (reopen_restores_index Sample.storage2 "concepts.db" 10 Hp)
    as (_ & H & _).
  exact H.
Defined.

Lemma add_interaction_persists_index_witness :
  ConceptLibrary.add_interaction "pear" Sample.health Sample.lib2
  = (Ok 3, Scenario.lib3)
  /\ Restart.persisted (ConceptLibrary.storage Scenario.lib3).
Proof.
  assert (H : ConceptLibrary.add_interaction "pear" Sample.health Sample.lib2
              = (Ok 3, Scenario.lib3)) by (vm_compute; reflexivity).
  split; [exact H|].
  destruct (add_interaction_persists_index Sample.lib2 "pear" Sample.health 3
              Scenario.lib3 H) as (Hp & _).
  exact Hp.
Defined.

Lemma search_without_items_is_empty_witness :
  length Sample.query5
  = Annoy.f (SQLiteStorage.annoy_index Sample.storage2)
  /\ SQLiteStorage.search Sample.distance Sample.query5 0 Sample.storage2
     = (Ok [], Sample.storage2).
Proof.
  assert (Hlen : length Sample.query5
                 = Annoy.f (SQLiteStorage.annoy_index Sample.storage2))
    by (vm_compute; reflexivity).
  split; [exact Hlen|].
  exact (search_without_items_is_empty Sample.distance Sample.query5 0
           Sample.storage2 Hlen (or_introl eq_refl)).
Defined.

Lemma search_on_closed_store_witness :
  Sqlite.is_open (SQLiteStorage.conn (ConceptLibrary.storage Sample.lib_closed))
  = false
  /\ SQLiteStorage.search Sample.distance Sample.query5 5
       (ConceptLibrary.storage Sample.lib_closed)
     = (Raise ProgrammingError, ConceptLibrary.storage Sample.lib_closed).
Proof.
  assert (Hcl : Sqlite.is_open
                  (SQLiteStorage.conn (ConceptLibrary.storage Sample.lib_closed))
                = false) by (vm_compute; reflexivity).
  split; [exact Hcl|].
  rewrite (search_on_closed_store Sample.distance Sample.query5 5
             (ConceptLibrary.storage Sample.lib_closed) Hcl).
  vm_compute; reflexivity.
Defined.

Lemma add_interaction_rebuild_fails_witness :
  SQLiteStorage.store Sample.kiwi (ConceptLibrary.storage Scenario.lib_mixed)
  = (Ok 3, Sample.mixed_storage)
  /\ (SQLiteStorage._build_annoy_index Sample.mixed_storage).1 = Raise IndexError
  /\ (ConceptLibrary.add_interaction "kiwi" Sample.health Scenario.lib_mixed).1
     = Raise IndexError
  /\ Annoy.built
       (SQLiteStorage.annoy_index
          (ConceptLibrary.storage
             (ConceptLibrary.add_interaction "kiwi" Sample.health
                Scenario.lib_mixed).2)) = false.
Proof.
  assert (Hst : SQLiteStorage.store Sample.kiwi
                  (ConceptLibrary.storage Scenario.lib_mixed)
                = (Ok 3, Sample.mixed_storage)) by (vm_compute; reflexivity).
  assert (Hb : (SQLiteStorage._build_annoy_index Sample.mixed_storage).1
               = Raise IndexError) by (vm_compute; reflexivity).
  split; [exact Hst|]. split; [exact Hb|].
  destruct (add_interaction_rebuild_fails Scenario.lib_mixed "kiwi"
              Sample.health 3 Sample.mixed_storage IndexError Hst Hb)
    as (H1 & _ & H3 & _).
  split; [exact H1|exact H3].
Defined.

Lemma add_interaction_wrong_length_witness :
  length (ConceptLibrary.encode (ConceptLibrary.encoder Scenario.lib_mixed) "kiwi")
  ≠ SQLiteStorage.embedding_dim (ConceptLibrary.storage Scenario.lib_mixed)
  /\ (ConceptLibrary.add_interaction "kiwi" Sample.health Scenario.lib_mixed).1
     = Raise IndexError.
Proof.
  assert (Hne : length (ConceptLibrary.encode
                          (ConceptLibrary.encoder Scenario.lib_mixed) "kiwi")
                ≠ SQLiteStorage.embedding_dim
                    (ConceptLibrary.storage Scenario.lib_mixed))
    by (vm_compute; lia).
  split; [exact Hne|].
  destruct sample_storage2_state as (Hh & _ & _).
  destruct (add_interaction_wrong_length Scenario.lib_mixed "kiwi" Sample.health
              Sample.table2 Hh sample_table2)
    as (H & _); [vm_compute; reflexivity|vm_compute; reflexivity|exact Hne|].
  exact H.
Defined.

Lemma add_interaction_indexes_vector_witness :
  ConceptLibrary.add_interaction "pear" Sample.health Sample.lib2
  = (Ok 3, Scenario.lib3)
  /\ Annoy.items (SQLiteStorage.annoy_index (ConceptLibrary.storage Scenario.lib3))
       !! 3
     = Some (ConceptLibrary.encode (ConceptLibrary.encoder Sample.lib2) "pear").
Proof.
  assert (H : ConceptLibrary.add_interaction "pear" Sample.health Sample.lib2
              = (Ok 3, Scenario.lib3)) by (vm_compute; reflexivity).
  split; [exact H|].
  destruct (add_interaction_indexes_vector Sample.lib2 "pear" Sample.health 3
              Scenario.lib3 H) as (Hv & _).
  exact Hv.
Defined.

Lemma search_sees_new_record_witness :
  ConceptLibrary.search Sample.distance "plum" 5 Scenario.lib3
  = (Ok (Scenario.returned
           (ConceptLibrary.search Sample.distance "plum" 5 Scenario.lib3).1),
     Scenario.lib3)
  /\ SQLiteStorage.Hit 3
       (ConceptLibrary.tolist
          (ConceptLibrary.encode (ConceptLibrary.encoder Sample.lib2) "pear"))
       Sample.health "pear"
     ∈ Scenario.returned
         (ConceptLibrary.search Sample.distance "plum" 5 Scenario.lib3).1.
Proof.
  assert (Ha : ConceptLibrary.add_interaction "pear" Sample.health Sample.lib2
               = (Ok 3, Scenario.lib3)) by (vm_compute; reflexivity).
  assert (Hs : ConceptLibrary.search Sample.distance "plum" 5 Scenario.lib3
               = (Ok (Scenario.returned
                        (ConceptLibrary.search Sample.distance "plum" 5
                           Scenario.lib3).1), Scenario.lib3))
    by (vm_compute; reflexivity).
  split; [exact Hs|].
  apply (search_sees_new_record Sample.distance Sample.lib2 "pear" Sample.health
           3 Scenario.lib3 "plum" 5 _ Scenario.lib3); [|exact Ha| |exact Hs].
  - vm_compute; reflexivity.
  - vm_compute. lia.
Defined.

Lemma search_returns_decoded_rows_witness :
  SQLiteStorage.search Sample.distance Sample.query5 1 Sample.storage2
  = (Ok (Scenario.returned
           (SQLiteStorage.search Sample.distance Sample.query5 1
              Sample.storage2).1), Sample.storage2)
  /\ forall h,
      h ∈ Scenario.returned
            (SQLiteStorage.search Sample.distance Sample.query5 1
               Sample.storage2).1 ->
      exists t r,
        Sqlite.concepts (SQLiteStorage.conn Sample.storage2) = Some t
        /\ Sqlite.rows t !! SQLiteStorage.hit_id h = Some r
        /\ SQLiteStorage.hit_raw_text h = Sqlite.col_raw_text r.
Proof.
  assert (Hs : SQLiteStorage.search Sample.distance Sample.query5 1
                 Sample.storage2
               = (Ok (Scenario.returned
                        (SQLiteStorage.search Sample.distance Sample.query5 1
                           Sample.storage2).1), Sample.storage2))
    by (vm_compute; reflexivity).
  split; [exact Hs|]. intros h Hin.
  destruct (search_returns_decoded_rows Sample.distance Sample.query5 1
              Sample.storage2 _ _ Hs h Hin) as (t & r & Ht & Hr & _ & _ & Hx).
  exists t, r. split; [exact Ht|]. split; [exact Hr|exact Hx].
Defined.

Lemma rebuild_is_idempotent_witness :
  SQLiteStorage._build_annoy_index Sample.storage2
  = (Ok tt, (SQLiteStorage._build_annoy_index Sample.storage2).2)
  /\ SQLiteStorage._build_annoy_index
       (SQLiteStorage._build_annoy_index Sample.storage2).2
     = (Ok tt, (SQLiteStorage._build_annoy_index Sample.storage2).2).
Proof.
  assert (H : SQLiteStorage._build_annoy_index Sample.storage2
              = (Ok tt, (SQLiteStorage._build_annoy_index Sample.storage2).2))
    by (vm_compute; reflexivity).
  split; [exact H|].
  destruct (rebuild_is_idempotent Sample.storage2 _ H) as (H2 & _).
  exact H2.
Defined.

Lemma search_returns_min_records_witness :
  exists results,
    ConceptLibrary.search Sample.distance "plum" 5 Sample.lib2
    = (Ok results, Sample.lib2)
    /\ length results = Nat.min 5 (size (Sqlite.rows Sample.table2)).
Proof.
  destruct sample_storage2_state as (Hh & Hs & (Hb & _)).
  destruct (search_returns_min_records Sample.distance Sample.lib2 "plum" 5
              Sample.table2 Hh sample_table2 Hs Hb)
    as (results & H1 & H2 & _); [vm_compute; reflexivity|].
  exists results. split; [exact H1|exact H2].
Defined.

Lemma first_record_round_trip_witness :
  exists lib0 lib1,
    ConceptLibrary.__init__ (SQLiteStorage.Disk None None) Sample.enc2 None
    = Ok lib0
    /\ ConceptLibrary.add_interaction "apple" Sample.health lib0 = (Ok 1, lib1)
    /\ ConceptLibrary.search Sample.distance "pear" 1 lib1
       = (Ok [SQLiteStorage.Hit 1
                (ConceptLibrary.tolist
                   (ConceptLibrary.encode Sample.enc2 "apple"))
                Sample.health "apple"], lib1).
Proof.
  apply (first_record_round_trip Sample.distance Sample.enc2 "apple"
           Sample.health "pear" 1).
  - vm_compute; reflexivity.
  - reflexivity.
  - reflexivity.
  - lia.
Defined.

Lemma add_all_on_healthy_store_witness :
  (Restart.add_all Scenario.two_more Sample.lib2).1 = Ok [3; 4]
  /\ Restart.healthy
       (ConceptLibrary.storage
          (Restart.add_all Scenario.two_more Sample.lib2).2).
Proof.
  destruct sample_storage2_state as (Hh & Hs & Hp).
  destruct (add_all_on_healthy_store Scenario.two_more Sample.lib2 Sample.table2
              Hh sample_table2 Hs Hp) as (H1 & H2 & _).
  - intros s. reflexivity.
  - repeat constructor.
  - vm_compute. discriminate.
  - split; [exact H1|exact H2].
Defined.

Lemma startup_compares_nothing_witness :
  Annoy.file_f <$> SQLiteStorage.index_on_disk Scenario.stale_disk
  = Some 3%nat
  /\ ConceptLibrary.get_sentence_embedding_dimension Sample.enc2 = 2%nat
  /\ exists lib,
      ConceptLibrary.__init__ Scenario.stale_disk Sample.enc2 None = Ok lib
      /\ Annoy.f (SQLiteStorage.annoy_index (ConceptLibrary.storage lib))
         = 2%nat
      /\ Sqlite.concepts (SQLiteStorage.conn (ConceptLibrary.storage lib))
         = Some Sample.table2.
Proof.
  split; [reflexivity|]. split; [reflexivity|].
  assert (Hd : SQLiteStorage.embedding_dim Sample.storage2 = 2%nat)
    by (vm_compute; reflexivity).
  destruct sample_storage2_state as ((_ & t & Ht & _ & Hrows) & _).
  rewrite sample_table2 in Ht. injection Ht as <-. rewrite Hd in Hrows.
  assert (Hseq : Sqlite.seq Sample.table2 = 2) by (vm_compute; reflexivity).
  destruct (startup_compares_nothing Scenario.stale_disk Sample.enc2)
    as [_ H].
  destruct H as (lib & H1 & _ & _ & _ & _ & H6 & _ & H8).
  - intros id r Hr. destruct (Hrows id r Hr) as (Hid & Ha & _).
    split; [rewrite Hseq in Hid; lia|exact Ha].
  - exists lib. split; [exact H1|]. split; [exact H6|exact H8].
Defined.

Lemma search_returns_nearest_first_witness :
  length (ConceptLibrary.encode Sample.enc3 "plum")
  ≠ Annoy.f (SQLiteStorage.annoy_index Sample.storage2)
  /\ SQLiteStorage.search Sample.distance
       (ConceptLibrary.encode Sample.enc3 "plum") 5 Sample.storage2
     = (Raise IndexError, Sample.storage2)
  /\ length Sample.query5
     = Annoy.f (SQLiteStorage.annoy_index Sample.storage2)
  /\ exists ids results,
      Annoy.get_nns_by_vector Sample.distance Sample.query5 1
        (SQLiteStorage.annoy_index Sample.storage2) = Ok ids
      /\ length ids
         = Nat.min 1
             (size (Annoy.items (SQLiteStorage.annoy_index Sample.storage2)))
      /\ SQLiteStorage.search Sample.distance Sample.query5 1 Sample.storage2
         = (Ok results, Sample.storage2)
      /\ SQLiteStorage.hit_id <$> results = ids.
Proof.
  assert (Hne : length (ConceptLibrary.encode Sample.enc3 "plum")
                ≠ Annoy.f (SQLiteStorage.annoy_index Sample.storage2))
    by (vm_compute; lia).
  assert (Hlen : length Sample.query5
                 = Annoy.f (SQLiteStorage.annoy_index Sample.storage2))
    by (vm_compute; reflexivity).
  destruct sample_storage2_state as (Hh & Hs & (Hb & _)).
  split; [exact Hne|]. split.
  - destruct (search_returns_nearest_first Sample.distance
                (ConceptLibrary.encode Sample.enc3 "plum") 5 Sample.storage2)
      as [H _].
    exact (H Hne).
  - split; [exact Hlen|].
    destruct (search_returns_nearest_first Sample.distance Sample.query5 1
                Sample.storage2) as [_ H].
    destruct (H Hlen) as (ids & H1 & _ & _ & _ & _ & H7 & H8).
    destruct (H8 Hh Hs) as (results & H9 & H10).
    exists ids, results. split; [exact H1|]. split; [exact (H7 Hb)|].
    split; [exact H9|exact H10].
Defined.
